(** * LAN configuration parameter handler (transporthandler.cpp)

    A shallow embedding of the IPMI transport handler of
    phosphor-host-ipmid: the netmask codec, the DHCP reconciliation, the
    address / VLAN / neighbour reconciliation and the Set / Get LAN
    Configuration Parameters switch, together with the properties the
    specification states about them.

    Conventions.  A [uintN_t] is a [Z] in [0, 2^N) with its wrap-around
    written out.  A C++ function that talks to the bus is a function of
    the monad [M]: it threads the [World] (network service state, the log
    of bus calls, the process-wide maps) and ends in a value, in a thrown
    exception, or in undefined behaviour. *)

From Stdlib Require Import ZArith List Lia Bool.
From stdpp Require Import base option gmap strings pretty list.

Local Open Scope Z_scope.
#[local] Set Default Proof Using "Type*".

(** ** Machine integers *)

Module Word.

Definition wrap (w : Z) (x : Z) : Z := x mod 2 ^ w.

Definition UINT32_C (x : Z) : Z := wrap 32 x.

(** [~x] on a [uint32_t]. *)
Definition not32 (x : Z) : Z := wrap 32 (Z.lnot x).

(** [x << n] on a [uint32_t]; a shift count that is negative or not
    below the width is undefined behaviour, which is [None] here. *)
Definition shl32 (x n : Z) : option Z :=
  if (0 <=? n) && (n <? 32) then Some (wrap 32 (Z.shiftl x n)) else None.

(** [x + y] on a [uint32_t]. *)
Definition add32 (x y : Z) : Z := wrap 32 (x + y).

Definition byte_of (x i : Z) : Z := Z.land (Z.shiftr x (8 * i)) 255.

(** Byte reversal of a 32-bit word. *)
Definition bswap32 (x : Z) : Z :=
  Z.lor (Z.shiftl (byte_of x 0) 24)
    (Z.lor (Z.shiftl (byte_of x 1) 16)
       (Z.lor (Z.shiftl (byte_of x 2) 8) (byte_of x 3))).

(** [htobe32] and [be32toh] of <endian.h> on a little-endian host (the
    BMC targets of the daemon): both reverse the four bytes. *)
Definition htobe32 (x : Z) : Z := bswap32 x.
Definition be32toh (x : Z) : Z := bswap32 x.

Fixpoint ctz_pos (p : positive) : Z :=
  match p with
  | xO q => 1 + ctz_pos q
  | _ => 0
  end.

(** [__builtin_ctz]: the number of trailing zero bits; the result is
    undefined for 0, which is [None] here. *)
Definition builtin_ctz (x : Z) : option Z :=
  match x with
  | Zpos p => Some (ctz_pos p)
  | _ => None
  end.

(** The bytes of a [w]-byte integer, least significant first, and back. *)
Fixpoint le_split (n : nat) (x : Z) : list Z :=
  match n with
  | O => []
  | S n' => Z.land x 255 :: le_split n' (Z.shiftr x 8)
  end.

Fixpoint le_combine (l : list Z) : Z :=
  match l with
  | [] => 0
  | b :: l' => Z.lor (Z.land b 255) (Z.shiftl (le_combine l') 8)
  end.

End Word.

(** ** Exceptions and outcomes *)

(** The exceptions that travel through this file.  [InternalFailure] is
    what [elog<InternalFailure>()] throws; [SdBusError name] is what a
    failed bus call throws, [name] being the D-Bus error name.
    [InvalidArgument] is the invalid-parameter error of the same
    [xyz.openbmc_project.Common.Error] family; no function of this file
    throws it, it is here so that statements can tell the two apart. *)
Inductive exn : Type :=
| InternalFailure
| InvalidArgument
| SdBusError (name : string).

(** How a call ends: with a value, with an exception in flight, or in
    undefined behaviour (such as reading through an empty
    [std::optional]). *)
Inductive Outcome (A : Type) : Type :=
| Ok (a : A)
| Throw (e : exn)
| Undefined.
Arguments Ok {A} a.
Arguments Throw {A} e.
Arguments Undefined {A}.

(** ** IPv4 netmask codec *)

Record in_addr : Type := { s_addr : Z }.

(** [AddrFamily<AF_INET>::defaultPrefix] *)
Definition defaultPrefix4 : Z := 32.

Definition prefixToNetmask (prefix : Z) : Outcome in_addr :=
  if 32 <? prefix then Throw InternalFailure
  else if prefix =? 0
  then
    (* Avoids 32-bit lshift by 32 UB *)
    Ok {| s_addr := 0 |}
  else
    match Word.shl32 (Word.not32 (Word.UINT32_C 0)) (32 - prefix) with
    | Some mask => Ok {| s_addr := Word.htobe32 mask |}
    | None => Undefined
    end.

Definition netmaskToPrefix (netmask : in_addr) : Outcome Z :=
  let x := Word.be32toh (s_addr netmask) in
  if negb (Z.land (Word.not32 x) (Word.add32 (Word.not32 x) 1) =? 0)
  then Throw InternalFailure
  else if negb (x =? 0)
       then match Word.builtin_ctz x with
            | Some n => Ok (Word.wrap 8 (defaultPrefix4 - n))
            | None => Undefined
            end
       else Ok 0.

(** A 32-bit word is a netmask when its 1-bits are a left-aligned
    contiguous run: above a set bit every bit of the word is set. *)
Definition left_aligned_ones (x : Z) : Prop :=
  forall i j, 0 <= i <= j -> j < 32 -> Z.testbit x i = true -> Z.testbit x j = true.

Definition is_uint32 (x : Z) : Prop := 0 <= x < 2 ^ 32.

(** ** Enumerations of the handler and of the network service *)

Module DHCPConf.
(** [EthernetInterface::DHCPConf] *)
Inductive t : Type := both | v4 | v6 | none.
#[global] Instance eq_dec : EqDecision t.
Proof. solve_decision. Defined.
End DHCPConf.

Module IP.
(** [IP::AddressOrigin] and [IP::Protocol] *)
Inductive AddressOrigin : Type := Static | DHCP | LinkLocal | SLAAC.
Inductive Protocol : Type := IPv4 | IPv6.
#[global] Instance origin_eq_dec : EqDecision AddressOrigin.
Proof. solve_decision. Defined.
#[global] Instance protocol_eq_dec : EqDecision Protocol.
Proof. solve_decision. Defined.
End IP.

Module Neighbor.
(** [Neighbor::State] *)
Inductive State : Type := Incomplete | Reachable | Stale | Invalid | Permanent.
#[global] Instance state_eq_dec : EqDecision State.
Proof. solve_decision. Defined.
End Neighbor.

Module SetStatus.
Inductive t : Type := Complete | InProgress | Commit.
#[global] Instance eq_dec : EqDecision t.
Proof. solve_decision. Defined.
Definition all : list t := [Complete; InProgress; Commit].
End SetStatus.

Module IPSrc.
Inductive t : Type := Unspecified | Static | DHCP | BIOS | BMC.
Definition all : list t := [Unspecified; Static; DHCP; BIOS; BMC].
End IPSrc.

Module IPFamilyEnables.
Inductive t : Type := IPv4Only | IPv6Only | DualStack.
Definition all : list t := [IPv4Only; IPv6Only; DualStack].
End IPFamilyEnables.

Module IPv6Source.
Inductive t : Type := Static | SLAAC | DHCP.
End IPv6Source.

Module IPv6AddressStatus.
Inductive t : Type := Active | Disabled.
End IPv6AddressStatus.

Module IPFamilySupportFlag.
Inductive t : Type := IPv6Only | DualStack | IPv6Alerts.
End IPFamilySupportFlag.

Module IPv6StatusFlag.
Inductive t : Type := DHCP | SLAAC.
End IPv6StatusFlag.

Module IPv6RouterControlFlag.
Inductive t : Type := Static | Dynamic.
End IPv6RouterControlFlag.

Module EChannelSessSupported.
Inductive t : Type := none | single | multi | any.
#[global] Instance eq_dec : EqDecision t.
Proof. solve_decision. Defined.
End EChannelSessSupported.

Module LanParam.
Inductive t : Type :=
| SetStatus | AuthSupport | AuthEnables | IP | IPSrc | MAC | SubnetMask
| Gateway1 | Gateway1MAC | VLANId | CiphersuiteSupport | CiphersuiteEntries
| cipherSuitePrivilegeLevels | IPFamilySupport | IPFamilyEnables
| IPv6Status | IPv6StaticAddresses | IPv6DynamicAddresses
| IPv6RouterControl | IPv6StaticRouter1IP | IPv6StaticRouter1MAC
| IPv6StaticRouter1PrefixLength | IPv6StaticRouter1PrefixValue.
Definition all : list t :=
  [SetStatus; AuthSupport; AuthEnables; IP; IPSrc; MAC; SubnetMask;
   Gateway1; Gateway1MAC; VLANId; CiphersuiteSupport; CiphersuiteEntries;
   cipherSuitePrivilegeLevels; IPFamilySupport; IPFamilyEnables;
   IPv6Status; IPv6StaticAddresses; IPv6DynamicAddresses;
   IPv6RouterControl; IPv6StaticRouter1IP; IPv6StaticRouter1MAC;
   IPv6StaticRouter1PrefixLength; IPv6StaticRouter1PrefixValue].
End LanParam.

(** [static_cast<E>(z)] followed by a [switch] over the enumerators of
    [E]: the enumerator whose value is [z], if there is one. *)
Definition enum_cast {E : Type} (value : E -> Z) (all : list E) (z : Z) : option E :=
  List.find (fun e => value e =? z) all.

(** IPMI completion codes, as the [response...()] helpers name them. *)
Inductive Cc : Type :=
| ccSuccess
| ccParamNotSupported
| ccParamSetLocked
| ccParamReadOnly
| ccInvalidFieldRequest
| ccReqDataLenInvalid
| ccParmOutOfRange
| ccCommandNotAvailable
| ccUnspecifiedError
| ccOther (code : Z).

(** ** Addresses *)

(** An [in6_addr] is its 16 bytes, read as one little-endian number; an
    [ether_addr] is its six octets. *)
Record in6_addr : Type := { s6_addr : Z }.
Record ether_addr : Type := { ether_addr_octet : list Z }.

#[global] Instance in_addr_eq_dec : EqDecision in_addr.
Proof. solve_decision. Defined.
#[global] Instance in6_addr_eq_dec : EqDecision in6_addr.
Proof. solve_decision. Defined.
#[global] Instance ether_addr_eq_dec : EqDecision ether_addr.
Proof. solve_decision. Defined.

(** What an address property holds on the bus: the text of an IPv4 or of
    an IPv6 address. *)
Inductive NetAddr : Type :=
| Addr4 (a : in_addr)
| Addr6 (a : in6_addr).
#[global] Instance NetAddr_eq_dec : EqDecision NetAddr.
Proof. solve_decision. Defined.

Inductive Family : Type := AF_INET | AF_INET6.

(** Modelled from the spec: the [AddrFamily<family>] traits of
    transporthandler.hpp (address type, default prefix, protocol, and the
    conversions between an address and its text), which the spec names as
    the per-family default prefix, string conversion and protocol
    identifier. *)
Class AddrFamily (family : Family) : Type := {
  addr : Type;
  addr_eq_dec : EqDecision addr;
  defaultPrefix : Z;
  protocol : IP.Protocol;
  addrToString : addr -> NetAddr;
  maybeStringToAddr : NetAddr -> option addr;
  zeroAddr : addr;
}.
#[global] Existing Instance addr_eq_dec.
#[global] Hint Mode AddrFamily + : typeclass_instances.
Arguments addr family {_}.
Arguments defaultPrefix family {_}.
Arguments protocol family {_}.
Arguments zeroAddr family {_}.

#[global] Instance AddrFamily_INET : AddrFamily AF_INET := {|
  addr := in_addr;
  defaultPrefix := defaultPrefix4;
  protocol := IP.IPv4;
  addrToString := Addr4;
  maybeStringToAddr := fun s => match s with Addr4 a => Some a | Addr6 _ => None end;
  zeroAddr := {| s_addr := 0 |};
|}.

#[global] Instance AddrFamily_INET6 : AddrFamily AF_INET6 := {|
  addr := in6_addr;
  defaultPrefix := 128;
  protocol := IP.IPv6;
  addrToString := Addr6;
  maybeStringToAddr := fun s => match s with Addr6 a => Some a | Addr4 _ => None end;
  zeroAddr := {| s6_addr := 0 |};
|}.

(** Modelled from the spec: [IfAddr<family>] and [IfNeigh<family>] of
    transporthandler.hpp, the data model's address record (address, prefix
    length, origin, object identity) and neighbour record (ip, mac, object
    identity). *)
Record IfAddr (family : Family) `{AddrFamily family} : Type := {
  ifaddr_path : string;
  ifaddr_address : addr family;
  ifaddr_origin : IP.AddressOrigin;
  ifaddr_prefix : Z;
}.
Arguments ifaddr_path {family _} _.
Arguments ifaddr_address {family _} _.
Arguments ifaddr_origin {family _} _.
Arguments ifaddr_prefix {family _} _.

Record IfNeigh (family : Family) `{AddrFamily family} : Type := {
  ifneigh_path : string;
  ifneigh_ip : addr family;
  ifneigh_mac : ether_addr;
}.
Arguments ifneigh_path {family _} _.
Arguments ifneigh_ip {family _} _.
Arguments ifneigh_mac {family _} _.

Record ChannelParams : Type := {
  id : Z;
  ifname : string;
  service : string;
  ifPath : string;
  logicalPath : string;
}.

(** ** The bus: object mapper and network service *)

Inductive Interface : Type :=
| INTF_ETHERNET | INTF_VLAN | INTF_IP | INTF_NEIGHBOR | INTF_MAC
| DELETE_INTERFACE.
#[global] Instance Interface_eq_dec : EqDecision Interface.
Proof. solve_decision. Defined.

(** [ObjectTree]: object path, then owning service, then the interfaces
    the service implements on the object. *)
Definition ObjectTree : Type := list (string * list (string * list Interface)).

(** The properties of an address object and of a neighbour object. *)
Record IPProps : Type := {
  Address : NetAddr;
  PrefixLength : Z;
  Origin : IP.AddressOrigin;
}.

Record NeighborProps : Type := {
  IPAddress : NetAddr;
  MACAddress : ether_addr;
  State : Neighbor.State;
}.

(** A bus call either delivers its reply or fails with a D-Bus error
    name, which sdbusplus turns into [SdBusError]. *)
Inductive BusResult (A : Type) : Type :=
| Reply (a : A)
| BusError (name : string).
Arguments Reply {A} a.
Arguments BusError {A} name.

(** Every call the handler places on the bus, as it is logged. *)
Inductive BusCall : Type :=
| GetSubTree (interfaces : list Interface)
| GetAllObjects (service path : string) (intf : Interface)
| GetDHCPEnabled (service path : string)
| SetDHCPEnabled (service path : string) (value : DHCPConf.t)
| GetMACAddress (service path : string)
| SetMACAddress (service path : string) (mac : ether_addr)
| GetVLANId (service path : string)
| GetGateway (service ifname : string) (proto : IP.Protocol)
| SetGateway (service ifname : string) (proto : IP.Protocol) (gateway : NetAddr)
| CallDelete (service path : string)
| CallIP (service path : string) (proto : IP.Protocol) (address : NetAddr) (prefix : Z)
| CallNeighbor (service path : string) (ip : NetAddr) (mac : ether_addr)
| CallVLAN (service ifname : string) (vlan : Z).

(** The services behind the bus, over a state [net] of their own.  The
    queries leave the state alone; the other calls may change it whether
    they succeed or fail.  These are the external collaborators of the
    handler: nothing is assumed of them beyond their signatures. *)
Class Bus (net : Type) : Type := {
  mapper_GetSubTree : list Interface -> net -> BusResult ObjectTree;
  get_IP_objects : string -> string -> net -> BusResult (list (string * IPProps));
  get_Neighbor_objects : string -> string -> net -> BusResult (list (string * NeighborProps));
  get_DHCPEnabled : string -> string -> net -> BusResult DHCPConf.t;
  set_DHCPEnabled : string -> string -> DHCPConf.t -> net -> BusResult unit * net;
  get_MACAddress : string -> string -> net -> BusResult ether_addr;
  set_MACAddress : string -> string -> ether_addr -> net -> BusResult unit * net;
  get_VLAN_Id : string -> string -> net -> BusResult Z;
  get_Gateway : string -> string -> IP.Protocol -> net -> BusResult (option NetAddr);
  set_Gateway : string -> string -> IP.Protocol -> NetAddr -> net -> BusResult unit * net;
  call_Delete : string -> string -> net -> BusResult unit * net;
  call_IP : string -> string -> IP.Protocol -> NetAddr -> Z -> net -> BusResult unit * net;
  call_Neighbor : string -> string -> NetAddr -> ether_addr -> net -> BusResult unit * net;
  call_VLAN : string -> string -> Z -> net -> BusResult string * net;
}.

(** What the handler takes from the rest of the daemon: the channel
    layer, the cipher suite file and the cipher privilege component. *)
Class Platform : Type := {
  getChannelName : Z -> string;
  isValidChannel : Z -> bool;
  convertCurrentChannelNum : Z -> Z -> Z;
  getChannelSessionSupport : Z -> EChannelSessSupported.t;
  (** the [cipher] entries of the channel cipher suites file, [None] when
      the file is missing or does not parse *)
  cipherSuitesFile : option (list Z);
  maxCSRecords : nat;
  setCSPrivilegeLevels : Z -> list Z -> Z;
  getCSPrivilegeLevels : Z -> Z * list Z;
}.

(** The numeric values that transporthandler.hpp gives to the
    enumerators and limits used below; that header is not among the
    sources, so they are parameters. *)
Class Header : Type := {
  LanParam_value : LanParam.t -> Z;
  SetStatus_value : SetStatus.t -> Z;
  IPSrc_value : IPSrc.t -> Z;
  IPFamilyEnables_value : IPFamilyEnables.t -> Z;
  IPv6Source_value : IPv6Source.t -> Z;
  IPv6AddressStatus_value : IPv6AddressStatus.t -> Z;
  IPFamilySupportFlag_value : IPFamilySupportFlag.t -> Z;
  IPv6StatusFlag_value : IPv6StatusFlag.t -> Z;
  IPv6RouterControlFlag_value : IPv6RouterControlFlag.t -> Z;
  MAX_IPV6_STATIC_ADDRESSES : Z;
  MAX_IPV6_DYNAMIC_ADDRESSES : Z;
}.

(** Modelled from the spec: the VLAN constants of transporthandler.hpp.
    The VLAN id is a 12-bit field whose all-ones value 0xFFF is reserved,
    followed by three reserved bits and the enable bit. *)
Definition VLAN_VALUE_MASK : Z := 0xFFF.
Definition VLAN_ENABLE_FLAG : Z := 0x8000.

Definition oemCmdStart : Z := 192.
Definition oemCmdEnd : Z := 255.

(** [std::string::find(sub) != npos] *)
Fixpoint string_contains (s sub : string) : bool :=
  if String.prefix sub s then true
  else match s with
       | EmptyString => false
       | String _ s' => string_contains s' sub
       end.

(** ** Request and response payloads *)

(** Modelled from the spec: [message::Payload] of the command framework,
    the binary codec that unpacks fixed-width and sub-byte values from the
    request bytes, least significant bits first, and reports a length
    error when the bytes run out or are not all consumed. *)
Record Payload : Type := {
  raw : list Z;
  bitStream : Z;
  bitCount : Z;
}.

Definition request (bytes : list Z) : Payload :=
  {| raw := bytes; bitStream := 0; bitCount := 0 |}.

Fixpoint fillBits (count : Z) (stream : Z) (have : Z) (bytes : list Z) : option Payload :=
  if have <? count
  then match bytes with
       | [] => None
       | b :: bytes' =>
           fillBits count (Z.lor stream (Z.shiftl (Z.land b 255) have)) (have + 8) bytes'
       end
  else Some {| raw := bytes; bitStream := stream; bitCount := have |}.

(** [unpack] of one [uint<count>_t] (or [bool] for one bit). *)
Definition unpack_uint (count : Z) (p : Payload) : option (Z * Payload) :=
  match fillBits count (bitStream p) (bitCount p) (raw p) with
  | None => None
  | Some q =>
      Some (Z.land (bitStream q) (Z.ones count),
            {| raw := raw q;
               bitStream := Z.shiftr (bitStream q) count;
               bitCount := bitCount q - count |})
  end.

Definition unpack_bool (p : Payload) : option (bool * Payload) :=
  match unpack_uint 1 p with
  | None => None
  | Some (b, q) => Some (negb (b =? 0), q)
  end.

(** [unpack] of a [std::array<uint8_t, n>]. *)
Fixpoint unpack_array (n : nat) (p : Payload) : option (list Z * Payload) :=
  match n with
  | O => Some ([], p)
  | S n' =>
      match unpack_uint 8 p with
      | None => None
      | Some (b, q) =>
          match unpack_array n' q with
          | None => None
          | Some (bs, r) => Some (b :: bs, r)
          end
      end
  end.

(** [unpack] of a [std::array<uint4_t, n>]. *)
Fixpoint unpack_nibbles (n : nat) (p : Payload) : option (list Z * Payload) :=
  match n with
  | O => Some ([], p)
  | S n' =>
      match unpack_uint 4 p with
      | None => None
      | Some (b, q) =>
          match unpack_nibbles n' q with
          | None => None
          | Some (bs, r) => Some (b :: bs, r)
          end
      end
  end.

Definition fullyUnpacked (p : Payload) : bool :=
  bool_decide (raw p = []) && (bitCount p =? 0).

(** [pack] of a run of bit fields (width, value) that fills whole bytes,
    least significant field first. *)
Fixpoint pack_fields (fields : list (Z * Z)) : Z * Z :=
  match fields with
  | [] => (0, 0)
  | (w, v) :: rest =>
      let '(total, bits) := pack_fields rest in
      (w + total, Z.lor (Z.land v (Z.ones w)) (Z.shiftl bits w))
  end.

Definition pack_bits (fields : list (Z * Z)) : list Z :=
  let '(total, bits) := pack_fields fields in
  Word.le_split (Z.to_nat (total / 8)) bits.

(** A [std::bitset<8>] with the given bit positions set. *)
Definition bitset8 (positions : list Z) : Z :=
  fold_left (fun acc i => Z.lor acc (Z.shiftl 1 i)) positions 0.

Definition copyInto4 (bytes : list Z) : in_addr := {| s_addr := Word.le_combine bytes |}.
Definition copyInto16 (bytes : list Z) : in6_addr := {| s6_addr := Word.le_combine bytes |}.
Definition copyIntoMAC (bytes : list Z) : ether_addr := {| ether_addr_octet := bytes |}.

Definition dataRef4 (a : in_addr) : list Z := Word.le_split 4 (s_addr a).
Definition dataRef16 (a : in6_addr) : list Z := Word.le_split 16 (s6_addr a).
Definition dataRefMAC (m : ether_addr) : list Z := ether_addr_octet m.

(** ** The world a request runs in, and the monad of the handler *)

(** [bus] is the state of the services behind the bus and [calls] the
    log of the calls placed so far, oldest first.  [setStatus] and
    [lastDisabledVlan] are the two process-wide maps of the handler;
    [cipherList] and [listInit] are the function-local statics of
    [getLan]. *)
Record World (net : Type) : Type := {
  bus : net;
  calls : list BusCall;
  setStatus : gmap Z SetStatus.t;
  lastDisabledVlan : gmap Z Z;
  cipherList : list Z;
  listInit : bool;
}.
Arguments bus {net} _.
Arguments calls {net} _.
Arguments setStatus {net} _.
Arguments lastDisabledVlan {net} _.
Arguments cipherList {net} _.
Arguments listInit {net} _.

Definition M (net : Type) (A : Type) : Type := World net -> Outcome A * World net.

#[global] Instance M_ret (net : Type) : MRet (M net) :=
  fun A a w => (Ok a, w).

#[global] Instance M_bind (net : Type) : MBind (M net) :=
  fun A B f m w =>
    match m w with
    | (Ok a, w') => f a w'
    | (Throw e, w') => (Throw e, w')
    | (Undefined, w') => (Undefined, w')
    end.

Section Monad.
Context {net : Type}.

Definition throw {A : Type} (e : exn) : M net A := fun w => (Throw e, w).

Definition undefined {A : Type} : M net A := fun w => (Undefined, w).

(** [elog<InternalFailure>()] *)
Definition elog_InternalFailure {A : Type} : M net A := throw InternalFailure.

(** [try { m } catch (const sdbusplus::exception::SdBusError& e) { h e }] *)
Definition try_catch_SdBusError {A : Type} (m : M net A) (h : string -> exn -> M net A)
  : M net A :=
  fun w =>
    match m w with
    | (Throw (SdBusError name), w') => h name (SdBusError name) w'
    | r => r
    end.

(** [try { m } catch (const std::exception& e) { h }] *)
Definition try_catch_all {A : Type} (m : M net A) (h : M net A) : M net A :=
  fun w =>
    match m w with
    | (Throw _, w') => h w'
    | r => r
    end.

(** Evaluating [*o] or [o->field] of a [std::optional]: undefined
    behaviour when [o] is empty. *)
Definition deref {A : Type} (o : option A) : M net A :=
  match o with
  | Some a => mret a
  | None => undefined
  end.

(** A pure computation that may throw, run inside the monad. *)
Definition lift {A : Type} (o : Outcome A) : M net A := fun w => (o, w).

Definition log_call (c : BusCall) (w : World net) : World net :=
  {| bus := bus w; calls := calls w ++ [c]; setStatus := setStatus w;
     lastDisabledVlan := lastDisabledVlan w; cipherList := cipherList w;
     listInit := listInit w |}.

Definition with_bus (n : net) (w : World net) : World net :=
  {| bus := n; calls := calls w; setStatus := setStatus w;
     lastDisabledVlan := lastDisabledVlan w; cipherList := cipherList w;
     listInit := listInit w |}.

Definition of_reply {A : Type} (r : BusResult A) : Outcome A :=
  match r with
  | Reply a => Ok a
  | BusError name => Throw (SdBusError name)
  end.

(** A bus call that only reads the services' state. *)
Definition query {A : Type} (c : BusCall) (f : net -> BusResult A) : M net A :=
  fun w => (of_reply (f (bus w)), log_call c w).

(** A bus call that may change the services' state. *)
Definition command {A : Type} (c : BusCall) (f : net -> BusResult A * net) : M net A :=
  fun w => let '(r, n) := f (bus w) in (of_reply r, with_bus n (log_call c w)).

Definition get_setStatus_map : M net (gmap Z SetStatus.t) := fun w => (Ok (setStatus w), w).

Definition put_setStatus (channel : Z) (s : SetStatus.t) : M net unit :=
  fun w =>
    (Ok tt,
     {| bus := bus w; calls := calls w; setStatus := <[channel := s]> (setStatus w);
        lastDisabledVlan := lastDisabledVlan w; cipherList := cipherList w;
        listInit := listInit w |}).

Definition get_lastDisabledVlan_map : M net (gmap Z Z) :=
  fun w => (Ok (lastDisabledVlan w), w).

Definition put_lastDisabledVlan (channel : Z) (vlan : Z) : M net unit :=
  fun w =>
    (Ok tt,
     {| bus := bus w; calls := calls w; setStatus := setStatus w;
        lastDisabledVlan := <[channel := vlan]> (lastDisabledVlan w);
        cipherList := cipherList w; listInit := listInit w |}).

Definition get_listInit : M net bool := fun w => (Ok (listInit w), w).
Definition get_cipherList : M net (list Z) := fun w => (Ok (cipherList w), w).

Definition put_cipherList (l : list Z) : M net unit :=
  fun w =>
    (Ok tt,
     {| bus := bus w; calls := calls w; setStatus := setStatus w;
        lastDisabledVlan := lastDisabledVlan w; cipherList := l;
        listInit := true |}).

(** A range-based [for] whose body may update a local that outlives it. *)
Fixpoint for_each {A S : Type} (l : list A) (body : A -> S -> M net S) (s : S) : M net S :=
  match l with
  | [] => mret s
  | x :: l' => s' ← body x s; for_each l' body s'
  end.

End Monad.

(** ** The handler *)

Section Handler.
Context {net : Type} `{!Bus net} `{!Platform} `{!Header}.

#[local] Abbreviation M := (M net).

(** [cipher::getCipherList] *)
Definition getCipherList : M (list Z) :=
  match cipherSuitesFile with
  | None => elog_InternalFailure
  | Some records =>
      (* Byte 1 is reserved *)
      mret (0x00 :: records)
  end.

(** Valid address origins for IPv4 *)
Definition originsV4 : list IP.AddressOrigin := [IP.Static; IP.DHCP].

(** Modelled from the spec: the origin sets for IPv6 of
    transporthandler.hpp; static slots hold Static-origin addresses, the
    dynamic ones the DHCP and SLAAC origins. *)
Definition originsV6Static : list IP.AddressOrigin := [IP.Static].
Definition originsV6Dynamic : list IP.AddressOrigin := [IP.DHCP; IP.SLAAC].

Definition with_service (s : string) (p : ChannelParams) : ChannelParams :=
  {| id := id p; ifname := ifname p; service := s; ifPath := ifPath p;
     logicalPath := logicalPath p |}.

Definition with_ifPath (s : string) (p : ChannelParams) : ChannelParams :=
  {| id := id p; ifname := ifname p; service := service p; ifPath := s;
     logicalPath := logicalPath p |}.

Definition with_logicalPath (s : string) (p : ChannelParams) : ChannelParams :=
  {| id := id p; ifname := ifname p; service := service p; ifPath := ifPath p;
     logicalPath := s |}.

Definition scan_interfaces (intfs : list Interface) : bool * bool :=
  fold_left
    (fun '(vlan, ethernet) intf =>
       if bool_decide (intf = INTF_VLAN) then (true, ethernet)
       else if bool_decide (intf = INTF_ETHERNET) then (vlan, true)
       else (vlan, ethernet))
    intfs (false, false).

Definition scan_impls (path : string) (impls : list (string * list Interface))
    (params : ChannelParams) : ChannelParams :=
  fold_left
    (fun params '(service_name, intfs) =>
       let '(vlan, ethernet) := scan_interfaces intfs in
       let params :=
         if bool_decide (service params = "") && (vlan || ethernet)
         then with_service service_name params else params in
       let params :=
         if bool_decide (ifPath params = "") && negb vlan && ethernet
         then with_ifPath path params else params in
       if bool_decide (logicalPath params = "") && vlan
       then with_logicalPath path params else params)
    impls params.

Definition maybeGetChannelParams (channel : Z) : M (option ChannelParams) :=
  let name := getChannelName channel in
  if bool_decide (name = "") then mret None
  else
    (* Enumerate all VLAN + ETHERNET interfaces *)
    objs ← query (GetSubTree [INTF_VLAN; INTF_ETHERNET])
                 (mapper_GetSubTree [INTF_VLAN; INTF_ETHERNET]);
    let params :=
      fold_left
        (fun params '(path, impls) =>
           if negb (string_contains path name) then params
           else scan_impls path impls params)
        objs
        {| id := 0; ifname := ""; service := ""; ifPath := ""; logicalPath := "" |} in
    (* We must have a path for the underlying interface *)
    if bool_decide (ifPath params = "") then mret None
    else
      (* We don't have a VLAN so the logical path is the same *)
      let params :=
        if bool_decide (logicalPath params = "")
        then with_logicalPath (ifPath params) params else params in
      mret (Some {| id := channel; ifname := name; service := service params;
                    ifPath := ifPath params; logicalPath := logicalPath params |}).

Definition getChannelParams (channel : Z) : M ChannelParams :=
  params ← maybeGetChannelParams channel;
  match params with
  | None => elog_InternalFailure
  | Some p => mret p
  end.

(** Modelled from the spec: [channelCall] of transporthandler.hpp, which
    resolves the channel and runs [func] on its parameters; a channel
    that does not resolve is an internal error. *)
Definition channelCall {A : Type} (func : ChannelParams -> M A) (channel : Z) : M A :=
  params ← maybeGetChannelParams channel;
  match params with
  | None => elog_InternalFailure
  | Some p => func p
  end.

Definition getDHCPProperty (params : ChannelParams) : M DHCPConf.t :=
  query (GetDHCPEnabled (service params) (logicalPath params))
        (get_DHCPEnabled (service params) (logicalPath params)).

Definition setDHCPv4Property (params : ChannelParams) (requestedDhcp : DHCPConf.t)
  : M unit :=
  currentDhcp ← getDHCPProperty params;
  let nextDhcp := DHCPConf.none in
  let nextDhcp :=
    if bool_decide (currentDhcp = DHCPConf.v6) && bool_decide (requestedDhcp = DHCPConf.v4)
    then DHCPConf.both
    else if bool_decide (currentDhcp = DHCPConf.none)
            && bool_decide (requestedDhcp = DHCPConf.v4)
    then requestedDhcp
    else if bool_decide (requestedDhcp = DHCPConf.none)
    then
      if bool_decide (currentDhcp = DHCPConf.both) then DHCPConf.v6
      else if bool_decide (currentDhcp = DHCPConf.v4) then DHCPConf.none
      else nextDhcp
    else currentDhcp in
  command (SetDHCPEnabled (service params) (logicalPath params) nextDhcp)
          (set_DHCPEnabled (service params) (logicalPath params) nextDhcp).

Definition setDHCPv6Property (params : ChannelParams) (requestedDhcp : DHCPConf.t)
    (defaultMode : bool) : M unit :=
  currentDhcp ← getDHCPProperty params;
  let nextDhcp := DHCPConf.none in
  let nextDhcp :=
    if defaultMode
    then
      if bool_decide (currentDhcp = DHCPConf.v4) && bool_decide (requestedDhcp = DHCPConf.v6)
      then DHCPConf.both
      else if bool_decide (currentDhcp = DHCPConf.none)
              && bool_decide (requestedDhcp = DHCPConf.v6)
      then requestedDhcp
      else if bool_decide (requestedDhcp = DHCPConf.none)
      then
        if bool_decide (currentDhcp = DHCPConf.both) then DHCPConf.v4
        else if bool_decide (currentDhcp = DHCPConf.v6) then DHCPConf.none
        else nextDhcp
      else currentDhcp
    else
      (* allow the v6 call to set any value *)
      requestedDhcp in
  command (SetDHCPEnabled (service params) (logicalPath params) nextDhcp)
          (set_DHCPEnabled (service params) (logicalPath params) nextDhcp).

Definition getMACProperty (params : ChannelParams) : M ether_addr :=
  query (GetMACAddress (service params) (ifPath params))
        (get_MACAddress (service params) (ifPath params)).

Definition setMACProperty (params : ChannelParams) (mac : ether_addr) : M unit :=
  command (SetMACAddress (service params) (ifPath params) mac)
          (set_MACAddress (service params) (ifPath params) mac).

Definition deleteObjectIfExists (service_name : string) (path : string) : M unit :=
  if bool_decide (path = "") then mret tt
  else
    try_catch_SdBusError
      (command (CallDelete service_name path) (call_Delete service_name path))
      (fun name e =>
         if negb (bool_decide (name = "xyz.openbmc_project.Common.Error.InternalFailure"))
            && negb (bool_decide (name = "org.freedesktop.DBus.Error.UnknownObject"))
         then
           (* We want to rethrow real errors *)
           throw e
         else mret tt).

Definition createIfAddr (family : Family) `{!AddrFamily family} (params : ChannelParams)
    (address : addr family) (prefix : Z) : M unit :=
  command (CallIP (service params) (logicalPath params) (protocol family)
                  (addrToString address) prefix)
          (call_IP (service params) (logicalPath params) (protocol family)
                   (addrToString address) prefix).

(** Modelled from the spec: [ObjectLookupCache] of transporthandler.hpp,
    the batched enumeration of the address (or neighbour) objects under
    the logical interface, so that the per-slot lookups of one request do
    not query the service again. *)
Definition ObjectLookupCache_IP (params : ChannelParams) : M (list (string * IPProps)) :=
  query (GetAllObjects (service params) (logicalPath params) INTF_IP)
        (get_IP_objects (service params) (logicalPath params)).

Definition ObjectLookupCache_Neighbor (params : ChannelParams)
  : M (list (string * NeighborProps)) :=
  query (GetAllObjects (service params) (logicalPath params) INTF_NEIGHBOR)
        (get_Neighbor_objects (service params) (logicalPath params)).

(** Modelled from the spec: [findIfAddr] of transporthandler.hpp.  The
    slot [idx] is a position in enumeration order among the addresses of
    the family whose origin is one of [origins]. *)
Fixpoint findIfAddr (family : Family) `{!AddrFamily family} (idx : Z)
    (origins : list IP.AddressOrigin) (ips : list (string * IPProps))
  : option (IfAddr family) :=
  match ips with
  | [] => None
  | (path, properties) :: rest =>
      match maybeStringToAddr (Address properties) with
      | None => findIfAddr family idx origins rest
      | Some address =>
          if negb (bool_decide (Origin properties ∈ origins))
          then findIfAddr family idx origins rest
          else if 0 <? idx
          then findIfAddr family (idx - 1) origins rest
          else Some {| ifaddr_path := path; ifaddr_address := address;
                       ifaddr_origin := Origin properties;
                       ifaddr_prefix := PrefixLength properties |}
      end
  end.

(** Modelled from the spec: [getIfAddr] of transporthandler.hpp, one
    enumeration followed by [findIfAddr]. *)
Definition getIfAddr (family : Family) `{!AddrFamily family} (params : ChannelParams)
    (idx : Z) (origins : list IP.AddressOrigin) : M (option (IfAddr family)) :=
  ips ← ObjectLookupCache_IP params;
  mret (findIfAddr family idx origins ips).

(** Trivial helper for getting the IPv4 address from getIfAddrs() *)
Definition getIfAddr4 (params : ChannelParams) : M (option (IfAddr AF_INET)) :=
  getIfAddr AF_INET params 0 originsV4.

(** Reconfigures the IPv4 address info configured for the interface.
    The arguments of the final [createIfAddr] call are evaluated before
    the call: [ifaddr->address] is evaluated whether or not [address]
    holds a value. *)
Definition reconfigureIfAddr4 (params : ChannelParams) (address : option in_addr)
    (prefix : option Z) : M unit :=
  ifaddr ← getIfAddr4 params;
  (if negb (bool_decide (is_Some ifaddr)) && negb (bool_decide (is_Some address))
   then elog_InternalFailure else mret tt);;
  let fallbackPrefix := defaultPrefix AF_INET in
  fallbackPrefix ←
    match ifaddr with
    | Some a =>
        deleteObjectIfExists (service params) (ifaddr_path a);;
        mret (ifaddr_prefix a)
    | None => mret fallbackPrefix
    end;
  prior ← deref ifaddr;
  createIfAddr AF_INET params (default (@ifaddr_address AF_INET _ prior) address)
               (default fallbackPrefix prefix).

(** Modelled from the spec: [getGatewayProperty] and [setGatewayProperty]
    of transporthandler.hpp; the gateway is a plain property per family,
    empty when no gateway is set, and a text that is not an address of
    the family does not convert. *)
Definition getGatewayProperty (family : Family) `{!AddrFamily family}
    (params : ChannelParams) : M (option (addr family)) :=
  gatewayStr ← query (GetGateway (service params) (ifname params) (protocol family))
                     (get_Gateway (service params) (ifname params) (protocol family));
  match gatewayStr with
  | None => mret None
  | Some s =>
      match maybeStringToAddr s with
      | Some a => mret (Some a)
      | None => elog_InternalFailure
      end
  end.

Definition setGatewayProperty (family : Family) `{!AddrFamily family}
    (params : ChannelParams) (address : addr family) : M unit :=
  command (SetGateway (service params) (ifname params) (protocol family)
                      (addrToString address))
          (set_Gateway (service params) (ifname params) (protocol family)
                       (addrToString address)).

(** Modelled from the spec: [findStaticNeighbor] of transporthandler.hpp,
    the first static (permanent) neighbour entry of the family whose IP
    is [ip]. *)
Fixpoint findStaticNeighbor (family : Family) `{!AddrFamily family} (ip : addr family)
    (neighbors : list (string * NeighborProps)) : option (IfNeigh family) :=
  match neighbors with
  | [] => None
  | (path, neighbor) :: rest =>
      match maybeStringToAddr (IPAddress neighbor) with
      | None => findStaticNeighbor family ip rest
      | Some neighIP =>
          if negb (bool_decide (neighIP = ip))
          then findStaticNeighbor family ip rest
          else if negb (bool_decide (State neighbor = Neighbor.Permanent))
          then findStaticNeighbor family ip rest
          else Some {| ifneigh_path := path; ifneigh_ip := ip;
                       ifneigh_mac := MACAddress neighbor |}
      end
  end.

(** Modelled from the spec: [createNeighbor] of transporthandler.hpp, the
    creation of a static neighbour entry on the logical interface. *)
Definition createNeighbor (family : Family) `{!AddrFamily family} (params : ChannelParams)
    (address : addr family) (mac : ether_addr) : M unit :=
  command (CallNeighbor (service params) (logicalPath params) (addrToString address) mac)
          (call_Neighbor (service params) (logicalPath params) (addrToString address) mac).

Definition findGatewayNeighbor (family : Family) `{!AddrFamily family}
    (params : ChannelParams) (neighbors : list (string * NeighborProps))
  : M (option (IfNeigh family)) :=
  gateway ← getGatewayProperty family params;
  match gateway with
  | None => mret None
  | Some g => mret (findStaticNeighbor family g neighbors)
  end.

Definition getGatewayNeighbor (family : Family) `{!AddrFamily family}
    (params : ChannelParams) : M (option (IfNeigh family)) :=
  neighbors ← ObjectLookupCache_Neighbor params;
  findGatewayNeighbor family params neighbors.

Definition reconfigureGatewayMAC (family : Family) `{!AddrFamily family}
    (params : ChannelParams) (mac : ether_addr) : M unit :=
  gateway ← getGatewayProperty family params;
  (if negb (bool_decide (is_Some gateway)) then elog_InternalFailure else mret tt);;
  neighbors ← ObjectLookupCache_Neighbor params;
  g ← deref gateway;
  let neighbor := findStaticNeighbor family g neighbors in
  match neighbor with
  | Some n => deleteObjectIfExists (service params) (ifneigh_path n)
  | None => mret tt
  end;;
  createNeighbor family params g mac.

(** Deconfigures the IPv6 address info configured for the interface *)
Definition deconfigureIfAddr6 (params : ChannelParams) (idx : Z) : M unit :=
  ifaddr ← getIfAddr AF_INET6 params idx originsV6Static;
  match ifaddr with
  | Some a => deleteObjectIfExists (service params) (ifaddr_path a)
  | None => mret tt
  end.

(** Reconfigures the IPv6 address info configured for the interface *)
Definition reconfigureIfAddr6 (params : ChannelParams) (idx : Z) (address : in6_addr)
    (prefix : Z) : M unit :=
  deconfigureIfAddr6 params idx;;
  createIfAddr AF_INET6 params address prefix.

(** Converts the AddressOrigin into an IPv6Source *)
Definition originToSourceType (origin : IP.AddressOrigin) : M IPv6Source.t :=
  match origin with
  | IP.Static => mret IPv6Source.Static
  | IP.DHCP => mret IPv6Source.DHCP
  | IP.SLAAC => mret IPv6Source.SLAAC
  | _ => elog_InternalFailure
  end.

(** Packs the IPMI message response with IPv6 address data; the result
    is the bytes appended to the response. *)
Definition packLanIPv6Address (set : Z) (source : IPv6Source.t) (enabled : bool)
    (address : in6_addr) (prefix : Z) (status : IPv6AddressStatus.t) : list Z :=
  [Word.wrap 8 set]
  ++ pack_bits [(4, IPv6Source_value source); (3, 0); (1, Z.b2z enabled)]
  ++ dataRef16 address
  ++ [Word.wrap 8 prefix]
  ++ [Word.wrap 8 (IPv6AddressStatus_value status)].

Definition getLanIPv6Address (channel : Z) (set : Z) (origins : list IP.AddressOrigin)
  : M (list Z) :=
  let source := IPv6Source.Static in
  let enabled := false in
  let address := zeroAddr AF_INET6 in
  let prefix := defaultPrefix AF_INET6 in
  let status := IPv6AddressStatus.Disabled in
  ifaddr ← channelCall (fun params => getIfAddr AF_INET6 params set origins) channel;
  match ifaddr with
  | Some a =>
      source ← originToSourceType (@ifaddr_origin AF_INET6 _ a);
      mret (packLanIPv6Address set source true (@ifaddr_address AF_INET6 _ a)
              (ifaddr_prefix a) IPv6AddressStatus.Active)
  | None => mret (packLanIPv6Address set source enabled address prefix status)
  end.

(** Gets the vlan ID configured on the interface *)
Definition getVLANProperty (params : ChannelParams) : M Z :=
  (* VLAN devices will always have a separate logical object *)
  if bool_decide (ifPath params = logicalPath params) then mret 0
  else
    vlan ← query (GetVLANId (service params) (logicalPath params))
                 (get_VLAN_Id (service params) (logicalPath params));
    if negb (Z.land vlan VLAN_VALUE_MASK =? vlan)
    then elog_InternalFailure
    else mret (Word.wrap 16 vlan).

(** Deletes all of the possible configuration parameters for a channel;
    the result is [params] as the function leaves it. *)
Definition deconfigureChannel (params : ChannelParams) : M ChannelParams :=
  (* Delete all objects associated with the interface *)
  objs ← query (GetSubTree [DELETE_INTERFACE]) (mapper_GetSubTree [DELETE_INTERFACE]);
  params ←
    for_each objs
      (fun '(path, impls) params =>
         if negb (string_contains path (ifname params)) then mret params
         else
           for_each impls
             (fun '(service_name, intfs) (_ : unit) =>
                deleteObjectIfExists service_name path) tt;;
           (* Update params to reflect the deletion of vlan *)
           if bool_decide (path = logicalPath params)
           then mret (with_logicalPath (ifPath params) params)
           else mret params)
      params;
  (* Clear out any settings on the lower physical interface *)
  setDHCPv6Property params DHCPConf.none false;;
  mret params.

(** Creates a new VLAN on the specified interface *)
Definition createVLAN (params : ChannelParams) (vlan : Z) : M ChannelParams :=
  if vlan =? 0 then mret params
  else
    newPath ← command (CallVLAN (service params) (ifname params) (Word.wrap 32 vlan))
                      (call_VLAN (service params) (ifname params) (Word.wrap 32 vlan));
    mret (with_logicalPath newPath params).

(** The IPv6 static addresses of slots [i], [i+1], ... up to the first
    empty slot, at most [n] of them: the capture loop of
    [reconfigureVLAN]. *)
Fixpoint captureIfAddrs6 (n : nat) (i : Z) (ips : list (string * IPProps))
  : list (IfAddr AF_INET6) :=
  match n with
  | O => []
  | S n' =>
      match findIfAddr AF_INET6 i originsV6Static ips with
      | None => []
      | Some ifaddr6 => ifaddr6 :: captureIfAddrs6 n' (i + 1) ips
      end
  end.

(** Performs the necessary reconfiguration to change the VLAN *)
Definition reconfigureVLAN (params : ChannelParams) (vlan : Z) : M ChannelParams :=
  (* Save info from the old logical interface *)
  ips ← ObjectLookupCache_IP params;
  let ifaddr4 := findIfAddr AF_INET 0 originsV4 ips in
  let ifaddrs6 := captureIfAddrs6 (Z.to_nat MAX_IPV6_STATIC_ADDRESSES) 0 ips in
  dhcp ← getDHCPProperty params;
  neighbors ← ObjectLookupCache_Neighbor params;
  neighbor4 ← findGatewayNeighbor AF_INET params neighbors;
  neighbor6 ← findGatewayNeighbor AF_INET6 params neighbors;

  params ← deconfigureChannel params;
  params ← createVLAN params vlan;

  (* Re-establish the saved settings *)
  setDHCPv6Property params dhcp false;;
  match ifaddr4 with
  | Some a => createIfAddr AF_INET params (ifaddr_address a) (ifaddr_prefix a)
  | None => mret tt
  end;;
  for_each ifaddrs6
    (fun ifaddr6 (_ : unit) =>
       createIfAddr AF_INET6 params (ifaddr_address ifaddr6) (ifaddr_prefix ifaddr6)) tt;;
  match neighbor4 with
  | Some n => createNeighbor AF_INET params (ifneigh_ip n) (ifneigh_mac n)
  | None => mret tt
  end;;
  match neighbor6 with
  | Some n => createNeighbor AF_INET6 params (ifneigh_ip n) (ifneigh_mac n)
  | None => mret tt
  end;;
  mret params.

(** Gets the set status for the channel if it exists, otherwise
    populates and returns the default value.  The caller assigns through
    the returned reference with [put_setStatus]. *)
Definition getSetStatus (channel : Z) : M SetStatus.t :=
  m ← get_setStatus_map;
  match m !! channel with
  | Some s => mret s
  | None => put_setStatus channel SetStatus.Complete;; mret SetStatus.Complete
  end.

Definition setLanOem (channel : Z) (parameter : Z) (req : Payload) : M Cc :=
  mret ccParamNotSupported.

Definition getLanOem (channel : Z) (parameter : Z) (set : Z) (block : Z)
  : M (Cc * list Z) :=
  mret (ccParamNotSupported, []).

(** A [std::array] compared with a value-initialised one. *)
Definition all_zero (l : list Z) : bool := forallb (fun b => b =? 0) l.

Definition isValidMACAddress (mac : ether_addr) : bool :=
  (* check if mac address is empty *)
  if all_zero (ether_addr_octet mac) then false
  (* we accept only unicast MAC addresses *)
  else if negb (Z.land (nth 0 (ether_addr_octet mac) 0) 1 =? 0) then false
  else true.

(** [req.unpack(...) != 0 || !req.fullyUnpacked()] fails: the values are
    there only when the request unpacks and nothing is left over. *)
Definition unpacked {A : Type} (r : option (A * Payload)) : option A :=
  match r with
  | Some (a, p) => if fullyUnpacked p then Some a else None
  | None => None
  end.

(** The request data of the SetStatus, VLANId and IPv6StaticAddresses
    parameters: [req.unpack(...)] in the order of the fields. *)
Definition unpack_SetStatus (req : Payload) : option (Z * Z) :=
  unpacked ('(flag, p) ← unpack_uint 2 req;
            '(rsvd, p) ← unpack_uint 6 p;
            Some ((flag, rsvd), p)).

Definition unpack_VLANId (req : Payload) : option (Z * Z * bool) :=
  unpacked ('(vlanData, p) ← unpack_uint 12 req;
            '(reserved, p) ← unpack_uint 3 p;
            '(vlanEnable, p) ← unpack_bool p;
            Some ((vlanData, reserved, vlanEnable), p)).

Definition unpack_IPv6StaticAddresses (req : Payload)
  : option (Z * Z * bool * list Z * Z * Z) :=
  unpacked ('(set, p) ← unpack_uint 8 req;
            '(rsvd, p) ← unpack_uint 7 p;
            '(enabled, p) ← unpack_bool p;
            '(ipbytes, p) ← unpack_array 16 p;
            '(prefix, p) ← unpack_uint 8 p;
            '(status, p) ← unpack_uint 8 p;
            Some ((set, rsvd, enabled, ipbytes, prefix, status), p)).

Definition dhcpv4_active (dhcp : DHCPConf.t) : bool :=
  bool_decide (dhcp = DHCPConf.v4) || bool_decide (dhcp = DHCPConf.both).

(** Set LAN Configuration Parameters.  [ctx_channel] is [ctx->channel].
    The [trailingOk] flag that some branches raise on the request only
    tells the dispatcher not to object to unread bytes; it is left out. *)
Definition setLan (ctx_channel : Z) (channelBits reserved1 parameter : Z) (req : Payload)
  : M Cc :=
  let channel := convertCurrentChannelNum channelBits ctx_channel in
  if negb (reserved1 =? 0) || negb (isValidChannel channel)
  then mret ccInvalidFieldRequest
  else
    match enum_cast LanParam_value LanParam.all parameter with
    | Some LanParam.SetStatus =>
        match unpack_SetStatus req with
        | None => mret ccReqDataLenInvalid
        | Some (flag, rsvd) =>
            if negb (rsvd =? 0) then mret ccInvalidFieldRequest
            else
              match enum_cast SetStatus_value SetStatus.all flag with
              | Some SetStatus.Complete =>
                  getSetStatus channel;;
                  put_setStatus channel SetStatus.Complete;;
                  mret ccSuccess
              | Some SetStatus.InProgress =>
                  storedStatus ← getSetStatus channel;
                  if bool_decide (storedStatus = SetStatus.InProgress)
                  then mret ccParamSetLocked
                  else put_setStatus channel SetStatus.InProgress;; mret ccSuccess
              | Some SetStatus.Commit =>
                  storedStatus ← getSetStatus channel;
                  if negb (bool_decide (storedStatus = SetStatus.InProgress))
                  then mret ccInvalidFieldRequest
                  else mret ccSuccess
              | None => mret ccParamNotSupported
              end
        end
    | Some LanParam.AuthSupport => mret ccParamReadOnly
    | Some LanParam.AuthEnables => mret ccParamReadOnly
    | Some LanParam.IP =>
        dhcp ← channelCall getDHCPProperty channel;
        if dhcpv4_active dhcp then mret ccCommandNotAvailable
        else
          match unpacked (unpack_array 4 req) with
          | None => mret ccReqDataLenInvalid
          | Some bytes =>
              let ip := copyInto4 bytes in
              channelCall (fun params => reconfigureIfAddr4 params (Some ip) None) channel;;
              mret ccSuccess
          end
    | Some LanParam.IPSrc =>
        match unpacked ('(flag, p) ← unpack_uint 4 req;
                        '(rsvd, p) ← unpack_uint 4 p;
                        Some ((flag, rsvd), p)) with
        | None => mret ccReqDataLenInvalid
        | Some (flag, rsvd) =>
            if negb (rsvd =? 0) then mret ccInvalidFieldRequest
            else
              match enum_cast IPSrc_value IPSrc.all flag with
              | Some IPSrc.DHCP =>
                  (* The IPSrc IPMI command is only for IPv4 management.
                     Modifying IPv6 state is done using a completely
                     different Set LAN Configuration subcommand. *)
                  channelCall (fun params => setDHCPv4Property params DHCPConf.v4) channel;;
                  mret ccSuccess
              | Some IPSrc.Unspecified | Some IPSrc.Static =>
                  channelCall (fun params => setDHCPv4Property params DHCPConf.none)
                              channel;;
                  mret ccSuccess
              | Some IPSrc.BIOS | Some IPSrc.BMC => mret ccInvalidFieldRequest
              | None => mret ccParamNotSupported
              end
        end
    | Some LanParam.MAC =>
        match unpacked (unpack_array 6 req) with
        | None => mret ccReqDataLenInvalid
        | Some bytes =>
            let mac := copyIntoMAC bytes in
            if negb (isValidMACAddress mac) then mret ccInvalidFieldRequest
            else
              channelCall (fun params => setMACProperty params mac) channel;;
              mret ccSuccess
        end
    | Some LanParam.SubnetMask =>
        dhcp ← channelCall getDHCPProperty channel;
        if dhcpv4_active dhcp then mret ccCommandNotAvailable
        else
          match unpacked (unpack_array 4 req) with
          | None => mret ccReqDataLenInvalid
          | Some bytes =>
              let netmask := copyInto4 bytes in
              prefix ← lift (netmaskToPrefix netmask);
              channelCall (fun params => reconfigureIfAddr4 params None (Some prefix))
                          channel;;
              mret ccSuccess
          end
    | Some LanParam.Gateway1 =>
        dhcp ← channelCall getDHCPProperty channel;
        if dhcpv4_active dhcp then mret ccCommandNotAvailable
        else
          match unpacked (unpack_array 4 req) with
          | None => mret ccReqDataLenInvalid
          | Some bytes =>
              let gateway := copyInto4 bytes in
              channelCall (fun params => setGatewayProperty AF_INET params gateway)
                          channel;;
              mret ccSuccess
          end
    | Some LanParam.Gateway1MAC =>
        match unpacked (unpack_array 6 req) with
        | None => mret ccReqDataLenInvalid
        | Some bytes =>
            let gatewayMAC := copyIntoMAC bytes in
            channelCall (fun params => reconfigureGatewayMAC AF_INET params gatewayMAC)
                        channel;;
            mret ccSuccess
        end
    | Some LanParam.VLANId =>
        match unpack_VLANId req with
        | None => mret ccReqDataLenInvalid
        | Some (vlanData, reserved, vlanEnable) =>
            if negb (reserved =? 0) then mret ccInvalidFieldRequest
            else
              let vlan := Word.wrap 16 vlanData in
              if negb vlanEnable
              then
                put_lastDisabledVlan channel vlan;;
                channelCall (fun params => reconfigureVLAN params 0) channel;;
                mret ccSuccess
              else if (vlan =? 0) || (vlan =? VLAN_VALUE_MASK)
              then mret ccInvalidFieldRequest
              else
                channelCall (fun params => reconfigureVLAN params vlan) channel;;
                mret ccSuccess
        end
    | Some LanParam.CiphersuiteSupport
    | Some LanParam.CiphersuiteEntries
    | Some LanParam.IPFamilySupport => mret ccParamReadOnly
    | Some LanParam.IPFamilyEnables =>
        match unpacked (unpack_uint 8 req) with
        | None => mret ccReqDataLenInvalid
        | Some enables =>
            match enum_cast IPFamilyEnables_value IPFamilyEnables.all enables with
            | Some IPFamilyEnables.DualStack => mret ccSuccess
            | Some IPFamilyEnables.IPv4Only
            | Some IPFamilyEnables.IPv6Only => mret ccParamNotSupported
            | None => mret ccParamNotSupported
            end
        end
    | Some LanParam.IPv6Status => mret ccParamReadOnly
    | Some LanParam.IPv6StaticAddresses =>
        match unpack_IPv6StaticAddresses req with
        | None => mret ccReqDataLenInvalid
        | Some (set, rsvd, enabled, ipbytes, prefix, status) =>
            if negb (rsvd =? 0) then mret ccInvalidFieldRequest
            else
              let ip := copyInto16 ipbytes in
              (if enabled : bool
               then channelCall (fun params => reconfigureIfAddr6 params set ip prefix)
                                channel
               else channelCall (fun params => deconfigureIfAddr6 params set) channel);;
              mret ccSuccess
        end
    | Some LanParam.IPv6DynamicAddresses => mret ccParamReadOnly
    | Some LanParam.IPv6RouterControl =>
        match unpacked (unpack_uint 8 req) with
        | None => mret ccReqDataLenInvalid
        | Some control =>
            dhcp ← channelCall getDHCPProperty channel;
            let expected :=
              if bool_decide (dhcp = DHCPConf.both) || bool_decide (dhcp = DHCPConf.v6)
              then bitset8 [IPv6RouterControlFlag_value IPv6RouterControlFlag.Dynamic]
              else bitset8 [IPv6RouterControlFlag_value IPv6RouterControlFlag.Static] in
            if negb (expected =? control) then mret ccInvalidFieldRequest
            else mret ccSuccess
        end
    | Some LanParam.IPv6StaticRouter1IP =>
        match unpacked (unpack_array 16 req) with
        | None => mret ccReqDataLenInvalid
        | Some bytes =>
            let gateway := copyInto16 bytes in
            channelCall (fun params => setGatewayProperty AF_INET6 params gateway)
                        channel;;
            mret ccSuccess
        end
    | Some LanParam.IPv6StaticRouter1MAC =>
        match unpacked (unpack_array 6 req) with
        | None => mret ccReqDataLenInvalid
        | Some bytes =>
            let mac := copyIntoMAC bytes in
            channelCall (fun params => reconfigureGatewayMAC AF_INET6 params mac) channel;;
            mret ccSuccess
        end
    | Some LanParam.IPv6StaticRouter1PrefixLength =>
        match unpacked (unpack_uint 8 req) with
        | None => mret ccReqDataLenInvalid
        | Some prefix =>
            if negb (prefix =? 0) then mret ccInvalidFieldRequest else mret ccSuccess
        end
    | Some LanParam.IPv6StaticRouter1PrefixValue =>
        match unpacked (unpack_array 16 req) with
        | None => mret ccReqDataLenInvalid
        | Some bytes =>
            (* Accept any prefix value since our prefix length has to be 0 *)
            mret ccSuccess
        end
    | Some LanParam.cipherSuitePrivilegeLevels =>
        match unpacked ('(reserved, p) ← unpack_uint 8 req;
                        '(cipherSuitePrivs, p) ← unpack_nibbles maxCSRecords p;
                        Some ((reserved, cipherSuitePrivs), p)) with
        | None => mret ccReqDataLenInvalid
        | Some (reserved, cipherSuitePrivs) =>
            if negb (reserved =? 0) then mret ccInvalidFieldRequest
            else
              let resp := setCSPrivilegeLevels channel cipherSuitePrivs in
              if resp =? 0 then mret ccSuccess else mret (ccOther resp)
        end
    | None =>
        if (oemCmdStart <=? parameter) && (parameter <=? oemCmdEnd)
        then setLanOem channel parameter req
        else mret ccParamNotSupported
    end.

Definition current_revision : Z := 0x11.

(** Get LAN Configuration Parameters: the completion code and, on
    success, the bytes of the response. *)
Definition getLan (ctx_channel : Z) (channelBits reserved : Z) (revOnly : bool)
    (parameter set block : Z) : M (Cc * list Z) :=
  let ret := [current_revision] in
  if revOnly then mret (ccSuccess, ret)
  else
    let channel := convertCurrentChannelNum channelBits ctx_channel in
    if negb (reserved =? 0) || negb (isValidChannel channel)
    then mret (ccInvalidFieldRequest, [])
    else
      init ← get_listInit;
      (if negb init
       then try_catch_all (l ← getCipherList; put_cipherList l) (mret tt)
       else mret tt);;
      match enum_cast LanParam_value LanParam.all parameter with
      | Some LanParam.SetStatus =>
          m ← get_setStatus_map;
          let status := default SetStatus.Complete (m !! channel) in
          mret (ccSuccess, ret ++ pack_bits [(2, SetStatus_value status); (6, 0)])
      | Some LanParam.AuthSupport =>
          mret (ccSuccess, ret ++ pack_bits [(6, 0); (2, 0)])
      | Some LanParam.AuthEnables =>
          mret (ccSuccess,
                ret ++ pack_bits [(6, 0); (2, 0)] (* Callback *)
                    ++ pack_bits [(6, 0); (2, 0)] (* User *)
                    ++ pack_bits [(6, 0); (2, 0)] (* Operator *)
                    ++ pack_bits [(6, 0); (2, 0)] (* Admin *)
                    ++ pack_bits [(6, 0); (2, 0)] (* OEM *))
      | Some LanParam.IP =>
          ifaddr ← channelCall getIfAddr4 channel;
          let address :=
            match ifaddr with
            | Some a => @ifaddr_address AF_INET _ a
            | None => zeroAddr AF_INET
            end in
          mret (ccSuccess, ret ++ dataRef4 address)
      | Some LanParam.IPSrc =>
          dhcp ← channelCall getDHCPProperty channel;
          let src := if dhcpv4_active dhcp then IPSrc.DHCP else IPSrc.Static in
          mret (ccSuccess, ret ++ pack_bits [(4, IPSrc_value src); (4, 0)])
      | Some LanParam.MAC =>
          mac ← channelCall getMACProperty channel;
          mret (ccSuccess, ret ++ dataRefMAC mac)
      | Some LanParam.SubnetMask =>
          ifaddr ← channelCall getIfAddr4 channel;
          let prefix :=
            match ifaddr with
            | Some a => @ifaddr_prefix AF_INET _ a
            | None => defaultPrefix AF_INET
            end in
          netmask ← lift (prefixToNetmask prefix);
          mret (ccSuccess, ret ++ dataRef4 netmask)
      | Some LanParam.Gateway1 =>
          gateway ← channelCall (getGatewayProperty AF_INET) channel;
          mret (ccSuccess, ret ++ dataRef4 (default (zeroAddr AF_INET) gateway))
      | Some LanParam.Gateway1MAC =>
          neighbor ← channelCall (getGatewayNeighbor AF_INET) channel;
          let mac :=
            match neighbor with
            | Some n => ifneigh_mac n
            | None => {| ether_addr_octet := [0; 0; 0; 0; 0; 0] |}
            end in
          mret (ccSuccess, ret ++ dataRefMAC mac)
      | Some LanParam.VLANId =>
          vlan ← channelCall getVLANProperty channel;
          vlan ←
            (if negb (vlan =? 0) then mret (Z.lor vlan VLAN_ENABLE_FLAG)
             else
               m ← get_lastDisabledVlan_map;
               match m !! channel with
               | Some v => mret v
               | None => put_lastDisabledVlan channel 0;; mret 0
               end);
          mret (ccSuccess, ret ++ Word.le_split 2 vlan)
      | Some LanParam.CiphersuiteSupport =>
          if bool_decide (getChannelSessionSupport channel = EChannelSessSupported.none)
          then mret (ccInvalidFieldRequest, [])
          else
            init ← get_listInit;
            if negb init then mret (ccUnspecifiedError, [])
            else
              l ← get_cipherList;
              mret (ccSuccess, ret ++ [Word.wrap 8 (Z.of_nat (length l) - 1)])
      | Some LanParam.CiphersuiteEntries =>
          if bool_decide (getChannelSessionSupport channel = EChannelSessSupported.none)
          then mret (ccInvalidFieldRequest, [])
          else
            init ← get_listInit;
            if negb init then mret (ccUnspecifiedError, [])
            else
              l ← get_cipherList;
              mret (ccSuccess, ret ++ l)
      | Some LanParam.IPFamilySupport =>
          let support :=
            bitset8 [IPFamilySupportFlag_value IPFamilySupportFlag.DualStack;
                     IPFamilySupportFlag_value IPFamilySupportFlag.IPv6Alerts] in
          mret (ccSuccess, ret ++ [support])
      | Some LanParam.IPFamilyEnables =>
          mret (ccSuccess,
                ret ++ [Word.wrap 8 (IPFamilyEnables_value IPFamilyEnables.DualStack)])
      | Some LanParam.IPv6Status =>
          let support :=
            bitset8 [IPv6StatusFlag_value IPv6StatusFlag.DHCP;
                     IPv6StatusFlag_value IPv6StatusFlag.SLAAC] in
          mret (ccSuccess,
                ret ++ [MAX_IPV6_STATIC_ADDRESSES] ++ [MAX_IPV6_DYNAMIC_ADDRESSES]
                    ++ [support])
      | Some LanParam.IPv6StaticAddresses =>
          if MAX_IPV6_STATIC_ADDRESSES <=? set then mret (ccParmOutOfRange, [])
          else
            bytes ← getLanIPv6Address channel set originsV6Static;
            mret (ccSuccess, ret ++ bytes)
      | Some LanParam.IPv6DynamicAddresses =>
          if MAX_IPV6_DYNAMIC_ADDRESSES <=? set then mret (ccParmOutOfRange, [])
          else
            bytes ← getLanIPv6Address channel set originsV6Dynamic;
            mret (ccSuccess, ret ++ bytes)
      | Some LanParam.IPv6RouterControl =>
          dhcp ← channelCall getDHCPProperty channel;
          let control :=
            if bool_decide (dhcp = DHCPConf.both) || bool_decide (dhcp = DHCPConf.v6)
            then bitset8 [IPv6RouterControlFlag_value IPv6RouterControlFlag.Dynamic]
            else bitset8 [IPv6RouterControlFlag_value IPv6RouterControlFlag.Static] in
          mret (ccSuccess, ret ++ [control])
      | Some LanParam.IPv6StaticRouter1IP =>
          dhcp ← channelCall getDHCPProperty channel;
          gateway ←
            (if bool_decide (dhcp = DHCPConf.v4) || bool_decide (dhcp = DHCPConf.none)
             then
               g ← channelCall (getGatewayProperty AF_INET6) channel;
               mret (default (zeroAddr AF_INET6) g)
             else mret (zeroAddr AF_INET6));
          mret (ccSuccess, ret ++ dataRef16 gateway)
      | Some LanParam.IPv6StaticRouter1MAC =>
          neighbor ← channelCall (getGatewayNeighbor AF_INET6) channel;
          let mac :=
            match neighbor with
            | Some n => ifneigh_mac n
            | None => {| ether_addr_octet := [0; 0; 0; 0; 0; 0] |}
            end in
          mret (ccSuccess, ret ++ dataRefMAC mac)
      | Some LanParam.IPv6StaticRouter1PrefixLength =>
          mret (ccSuccess, ret ++ [0])
      | Some LanParam.IPv6StaticRouter1PrefixValue =>
          mret (ccSuccess, ret ++ dataRef16 (zeroAddr AF_INET6))
      | Some LanParam.cipherSuitePrivilegeLevels =>
          let '(resp, csPrivilegeLevels) := getCSPrivilegeLevels channel in
          if resp =? 0
          then mret (ccSuccess,
                     ret ++ pack_bits ((8, 0) :: map (fun v => (4, v)) csPrivilegeLevels))
          else mret (ccOther resp, [])
      | None =>
          if (oemCmdStart <=? parameter) && (parameter <=? oemCmdEnd)
          then getLanOem channel parameter set block
          else mret (ccParamNotSupported, [])
      end.

End Handler.

(** ** A reference model of the network service

    The end-to-end properties (a VLAN change followed by a read) speak
    of what the network service holds after the handler has driven it.
    [Sim] is a small executable model of that service and of the object
    mapper: a store of objects in enumeration order, each with its path
    and what it is.  A physical interface cannot be deleted; a VLAN
    interface, an address and a neighbour entry can, and deleting an
    interface takes its addresses and neighbours with it.  A created
    address is Static and a created neighbour Permanent; new objects get
    paths below their interface, numbered from a counter. *)

Module Sim.

Inductive Body : Type :=
| Eth (dhcp : DHCPConf.t) (vlan : option Z) (mac : ether_addr)
| Addr (props : IPProps)
| Neigh (props : NeighborProps).

Record Obj : Type := { path : string; body : Body }.

Record Net : Type := {
  objs : list Obj;
  next : N;
  gateway4 : option NetAddr;
  gateway6 : option NetAddr;
}.

Definition PATH_ROOT : string := "/xyz/openbmc_project/network".
Definition SERVICE : string := "xyz.openbmc_project.Network".
Definition UnknownObject : string := "org.freedesktop.DBus.Error.UnknownObject".
Definition InvalidArgumentName : string :=
  "xyz.openbmc_project.Common.Error.InvalidArgument".

Definition interfaces (b : Body) : list Interface :=
  match b with
  | Eth _ None _ => [INTF_ETHERNET; INTF_MAC]
  | Eth _ (Some _) _ => [INTF_ETHERNET; INTF_MAC; INTF_VLAN; DELETE_INTERFACE]
  | Addr _ => [INTF_IP; DELETE_INTERFACE]
  | Neigh _ => [INTF_NEIGHBOR; DELETE_INTERFACE]
  end.

Definition deletable (b : Body) : bool := bool_decide (DELETE_INTERFACE ∈ interfaces b).

Definition is_eth (b : Body) : bool :=
  match b with Eth _ _ _ => true | _ => false end.

Definition is_leaf (b : Body) : bool := negb (is_eth b).

(** [p] lies below [parent] in the object tree. *)
Definition under (parent p : string) : bool := String.prefix (parent +:+ "/") p.

Definition at_path (p : string) (o : Obj) : bool := bool_decide (path o = p).

Definition with_objs (l : list Obj) (n : Net) : Net :=
  {| objs := l; next := next n; gateway4 := gateway4 n; gateway6 := gateway6 n |}.

Definition GetSubTree (intfs : list Interface) (n : Net) : BusResult ObjectTree :=
  Reply
    (omap (fun o =>
             let found := List.filter (fun i => bool_decide (i ∈ intfs))
                                      (interfaces (body o)) in
             if bool_decide (found = []) then None
             else Some (path o, [(SERVICE, found)]))
          (objs n)).

Definition IP_objects (service_name p : string) (n : Net)
  : BusResult (list (string * IPProps)) :=
  Reply
    (omap (fun o =>
             match body o with
             | Addr props => if under p (path o) then Some (path o, props) else None
             | _ => None
             end)
          (objs n)).

Definition Neighbor_objects (service_name p : string) (n : Net)
  : BusResult (list (string * NeighborProps)) :=
  Reply
    (omap (fun o =>
             match body o with
             | Neigh props => if under p (path o) then Some (path o, props) else None
             | _ => None
             end)
          (objs n)).

(** The first interface object at [p]. *)
Definition find_eth (p : string) (n : Net) : option (DHCPConf.t * option Z * ether_addr) :=
  match List.find (fun o => at_path p o && is_eth (body o)) (objs n) with
  | Some {| body := Eth dhcp vlan mac |} => Some (dhcp, vlan, mac)
  | _ => None
  end.

Definition DHCPEnabled (service_name p : string) (n : Net) : BusResult DHCPConf.t :=
  match find_eth p n with
  | Some (dhcp, _, _) => Reply dhcp
  | None => BusError UnknownObject
  end.

Definition update_eth (p : string) (f : Body -> Body) (n : Net) : BusResult unit * Net :=
  match find_eth p n with
  | Some _ =>
      (Reply tt,
       with_objs
         (map (fun o => if at_path p o && is_eth (body o)
                        then {| path := path o; body := f (body o) |} else o)
              (objs n)) n)
  | None => (BusError UnknownObject, n)
  end.

Definition set_dhcp (value : DHCPConf.t) (b : Body) : Body :=
  match b with
  | Eth _ vlan mac => Eth value vlan mac
  | _ => b
  end.

Definition set_mac (value : ether_addr) (b : Body) : Body :=
  match b with
  | Eth dhcp vlan _ => Eth dhcp vlan value
  | _ => b
  end.

Definition MACAddress_of (service_name p : string) (n : Net) : BusResult ether_addr :=
  match find_eth p n with
  | Some (_, _, mac) => Reply mac
  | None => BusError UnknownObject
  end.

Definition VLAN_Id (service_name p : string) (n : Net) : BusResult Z :=
  match find_eth p n with
  | Some (_, Some vlan, _) => Reply vlan
  | _ => BusError UnknownObject
  end.

Definition Gateway (service_name name : string) (proto : IP.Protocol) (n : Net)
  : BusResult (option NetAddr) :=
  match proto with
  | IP.IPv4 => Reply (gateway4 n)
  | IP.IPv6 => Reply (gateway6 n)
  end.

Definition set_gateway (service_name name : string) (proto : IP.Protocol)
    (gateway : NetAddr) (n : Net) : BusResult unit * Net :=
  match proto with
  | IP.IPv4 =>
      (Reply tt, {| objs := objs n; next := next n; gateway4 := Some gateway;
                    gateway6 := gateway6 n |})
  | IP.IPv6 =>
      (Reply tt, {| objs := objs n; next := next n; gateway4 := gateway4 n;
                    gateway6 := Some gateway |})
  end.

(** Deleting the object at [p] removes it, and with an interface its
    addresses and neighbours. *)
Definition removed_by (p : string) (o : Obj) : bool :=
  deletable (body o) && (at_path p o || (is_leaf (body o) && under p (path o))).

Definition Delete (service_name p : string) (n : Net) : BusResult unit * Net :=
  if existsb (fun o => at_path p o && deletable (body o)) (objs n)
  then (Reply tt, with_objs (List.filter (fun o => negb (removed_by p o)) (objs n)) n)
  else (BusError UnknownObject, n).

Definition fresh (parent kind : string) (n : Net) : string :=
  parent +:+ "/" +:+ kind +:+ "/" +:+ pretty (next n).

Definition add_obj (o : Obj) (n : Net) : Net :=
  {| objs := objs n ++ [o]; next := N.succ (next n); gateway4 := gateway4 n;
     gateway6 := gateway6 n |}.

Definition proto_of (a : NetAddr) : IP.Protocol :=
  match a with Addr4 _ => IP.IPv4 | Addr6 _ => IP.IPv6 end.

Definition proto_dir (proto : IP.Protocol) : string :=
  match proto with IP.IPv4 => "ipv4" | IP.IPv6 => "ipv6" end.

Definition create_IP (service_name p : string) (proto : IP.Protocol) (address : NetAddr)
    (prefix : Z) (n : Net) : BusResult unit * Net :=
  match find_eth p n with
  | None => (BusError UnknownObject, n)
  | Some _ =>
      if negb (bool_decide (proto_of address = proto))
      then (BusError InvalidArgumentName, n)
      else
        (Reply tt,
         add_obj {| path := fresh p (proto_dir proto) n;
                    body := Addr {| Address := address; PrefixLength := prefix;
                                    Origin := IP.Static |} |} n)
  end.

Definition create_Neighbor (service_name p : string) (ip : NetAddr) (mac : ether_addr)
    (n : Net) : BusResult unit * Net :=
  match find_eth p n with
  | None => (BusError UnknownObject, n)
  | Some _ =>
      (Reply tt,
       add_obj {| path := fresh p "static_neighbor" n;
                  body := Neigh {| IPAddress := ip; MACAddress := mac;
                                   State := Neighbor.Permanent |} |} n)
  end.

Definition vlan_path (name : string) (vlan : Z) : string :=
  PATH_ROOT +:+ "/" +:+ name +:+ "_" +:+ pretty vlan.

(** A VLAN is created on top of an interface name; the call is refused
    when an object already sits at the path of the new interface. *)
Definition create_VLAN (service_name name : string) (vlan : Z) (n : Net)
  : BusResult string * Net :=
  if existsb (at_path (vlan_path name vlan)) (objs n)
  then (BusError InvalidArgumentName, n)
  else
    (Reply (vlan_path name vlan),
     with_objs (objs n ++ [{| path := vlan_path name vlan;
                              body := Eth DHCPConf.none (Some vlan)
                                          {| ether_addr_octet := [0; 0; 0; 0; 0; 0] |} |}])
               n).

#[global] Instance bus : Bus Net := {|
  mapper_GetSubTree := GetSubTree;
  get_IP_objects := IP_objects;
  get_Neighbor_objects := Neighbor_objects;
  get_DHCPEnabled := DHCPEnabled;
  set_DHCPEnabled := fun s p v => update_eth p (set_dhcp v);
  get_MACAddress := MACAddress_of;
  set_MACAddress := fun s p v => update_eth p (set_mac v);
  get_VLAN_Id := VLAN_Id;
  get_Gateway := Gateway;
  set_Gateway := set_gateway;
  call_Delete := Delete;
  call_IP := create_IP;
  call_Neighbor := create_Neighbor;
  call_VLAN := create_VLAN;
|}.

End Sim.

(** The numbering of the IPMI specification and of the daemon's
    headers, used for the concrete instances below. *)
Definition ipmi_header : Header := {|
  LanParam_value := fun p =>
    match p with
    | LanParam.SetStatus => 0 | LanParam.AuthSupport => 1 | LanParam.AuthEnables => 2
    | LanParam.IP => 3 | LanParam.IPSrc => 4 | LanParam.MAC => 5
    | LanParam.SubnetMask => 6 | LanParam.Gateway1 => 12 | LanParam.Gateway1MAC => 13
    | LanParam.VLANId => 20 | LanParam.CiphersuiteSupport => 22
    | LanParam.CiphersuiteEntries => 23 | LanParam.cipherSuitePrivilegeLevels => 24
    | LanParam.IPFamilySupport => 50 | LanParam.IPFamilyEnables => 51
    | LanParam.IPv6Status => 55 | LanParam.IPv6StaticAddresses => 56
    | LanParam.IPv6DynamicAddresses => 59 | LanParam.IPv6RouterControl => 64
    | LanParam.IPv6StaticRouter1IP => 65 | LanParam.IPv6StaticRouter1MAC => 66
    | LanParam.IPv6StaticRouter1PrefixLength => 67
    | LanParam.IPv6StaticRouter1PrefixValue => 68
    end;
  SetStatus_value := fun s =>
    match s with SetStatus.Complete => 0 | SetStatus.InProgress => 1 | SetStatus.Commit => 2 end;
  IPSrc_value := fun s =>
    match s with
    | IPSrc.Unspecified => 0 | IPSrc.Static => 1 | IPSrc.DHCP => 2
    | IPSrc.BIOS => 3 | IPSrc.BMC => 4
    end;
  IPFamilyEnables_value := fun e =>
    match e with
    | IPFamilyEnables.IPv4Only => 0 | IPFamilyEnables.IPv6Only => 1
    | IPFamilyEnables.DualStack => 2
    end;
  IPv6Source_value := fun s =>
    match s with IPv6Source.Static => 0 | IPv6Source.SLAAC => 1 | IPv6Source.DHCP => 2 end;
  IPv6AddressStatus_value := fun s =>
    match s with IPv6AddressStatus.Active => 0 | IPv6AddressStatus.Disabled => 1 end;
  IPFamilySupportFlag_value := fun f =>
    match f with
    | IPFamilySupportFlag.IPv6Only => 0 | IPFamilySupportFlag.DualStack => 1
    | IPFamilySupportFlag.IPv6Alerts => 2
    end;
  IPv6StatusFlag_value := fun f =>
    match f with IPv6StatusFlag.DHCP => 0 | IPv6StatusFlag.SLAAC => 1 end;
  IPv6RouterControlFlag_value := fun f =>
    match f with IPv6RouterControlFlag.Static => 0 | IPv6RouterControlFlag.Dynamic => 1 end;
  MAX_IPV6_STATIC_ADDRESSES := 15;
  MAX_IPV6_DYNAMIC_ADDRESSES := 15;
|}.

(** A platform with one LAN channel, 1, on eth0. *)
Definition sample_platform : Platform := {|
  getChannelName := fun c => if c =? 1 then "eth0" else "";
  isValidChannel := fun c => c =? 1;
  convertCurrentChannelNum := fun bits current => if bits =? 0xE then current else bits;
  getChannelSessionSupport := fun _ => EChannelSessSupported.multi;
  cipherSuitesFile := Some [3; 17];
  maxCSRecords := 16;
  setCSPrivilegeLevels := fun _ _ => 0;
  getCSPrivilegeLevels := fun _ => (0, repeat 4 16);
|}.

Definition new_world {net : Type} (n : net) : World net :=
  {| bus := n; calls := []; setStatus := ∅; lastDisabledVlan := ∅;
     cipherList := []; listInit := false |}.

(** ** Definitions used by the statements *)

(** The combined DHCP mode that toggling IPv4 (resp. IPv6) is to yield,
    as the specification tabulates it: the four listed cases, and the
    current mode in every other case. *)
Definition spec_setV4 (current requested : DHCPConf.t) : DHCPConf.t :=
  match current, requested with
  | DHCPConf.v6, DHCPConf.v4 => DHCPConf.both
  | DHCPConf.none, DHCPConf.v4 => DHCPConf.v4
  | DHCPConf.both, DHCPConf.none => DHCPConf.v6
  | DHCPConf.v4, DHCPConf.none => DHCPConf.none
  | _, _ => current
  end.

Definition spec_setV6 (current requested : DHCPConf.t) : DHCPConf.t :=
  match current, requested with
  | DHCPConf.v4, DHCPConf.v6 => DHCPConf.both
  | DHCPConf.none, DHCPConf.v6 => DHCPConf.v6
  | DHCPConf.both, DHCPConf.none => DHCPConf.v4
  | DHCPConf.v6, DHCPConf.none => DHCPConf.none
  | _, _ => current
  end.

(** The set-in-progress status of a channel as a read reports it:
    [Complete] until something else is stored. *)
Definition storedStatus {net : Type} (w : World net) (channel : Z) : SetStatus.t :=
  default SetStatus.Complete (setStatus w !! channel).

(** Whether a prefix survives the trip to a netmask and back. *)
Definition roundtrips (p : Z) : bool :=
  match prefixToNetmask p with
  | Ok m => match netmaskToPrefix m with Ok q => q =? p | _ => false end
  | _ => false
  end.

(** The last value written to the DHCPEnabled property, from the log of
    bus calls. *)
Definition last_DHCPEnabled_written (log : list BusCall) : option DHCPConf.t :=
  fold_left (fun acc c => match c with SetDHCPEnabled _ _ v => Some v | _ => acc end)
            log None.

(** [w'] differs from [w] at most by the log of bus calls: the network
    state and the handler's own maps and statics are the same. *)
Definition only_logged {net : Type} (w w' : World net) : Prop :=
  bus w' = bus w /\ setStatus w' = setStatus w
  /\ lastDisabledVlan w' = lastDisabledVlan w
  /\ cipherList w' = cipherList w /\ listInit w' = listInit w.

(** The bus is not called between [w] and [w'], and the network state
    and the handler's maps are the same. *)
Definition untouched {net : Type} (w w' : World net) : Prop :=
  bus w' = bus w /\ calls w' = calls w /\ setStatus w' = setStatus w
  /\ lastDisabledVlan w' = lastDisabledVlan w.

Definition InternalFailureName : string :=
  "xyz.openbmc_project.Common.Error.InternalFailure".
Definition UnknownObjectName : string := "org.freedesktop.DBus.Error.UnknownObject".

(** What [reconfigureVLAN] saves of the logical interface before it
    tears the channel down, read with the same lookups: the IPv4 address
    and prefix, the IPv6 static addresses and prefixes slot by slot, the
    combined DHCP mode, and per family the gateway and the MAC of its
    static neighbour entry. *)
Record Snapshot : Type := {
  snap_ifaddr4 : option (in_addr * Z);
  snap_ifaddrs6 : list (in6_addr * Z);
  snap_dhcp : DHCPConf.t;
  snap_neighbor4 : option (in_addr * ether_addr);
  snap_neighbor6 : option (in6_addr * ether_addr);
}.

Definition addr_prefix {family : Family} `{!AddrFamily family} (a : IfAddr family)
  : addr family * Z :=
  (ifaddr_address a, ifaddr_prefix a).

Definition ip_mac {family : Family} `{!AddrFamily family} (n : IfNeigh family)
  : addr family * ether_addr :=
  (ifneigh_ip n, ifneigh_mac n).

Definition snapshot {net : Type} `{!Bus net} `{!Header} (params : ChannelParams)
  : M net Snapshot :=
  ips ← ObjectLookupCache_IP params;
  dhcp ← getDHCPProperty params;
  neighbors ← ObjectLookupCache_Neighbor params;
  neighbor4 ← findGatewayNeighbor AF_INET params neighbors;
  neighbor6 ← findGatewayNeighbor AF_INET6 params neighbors;
  mret {| snap_ifaddr4 := option_map addr_prefix (findIfAddr AF_INET 0 originsV4 ips);
          snap_ifaddrs6 :=
            map addr_prefix
                (captureIfAddrs6 (Z.to_nat MAX_IPV6_STATIC_ADDRESSES) 0 ips);
          snap_dhcp := dhcp;
          snap_neighbor4 := option_map (@ip_mac AF_INET _) neighbor4;
          snap_neighbor6 := option_map (@ip_mac AF_INET6 _) neighbor6 |}.

(** The addresses of a family with one of the given origins, in
    enumeration order: the slots that [findIfAddr] indexes. *)
Definition slots (family : Family) `{!AddrFamily family} (origins : list IP.AddressOrigin)
    (ips : list (string * IPProps)) : list (IfAddr family) :=
  omap (fun '(path, properties) =>
          match maybeStringToAddr (Address properties) with
          | None => None
          | Some address =>
              if bool_decide (Origin properties ∈ origins)
              then Some {| ifaddr_path := path; ifaddr_address := address;
                           ifaddr_origin := Origin properties;
                           ifaddr_prefix := PrefixLength properties |}
              else None
          end)
       ips.

(** A call runs to a value and a network state, leaving the handler's
    maps and statics as they were. *)
Definition frame {net : Type} (w w' : World net) : Prop :=
  setStatus w' = setStatus w /\ lastDisabledVlan w' = lastDisabledVlan w
  /\ cipherList w' = cipherList w /\ listInit w' = listInit w.

Definition runs_to {net A : Type} (m : M net A) (w : World net) (a : A) (n' : net) : Prop :=
  exists w', m w = (Ok a, w') /\ bus w' = n' /\ frame w w'.

(** [params] describe a channel of the modelled network: [ifPath] is a
    physical interface whose path holds the interface name, and
    [logicalPath] is either that interface or a VLAN interface whose path
    holds the name too. *)
Definition describes (params : ChannelParams) (n : Sim.Net) : Prop :=
  ifname params <> ""
  /\ string_contains (ifPath params) (ifname params) = true
  /\ (exists dhcp mac, Sim.find_eth (ifPath params) n = Some (dhcp, None, mac))
  /\ (logicalPath params = ifPath params
      \/ (string_contains (logicalPath params) (ifname params) = true
          /\ exists dhcp vlan mac,
               Sim.find_eth (logicalPath params) n = Some (dhcp, Some vlan, mac))).

(** What tearing a channel down removes from the store: every deletable
    object whose path holds the interface name. *)
Definition doomed (name : string) (o : Sim.Obj) : bool :=
  Sim.deletable (Sim.body o) && string_contains (Sim.path o) name.

(** No physical interface sits at the path of the VLAN to be created. *)
Definition vlan_path_free (name : string) (vlan : Z) (n : Sim.Net) : Prop :=
  forall o, In o (Sim.objs n) -> Sim.path o = Sim.vlan_path name vlan ->
            Sim.deletable (Sim.body o) = true.

(** The store after [Sim.Delete] has been called on each path in turn. *)
Definition delete_all (paths : list string) (n : Sim.Net) : Sim.Net :=
  fold_left (fun n p => snd (Sim.Delete Sim.SERVICE p n)) paths n.

(** The address and neighbour objects below [p], as the service
    enumerates them. *)
Definition ip_list (p : string) (n : Sim.Net) : list (string * IPProps) :=
  omap (fun o =>
          match Sim.body o with
          | Sim.Addr props => if Sim.under p (Sim.path o) then Some (Sim.path o, props) else None
          | _ => None
          end)
       (Sim.objs n).

Definition neigh_list (p : string) (n : Sim.Net) : list (string * NeighborProps) :=
  omap (fun o =>
          match Sim.body o with
          | Sim.Neigh props => if Sim.under p (Sim.path o) then Some (Sim.path o, props) else None
          | _ => None
          end)
       (Sim.objs n).

Definition eth_at (p : string) (o : Sim.Obj) : bool :=
  Sim.at_path p o && Sim.is_eth (Sim.body o).

(** The store with the DHCP mode of the interface at [p] set. *)
Definition set_dhcp_at (p : string) (value : DHCPConf.t) (n : Sim.Net) : Sim.Net :=
  Sim.with_objs
    (map (fun o => if eth_at p o
                   then {| Sim.path := Sim.path o;
                           Sim.body := Sim.set_dhcp value (Sim.body o) |}
                   else o)
         (Sim.objs n)) n.

Definition new_ip (lp : string) (address : NetAddr) (prefix : Z) (n : Sim.Net) : Sim.Obj :=
  {| Sim.path := Sim.fresh lp (Sim.proto_dir (Sim.proto_of address)) n;
     Sim.body := Sim.Addr {| Address := address; PrefixLength := prefix;
                             Origin := IP.Static |} |}.

Definition new_neighbor (lp : string) (ip : NetAddr) (mac : ether_addr) (n : Sim.Net)
  : Sim.Obj :=
  {| Sim.path := Sim.fresh lp "static_neighbor" n;
     Sim.body := Sim.Neigh {| IPAddress := ip; MACAddress := mac;
                              State := Neighbor.Permanent |} |}.

Definition new_vlan (name : string) (vlan : Z) : Sim.Obj :=
  {| Sim.path := Sim.vlan_path name vlan;
     Sim.body := Sim.Eth DHCPConf.none (Some vlan)
                         {| ether_addr_octet := [0; 0; 0; 0; 0; 0] |} |}.

(** One [Sim.Delete] on the list of objects. *)
Definition delete1 (p : string) (l : list Sim.Obj) : list Sim.Obj :=
  if existsb (fun o => Sim.at_path p o && Sim.deletable (Sim.body o)) l
  then List.filter (fun o => negb (Sim.removed_by p o)) l
  else l.

(** What is left of the store after the channel has been torn down. *)
Definition kept (name : string) (l : list Sim.Obj) : list Sim.Obj :=
  List.filter (fun o => negb (doomed name o)) l.

(** The parameters after the deletion loop of [deconfigureChannel] has
    gone through the given paths. *)
Definition collapse (paths : list string) (params : ChannelParams) : ChannelParams :=
  fold_left
    (fun params p =>
       if negb (string_contains p (ifname params)) then params
       else if bool_decide (p = logicalPath params)
            then {| id := id params; ifname := ifname params; service := service params;
                    ifPath := ifPath params; logicalPath := ifPath params |}
            else params)
    paths params.

Definition delete_entry (p : string) : string * list (string * list Interface) :=
  (p, [(Sim.SERVICE, [DELETE_INTERFACE])]).

(** The slots again, from the properties alone and without the object
    identities: address and prefix of the addresses of the family with
    one of the given origins. *)
Definition props_slots (family : Family) `{!AddrFamily family}
    (origins : list IP.AddressOrigin) (props : list IPProps) : list (addr family * Z) :=
  omap (fun properties =>
          match maybeStringToAddr (Address properties) with
          | None => None
          | Some address =>
              if bool_decide (Origin properties ∈ origins)
              then Some (address, PrefixLength properties)
              else None
          end)
       props.

(** The gateway IP and the MAC of the first static neighbour entry for
    it, from the properties alone. *)
Fixpoint static_mac (family : Family) `{!AddrFamily family} (ip : addr family)
    (props : list NeighborProps) : option (addr family * ether_addr) :=
  match props with
  | [] => None
  | neighbor :: rest =>
      match maybeStringToAddr (IPAddress neighbor) with
      | None => static_mac family ip rest
      | Some neighIP =>
          if negb (bool_decide (neighIP = ip)) then static_mac family ip rest
          else if negb (bool_decide (State neighbor = Neighbor.Permanent))
          then static_mac family ip rest
          else Some (ip, MACAddress neighbor)
      end
  end.

(** The gateway neighbour of a family: nothing to report without a
    gateway, and no answer at all ([None]) when the gateway property
    does not hold an address of the family. *)
Definition gateway_mac (family : Family) `{!AddrFamily family} (gateway : option NetAddr)
    (props : list NeighborProps) : option (option (addr family * ether_addr)) :=
  match gateway with
  | None => Some None
  | Some s =>
      match maybeStringToAddr s with
      | Some g => Some (static_mac family g props)
      | None => None
      end
  end.

(** The snapshot of the interface at [lp] of the modelled network. *)
Definition observe `{!Header} (lp : string) (n : Sim.Net) : option Snapshot :=
  match Sim.find_eth lp n with
  | None => None
  | Some (dhcp, _, _) =>
      let ips := map snd (ip_list lp n) in
      let neighbors := map snd (neigh_list lp n) in
      match gateway_mac AF_INET (Sim.gateway4 n) neighbors,
            gateway_mac AF_INET6 (Sim.gateway6 n) neighbors with
      | Some neighbor4, Some neighbor6 =>
          Some {| snap_ifaddr4 := head (props_slots AF_INET originsV4 ips);
                  snap_ifaddrs6 :=
                    take (Z.to_nat MAX_IPV6_STATIC_ADDRESSES)
                         (props_slots AF_INET6 originsV6Static ips);
                  snap_dhcp := dhcp;
                  snap_neighbor4 := neighbor4;
                  snap_neighbor6 := neighbor6 |}
      | _, _ => None
      end
  end.

(** Leaf objects added below [lp] one after the other, each with a
    fresh path of its kind. *)
Definition add_leaves (lp : string) (items : list (string * Sim.Body)) (n : Sim.Net)
  : Sim.Net :=
  fold_left
    (fun n '(kind, b) => Sim.add_obj {| Sim.path := Sim.fresh lp kind n; Sim.body := b |} n)
    items n.

Definition ip_item (a : NetAddr) (prefix : Z) : string * Sim.Body :=
  (Sim.proto_dir (Sim.proto_of a),
   Sim.Addr {| Address := a; PrefixLength := prefix; Origin := IP.Static |}).

Definition neighbor_item (ip : NetAddr) (mac : ether_addr) : string * Sim.Body :=
  ("static_neighbor"%string,
   Sim.Neigh {| IPAddress := ip; MACAddress := mac; State := Neighbor.Permanent |}).

(** What [reconfigureVLAN] creates again on the new logical interface,
    in its order, for a given snapshot. *)
Definition restore_items (s : Snapshot) : list (string * Sim.Body) :=
  match snap_ifaddr4 s with
  | Some (a, p) => [ip_item (Addr4 a) p]
  | None => []
  end
  ++ map (fun '(a, p) => ip_item (Addr6 a) p) (snap_ifaddrs6 s)
  ++ match snap_neighbor4 s with
     | Some (ip, mac) => [neighbor_item (Addr4 ip) mac]
     | None => []
     end
  ++ match snap_neighbor6 s with
     | Some (ip, mac) => [neighbor_item (Addr6 ip) mac]
     | None => []
     end.

(** The modelled network after [reconfigureVLAN params vlan], for the
    snapshot [s] taken before: the channel torn down, the physical
    interface's DHCP mode cleared, the VLAN interface created (unless
    [vlan] is 0), the DHCP mode set and the saved objects created. *)
Definition new_logicalPath (params : ChannelParams) (vlan : Z) : string :=
  if vlan =? 0 then ifPath params else Sim.vlan_path (ifname params) vlan.

Definition reconfigured (params : ChannelParams) (vlan : Z) (s : Snapshot) (n : Sim.Net)
  : Sim.Net :=
  let n1 := set_dhcp_at (ifPath params) DHCPConf.none
                        (Sim.with_objs (kept (ifname params) (Sim.objs n)) n) in
  let n2 := if vlan =? 0 then n1
            else Sim.with_objs (Sim.objs n1 ++ [new_vlan (ifname params) vlan]) n1 in
  add_leaves (new_logicalPath params vlan) (restore_items s)
             (set_dhcp_at (new_logicalPath params vlan) (snap_dhcp s) n2).

(** The gateway property of a family in the modelled network. *)
Definition sim_gateway (proto : IP.Protocol) (n : Sim.Net) : option NetAddr :=
  match proto with
  | IP.IPv4 => Sim.gateway4 n
  | IP.IPv6 => Sim.gateway6 n
  end.

(** The address properties and the neighbour properties among a run of
    leaf objects. *)
Definition item_ips (items : list (string * Sim.Body)) : list IPProps :=
  omap (fun item => match snd item with Sim.Addr props => Some props | _ => None end) items.

Definition item_neighs (items : list (string * Sim.Body)) : list NeighborProps :=
  omap (fun item => match snd item with Sim.Neigh props => Some props | _ => None end) items.

Definition static_ip_props (a : NetAddr) (prefix : Z) : IPProps :=
  {| Address := a; PrefixLength := prefix; Origin := IP.Static |}.

Definition static_neighbor_props (ip : NetAddr) (mac : ether_addr) : NeighborProps :=
  {| IPAddress := ip; MACAddress := mac; State := Neighbor.Permanent |}.

(** Physical and VLAN interface objects, and the path of the first
    object of a kind whose path holds [name]; the empty path stands for
    none, as in [ChannelParams]. *)
Definition is_phys (b : Sim.Body) : bool :=
  match b with Sim.Eth _ None _ => true | _ => false end.

Definition is_vlan (b : Sim.Body) : bool :=
  match b with Sim.Eth _ (Some _) _ => true | _ => false end.

Definition first_path (kind : Sim.Body -> bool) (name : string) (l : list Sim.Obj)
  : string :=
  match List.find (fun o => kind (Sim.body o) && string_contains (Sim.path o) name) l with
  | Some o => Sim.path o
  | None => ""
  end.

(** The channel parameters that the modelled network gives to a channel
    named [name]. *)
Definition resolved (channel : Z) (name : string) (n : Sim.Net) : option ChannelParams :=
  let physical := first_path is_phys name (Sim.objs n) in
  let logical := first_path is_vlan name (Sim.objs n) in
  if bool_decide (physical = "") then None
  else Some {| id := channel; ifname := name; service := Sim.SERVICE;
               ifPath := physical;
               logicalPath := if bool_decide (logical = "") then physical else logical |}.

(** The fields that the scan of [maybeGetChannelParams] has filled in
    after the objects [l], starting from [acc]. *)
Definition scanned (name : string) (l : list Sim.Obj) (acc : ChannelParams)
  : ChannelParams :=
  {| id := id acc; ifname := ifname acc;
     service :=
       if bool_decide (service acc = "")
       then if existsb (fun o => Sim.is_eth (Sim.body o)
                                 && string_contains (Sim.path o) name) l
            then Sim.SERVICE else ""
       else service acc;
     ifPath := if bool_decide (ifPath acc = "") then first_path is_phys name l
               else ifPath acc;
     logicalPath := if bool_decide (logicalPath acc = "") then first_path is_vlan name l
                    else logicalPath acc |}.

(** The step of the scan of [maybeGetChannelParams] over one entry of
    the object tree. *)
Definition scan_step (name : string) (params : ChannelParams)
    (entry : string * list (string * list Interface)) : ChannelParams :=
  let '(path, impls) := entry in
  if negb (string_contains path name) then params else scan_impls path impls params.

(** The entry of the object tree that the service reports for an
    object, when asked for the VLAN and Ethernet interfaces. *)
Definition scan_entry (o : Sim.Obj) : option (string * list (string * list Interface)) :=
  let found := List.filter (fun i => bool_decide (i ∈ [INTF_VLAN; INTF_ETHERNET]))
                           (Sim.interfaces (Sim.body o)) in
  if bool_decide (found = []) then None
  else Some (Sim.path o, [(Sim.SERVICE, found)]).

(** ** A sample network

    One physical interface eth0 with a DHCP-assigned IPv4 address, two
    IPv6 static addresses, the combined DHCP mode both, and a gateway
    with a static neighbour entry in each family. *)
Definition sample_mac : ether_addr := {| ether_addr_octet := [2; 0; 0; 0; 0; 1] |}.

Definition sample_eth0 : string := "/xyz/openbmc_project/network/eth0".

Definition sample_net : Sim.Net := {|
  Sim.objs := [
    {| Sim.path := sample_eth0; Sim.body := Sim.Eth DHCPConf.both None sample_mac |};
    {| Sim.path := sample_eth0 +:+ "/ipv4/a";
       Sim.body := Sim.Addr {| Address := Addr4 {| s_addr := 0x0a000001 |};
                               PrefixLength := 24; Origin := IP.DHCP |} |};
    {| Sim.path := sample_eth0 +:+ "/ipv6/b";
       Sim.body := Sim.Addr {| Address := Addr6 {| s6_addr := 77 |};
                               PrefixLength := 64; Origin := IP.Static |} |};
    {| Sim.path := sample_eth0 +:+ "/ipv6/c";
       Sim.body := Sim.Addr {| Address := Addr6 {| s6_addr := 78 |};
                               PrefixLength := 48; Origin := IP.Static |} |};
    {| Sim.path := sample_eth0 +:+ "/static_neighbor/d";
       Sim.body := Sim.Neigh {| IPAddress := Addr4 {| s_addr := 0x0a0000fe |};
                                MACAddress := sample_mac;
                                State := Neighbor.Permanent |} |};
    {| Sim.path := sample_eth0 +:+ "/static_neighbor/e";
       Sim.body := Sim.Neigh {| IPAddress := Addr6 {| s6_addr := 99 |};
                                MACAddress := sample_mac;
                                State := Neighbor.Permanent |} |}
  ];
  Sim.next := 0;
  Sim.gateway4 := Some (Addr4 {| s_addr := 0x0a0000fe |});
  Sim.gateway6 := Some (Addr6 {| s6_addr := 99 |});
|}.

Definition sample_params : ChannelParams :=
  {| id := 1; ifname := "eth0"; service := Sim.SERVICE; ifPath := sample_eth0;
     logicalPath := sample_eth0 |}.

Definition sample_snapshot : Snapshot :=
  {| snap_ifaddr4 := Some ({| s_addr := 0x0a000001 |}, 24);
     snap_ifaddrs6 := [({| s6_addr := 77 |}, 64); ({| s6_addr := 78 |}, 48)];
     snap_dhcp := DHCPConf.both;
     snap_neighbor4 := Some ({| s_addr := 0x0a0000fe |}, sample_mac);
     snap_neighbor6 := Some ({| s6_addr := 99 |}, sample_mac) |}.

Definition sample_world : World Sim.Net := new_world sample_net.

(** The same interface alone, without addresses, in a given DHCP
    mode. *)
Definition eth_only (dhcp : DHCPConf.t) : Sim.Net := {|
  Sim.objs := [{| Sim.path := sample_eth0; Sim.body := Sim.Eth dhcp None sample_mac |}];
  Sim.next := 0;
  Sim.gateway4 := None;
  Sim.gateway6 := None;
|}.

Definition bare_world : World Sim.Net := new_world (eth_only DHCPConf.none).

(** ** The netmasks

    The word whose 1-bits are the bits [k] to 31, and whether the
    netmask with that word decodes to a prefix that encodes to the
    netmask again. *)
Definition mask_of_run (k : Z) : Z := 2 ^ 32 - 2 ^ k.

Definition decodes_back (k : Z) : bool :=
  let m := {| s_addr := Word.htobe32 (mask_of_run k) |} in
  match netmaskToPrefix m with
  | Ok p =>
      (0 <=? p) && (p <=? 32)
      && match prefixToNetmask p with
         | Ok m' => s_addr m' =? s_addr m
         | _ => false
         end
  | _ => false
  end.

(** A call that leaves the state of the network service as it is. *)
Definition keeps_bus {net A : Type} (m : M net A) : Prop :=
  forall w, bus (snd (m w)) = bus w.

(** A call that leaves the set-in-progress status of every channel as
    it is. *)
Definition keeps_status {net A : Type} (m : M net A) : Prop :=
  forall w, setStatus (snd (m w)) = setStatus w.

(** * Properties *)

(** ** The netmask codec *)

Section BitFacts.

Lemma land_odd_even (a b : Z) : Z.land (2 * a + 1) (2 * b) = 2 * Z.land a b.
Proof.
  apply Z.bits_inj'; intros n Hn.
  rewrite Z.land_spec.
  destruct (Z.eq_dec n 0) as [-> | Hne].
  - rewrite Z.testbit_odd_0, !Z.testbit_even_0. reflexivity.
  - replace n with (Z.succ (n - 1)) by lia.
    rewrite Z.testbit_odd_succ, !Z.testbit_even_succ by lia.
    now rewrite Z.land_spec.
Qed.

Lemma land_even_odd (a : Z) : Z.land (2 * a) (2 * a + 1) = 2 * a.
Proof.
  apply Z.bits_inj'; intros n Hn.
  rewrite Z.land_spec.
  destruct (Z.eq_dec n 0) as [-> | Hne].
  - rewrite Z.testbit_odd_0, !Z.testbit_even_0. reflexivity.
  - replace n with (Z.succ (n - 1)) by lia.
    rewrite Z.testbit_odd_succ, !Z.testbit_even_succ by lia.
    apply andb_diag.
Qed.

(** A number that shares no bit with its successor is a run of low
    1-bits. *)
Lemma land_succ_zero (y : Z) :
  0 <= y -> Z.land y (y + 1) = 0 -> exists k, 0 <= k /\ y = 2 ^ k - 1.
Proof.
  intros Hy. revert y Hy. refine (Zlt_0_ind _ _). intros y IH Hy Hland.
  destruct (Z.eq_dec y 0) as [-> | Hne]; [exists 0; split; [lia | reflexivity] |].
  destruct (Z.even y) eqn:Heven.
  - exfalso. apply Z.even_spec in Heven as [z ->].
    rewrite land_even_odd in Hland. lia.
  - assert (Hodd : Z.odd y = true) by (rewrite <- Z.negb_even, Heven; reflexivity).
    apply Z.odd_spec in Hodd as [z ->].
    replace (2 * z + 1 + 1) with (2 * (z + 1)) in Hland by lia.
    rewrite land_odd_even in Hland.
    destruct (IH z) as (k & Hk & ->); [lia | lia |].
    exists (k + 1). split; [lia |].
    rewrite Z.pow_add_r by lia. lia.
Qed.

Lemma testbit_pow2_diff (n k i : Z) :
  0 <= k <= n -> 0 <= i ->
  Z.testbit (2 ^ n - 2 ^ k) i = (k <=? i) && (i <? n).
Proof.
  intros Hk Hi.
  replace (2 ^ n - 2 ^ k) with (Z.shiftl (Z.ones (n - k)) k).
  - rewrite Z.shiftl_spec by lia.
    destruct (Z.leb_spec k i) as [Hle | Hlt]; simpl.
    + destruct (Z.ltb_spec i n).
      * apply Z.ones_spec_low. lia.
      * apply Z.ones_spec_high. lia.
    + apply Z.testbit_neg_r. lia.
  - rewrite Z.shiftl_mul_pow2, Z.ones_equiv by lia.
    rewrite <- Z.sub_1_r, Z.mul_sub_distr_r, <- Z.pow_add_r by lia.
    replace (n - k + k) with n by lia. lia.
Qed.

Lemma bounded_of_bits (a n : Z) :
  0 <= a -> 0 <= n -> (forall i, n <= i -> Z.testbit a i = false) -> a < 2 ^ n.
Proof.
  intros Ha Hn Hbits.
  destruct (Z.lt_ge_cases a (2 ^ n)) as [| Hge]; [assumption | exfalso].
  assert (Hpos : 0 < a) by (pose proof (Z.pow_pos_nonneg 2 n); lia).
  assert (Hlog : n <= Z.log2 a) by (apply Z.log2_le_pow2; lia).
  pose proof (Z.bit_log2 a Hpos) as Hbit.
  rewrite Hbits in Hbit by assumption. discriminate.
Qed.

Lemma byte_of_bits (x i n : Z) :
  8 <= n -> Z.testbit (Word.byte_of x i) n = false.
Proof.
  intros Hn. unfold Word.byte_of.
  rewrite Z.land_spec. change 255 with (Z.ones 8).
  rewrite (Z.ones_spec_high 8 n) by lia. apply andb_false_r.
Qed.

Lemma byte_of_nonneg (x i : Z) : 0 <= Word.byte_of x i.
Proof.
  unfold Word.byte_of. apply Z.land_nonneg. right. lia.
Qed.

Lemma bswap32_range (x : Z) : is_uint32 (Word.bswap32 x).
Proof.
  unfold is_uint32, Word.bswap32. split.
  - repeat (apply Z.lor_nonneg; split);
      try (apply Z.shiftl_nonneg); apply byte_of_nonneg.
  - apply bounded_of_bits; [| lia |].
    + repeat (apply Z.lor_nonneg; split);
        try (apply Z.shiftl_nonneg); apply byte_of_nonneg.
    + intros i Hi.
      rewrite !Z.lor_spec, !Z.shiftl_spec by lia.
      rewrite !byte_of_bits by lia. reflexivity.
Qed.

Lemma not32_uint32 (x : Z) : is_uint32 x -> Word.not32 x = 2 ^ 32 - 1 - x.
Proof.
  unfold is_uint32, Word.not32, Word.wrap, Z.lnot. intros Hx.
  symmetry. apply (Z.mod_unique_pos _ _ (-1)); lia.
Qed.

End BitFacts.

(** The check of [netmaskToPrefix] lets only left-aligned runs of 1-bits
    through. *)
Lemma netmask_check_sound (x : Z) :
  is_uint32 x ->
  Z.land (Word.not32 x) (Word.add32 (Word.not32 x) 1) = 0 ->
  left_aligned_ones x.
Proof.
  intros Hx. rewrite (not32_uint32 x Hx).
  unfold Word.add32, Word.wrap. unfold is_uint32 in Hx.
  destruct (Z.eq_dec x 0) as [-> | Hne].
  - intros _ i j _ _ Hbit. now rewrite Z.testbit_0_l in Hbit.
  - rewrite Z.mod_small by lia. intros Hland.
    apply land_succ_zero in Hland as (k & Hk & Heq); [| lia].
    assert (Hk32 : k <= 32).
    { destruct (Z.le_gt_cases k 32) as [| Hgt]; [assumption | exfalso].
      assert (2 ^ 33 <= 2 ^ k) by (apply Z.pow_le_mono_r; lia). lia. }
    assert (Hx' : x = 2 ^ 32 - 2 ^ k) by lia.
    intros i j Hij Hj. rewrite Hx'.
    rewrite !testbit_pow2_diff by lia.
    intros Hbit. apply andb_true_iff in Hbit as [Hki _].
    apply Z.leb_le in Hki.
    apply andb_true_iff. split; [apply Z.leb_le | apply Z.ltb_lt]; lia.
Qed.

Lemma netmaskToPrefix_rejects (m : in_addr) :
  ~ left_aligned_ones (Word.be32toh (s_addr m)) ->
  netmaskToPrefix m = Throw InternalFailure.
Proof.
  intros Hbad. unfold netmaskToPrefix.
  destruct (Z.eqb_spec
              (Z.land (Word.not32 (Word.be32toh (s_addr m)))
                      (Word.add32 (Word.not32 (Word.be32toh (s_addr m))) 1)) 0)
    as [Hzero | Hnz]; [| reflexivity].
  exfalso. apply Hbad. apply netmask_check_sound; [| exact Hzero].
  apply bswap32_range.
Qed.

Lemma roundtrips_all : forallb roundtrips (map Z.of_nat (seq 0 33)) = true.
Proof. vm_compute. reflexivity. Qed.

Lemma prefix_roundtrip (p : Z) :
  0 <= p <= 32 -> exists m, prefixToNetmask p = Ok m /\ netmaskToPrefix m = Ok p.
Proof.
  intros Hp.
  assert (Hin : In p (map Z.of_nat (seq 0 33))).
  { apply in_map_iff. exists (Z.to_nat p). split; [lia |]. apply in_seq. lia. }
  pose proof roundtrips_all as Hall. rewrite forallb_forall in Hall.
  specialize (Hall p Hin). unfold roundtrips in Hall.
  destruct (prefixToNetmask p) as [m | |]; try discriminate.
  exists m. split; [reflexivity |].
  destruct (netmaskToPrefix m) as [q | |]; try discriminate.
  apply Z.eqb_eq in Hall. now subst.
Qed.

Lemma prefixToNetmask_defined (p : Z) : 0 <= p -> prefixToNetmask p <> Undefined.
Proof.
  intros Hp. unfold prefixToNetmask, Word.shl32.
  destruct (Z.ltb_spec 32 p); [discriminate |].
  destruct (Z.eqb_spec p 0); [discriminate |].
  destruct (Z.leb_spec 0 (32 - p)); [| lia].
  destruct (Z.ltb_spec (32 - p) 32); [discriminate | lia].
Qed.

(** ** The handler over an arbitrary bus *)

Section HandlerFacts.
Context {net : Type} `{!Bus net} `{!Platform} `{!Header}.

#[local] Abbreviation M := (M net).

Lemma bind_ok {A B : Type} (m : M A) (k : A -> M B) (w w' : World net) (a : A) :
  m w = (Ok a, w') -> (m ≫= k) w = k a w'.
Proof. intros Hm. unfold mbind, M_bind. now rewrite Hm. Qed.

Lemma bind_throw {A B : Type} (m : M A) (k : A -> M B) (w w' : World net) (e : exn) :
  m w = (Throw e, w') -> (m ≫= k) w = (Throw e, w').
Proof. intros Hm. unfold mbind, M_bind. now rewrite Hm. Qed.

Lemma bind_undefined {A B : Type} (m : M A) (k : A -> M B) (w w' : World net) :
  m w = (Undefined, w') -> (m ≫= k) w = (Undefined, w').
Proof. intros Hm. unfold mbind, M_bind. now rewrite Hm. Qed.

Lemma storedStatus_put (w : World net) (channel c : Z) (s : SetStatus.t) :
  storedStatus (snd (put_setStatus channel s w)) c
  = if decide (channel = c) then s else storedStatus w c.
Proof.
  unfold storedStatus, put_setStatus; simpl.
  rewrite lookup_insert. destruct (decide (channel = c)); reflexivity.
Qed.

Lemma getSetStatus_spec (channel : Z) (w : World net) :
  exists w', getSetStatus channel w = (Ok (storedStatus w channel), w')
             /\ setStatus w' !! channel = Some (storedStatus w channel)
             /\ (forall c, storedStatus w' c = storedStatus w c)
             /\ bus w' = bus w /\ calls w' = calls w
             /\ lastDisabledVlan w' = lastDisabledVlan w.
Proof.
  unfold getSetStatus, storedStatus.
  unfold mbind, M_bind, get_setStatus_map.
  destruct (setStatus w !! channel) as [s |] eqn:Hs; simpl.
  - exists w. rewrite Hs. repeat split; reflexivity.
  - eexists. split; [reflexivity |]. simpl.
    rewrite lookup_insert_eq. repeat split; try reflexivity.
    intros c. rewrite lookup_insert.
    destruct (decide (channel = c)) as [<- |]; [now rewrite Hs | reflexivity].
Qed.

(** What [setLan] does with a well-formed SetStatus request on a valid
    channel: the latch of the set-in-progress status. *)
Lemma setLan_SetStatus (ctx_channel channelBits parameter : Z) (req : Payload)
    (flag : Z) (w : World net) :
  let channel := convertCurrentChannelNum channelBits ctx_channel in
  isValidChannel channel = true ->
  enum_cast LanParam_value LanParam.all parameter = Some LanParam.SetStatus ->
  unpack_SetStatus req = Some (flag, 0) ->
  setLan ctx_channel channelBits 0 parameter req w
  = match enum_cast SetStatus_value SetStatus.all flag with
    | Some SetStatus.Complete =>
        (getSetStatus channel;; put_setStatus channel SetStatus.Complete;;
         mret ccSuccess) w
    | Some SetStatus.InProgress =>
        (storedStatus ← getSetStatus channel;
         if bool_decide (storedStatus = SetStatus.InProgress)
         then mret ccParamSetLocked
         else put_setStatus channel SetStatus.InProgress;; mret ccSuccess) w
    | Some SetStatus.Commit =>
        (storedStatus ← getSetStatus channel;
         if negb (bool_decide (storedStatus = SetStatus.InProgress))
         then mret ccInvalidFieldRequest
         else mret ccSuccess) w
    | None => (Ok ccParamNotSupported, w)
    end.
Proof.
  intros channel Hvalid Hparam Hreq. unfold setLan. fold channel.
  rewrite Hvalid, Hparam, Hreq. cbn -[enum_cast getSetStatus put_setStatus mbind].
  destruct (enum_cast SetStatus_value SetStatus.all flag) as [[] |]; reflexivity.
Qed.

Lemma only_logged_refl (w : World net) : only_logged w w.
Proof. repeat split. Qed.

Lemma only_logged_trans (w1 w2 w3 : World net) :
  only_logged w1 w2 -> only_logged w2 w3 -> only_logged w1 w3.
Proof.
  unfold only_logged. intros (? & ? & ? & ? & ?) (? & ? & ? & ? & ?).
  repeat split; congruence.
Qed.

Lemma query_only_logged {A : Type} (c : BusCall) (f : net -> BusResult A) (w : World net) :
  only_logged w (snd (query c f w)).
Proof. repeat split. Qed.

Lemma query_run {A : Type} (c : BusCall) (f : net -> BusResult A) (w : World net) :
  query c f w = (of_reply (f (bus w)), log_call c w).
Proof. reflexivity. Qed.

Lemma maybeGetChannelParams_only_logged (channel : Z) (w : World net) :
  only_logged w (snd (maybeGetChannelParams channel w)).
Proof.
  unfold maybeGetChannelParams.
  destruct (bool_decide _); [apply only_logged_refl |].
  unfold mbind, M_bind. rewrite query_run.
  destruct (of_reply _) as [objs | e |]; simpl; try (repeat split; fail).
  destruct (bool_decide _); repeat split.
Qed.

Lemma channelCall_only_logged {A : Type} (func : ChannelParams -> M A) (channel : Z)
    (w : World net) :
  (forall p w1, only_logged w1 (snd (func p w1))) ->
  only_logged w (snd (channelCall func channel w)).
Proof.
  intros Hfunc. unfold channelCall, mbind, M_bind.
  pose proof (maybeGetChannelParams_only_logged channel w) as Hres.
  destruct (maybeGetChannelParams channel w) as [[[p |] | e |] w1]; simpl in *;
    try exact Hres.
  apply (only_logged_trans _ w1); [exact Hres | apply Hfunc].
Qed.

Lemma getDHCPProperty_only_logged (p : ChannelParams) (w : World net) :
  only_logged w (snd (getDHCPProperty p w)).
Proof. apply query_only_logged. Qed.

(** Reading the DHCP mode of a channel changes nothing but the log. *)
Lemma channelCall_getDHCPProperty_only_logged (channel : Z) (w : World net) :
  only_logged w (snd (channelCall getDHCPProperty channel w)).
Proof. apply channelCall_only_logged. intros. apply getDHCPProperty_only_logged. Qed.

Lemma last_DHCPEnabled_written_snoc (log : list BusCall) (s p : string) (v : DHCPConf.t) :
  last_DHCPEnabled_written (log ++ [SetDHCPEnabled s p v]) = Some v.
Proof. unfold last_DHCPEnabled_written. now rewrite fold_left_app. Qed.

Lemma command_calls {A : Type} (c : BusCall) (f : net -> BusResult A * net) (w : World net) :
  calls (snd (command c f w)) = calls w ++ [c].
Proof. unfold command. destruct (f (bus w)). reflexivity. Qed.

(** [setDHCPv4Property] reads the current mode and writes one value. *)
Lemma setDHCPv4Property_writes (params : ChannelParams) (current requested : DHCPConf.t)
    (w : World net) :
  get_DHCPEnabled (service params) (logicalPath params) (bus w) = Reply current ->
  exists next,
    last_DHCPEnabled_written (calls (snd (setDHCPv4Property params requested w)))
    = Some next
    /\ (current = DHCPConf.v6 /\ requested = DHCPConf.none -> next = DHCPConf.none)
    /\ (~ (current = DHCPConf.v6 /\ requested = DHCPConf.none) ->
        next = spec_setV4 current requested).
Proof.
  intros Hget. unfold setDHCPv4Property, getDHCPProperty.
  unfold mbind, M_bind. rewrite query_run, Hget. cbn [of_reply].
  eexists. rewrite command_calls. split; [apply last_DHCPEnabled_written_snoc |].
  split.
  - intros [-> ->]. reflexivity.
  - intros Hne. destruct current, requested; try reflexivity.
    exfalso. apply Hne. split; reflexivity.
Qed.

Lemma setDHCPv6Property_writes (params : ChannelParams) (current requested : DHCPConf.t)
    (w : World net) :
  get_DHCPEnabled (service params) (logicalPath params) (bus w) = Reply current ->
  exists next,
    last_DHCPEnabled_written (calls (snd (setDHCPv6Property params requested true w)))
    = Some next
    /\ (current = DHCPConf.v4 /\ requested = DHCPConf.none -> next = DHCPConf.none)
    /\ (~ (current = DHCPConf.v4 /\ requested = DHCPConf.none) ->
        next = spec_setV6 current requested).
Proof.
  intros Hget. unfold setDHCPv6Property, getDHCPProperty.
  unfold mbind, M_bind. rewrite query_run, Hget. cbn [of_reply].
  eexists. rewrite command_calls. split; [apply last_DHCPEnabled_written_snoc |].
  split.
  - intros [-> ->]. reflexivity.
  - intros Hne. destruct current, requested; try reflexivity.
    exfalso. apply Hne. split; reflexivity.
Qed.

(** With [defaultMode = false] the requested mode is written as it is. *)
Lemma setDHCPv6Property_verbatim (params : ChannelParams) (current requested : DHCPConf.t)
    (w : World net) :
  get_DHCPEnabled (service params) (logicalPath params) (bus w) = Reply current ->
  setDHCPv6Property params requested false w
  = command (SetDHCPEnabled (service params) (logicalPath params) requested)
            (set_DHCPEnabled (service params) (logicalPath params) requested)
            (log_call (GetDHCPEnabled (service params) (logicalPath params)) w).
Proof.
  intros Hget. unfold setDHCPv6Property, getDHCPProperty.
  unfold mbind, M_bind. rewrite query_run, Hget. reflexivity.
Qed.

(** *** Running a call to a value and a network state *)

Lemma frame_refl (w : World net) : frame w w.
Proof. repeat split. Qed.

Lemma frame_trans (w1 w2 w3 : World net) : frame w1 w2 -> frame w2 w3 -> frame w1 w3.
Proof.
  unfold frame. intros (? & ? & ? & ?) (? & ? & ? & ?). repeat split; congruence.
Qed.

Lemma runs_to_ret {A : Type} (a : A) (w : World net) : runs_to (mret a) w a (bus w).
Proof. exists w. repeat split. Qed.

Lemma runs_to_bind {A B : Type} (m : M A) (k : A -> M B) (w : World net) (a : A) (b : B)
    (n1 n2 : net) :
  runs_to m w a n1 ->
  (forall w1, bus w1 = n1 -> frame w w1 -> runs_to (k a) w1 b n2) ->
  runs_to (m ≫= k) w b n2.
Proof.
  intros (w1 & Hm & Hb1 & Hf1) Hk.
  destruct (Hk w1 Hb1 Hf1) as (w2 & Hk2 & Hb2 & Hf2).
  exists w2. split; [| split].
  - rewrite (bind_ok _ _ _ _ _ Hm). exact Hk2.
  - exact Hb2.
  - now apply (frame_trans _ w1).
Qed.

Lemma runs_to_query {A : Type} (c : BusCall) (f : net -> BusResult A) (w : World net)
    (a : A) :
  f (bus w) = Reply a -> runs_to (query c f) w a (bus w).
Proof.
  intros Hf. exists (log_call c w). rewrite query_run, Hf. repeat split.
Qed.

Lemma runs_to_command {A : Type} (c : BusCall) (f : net -> BusResult A * net)
    (w : World net) (a : A) (n' : net) :
  f (bus w) = (Reply a, n') -> runs_to (command c f) w a n'.
Proof.
  intros Hf. exists (with_bus n' (log_call c w)). unfold command. rewrite Hf.
  repeat split.
Qed.

Lemma runs_to_eq {A : Type} (m : M A) (w : World net) (a a' : A) (n n' : net) :
  runs_to m w a n -> a = a' -> n = n' -> runs_to m w a' n'.
Proof. now intros Hr -> ->. Qed.

Lemma runs_to_fst {A : Type} (m : M A) (w : World net) (a : A) (n : net) :
  runs_to m w a n -> fst (m w) = Ok a.
Proof. intros (w' & -> & _). reflexivity. Qed.

Lemma bind_ok_inv {A B : Type} (m : M A) (k : A -> M B) (w : World net) (b : B) :
  fst ((m ≫= k) w) = Ok b ->
  exists a w1, m w = (Ok a, w1) /\ fst (k a w1) = Ok b.
Proof.
  unfold mbind, M_bind. destruct (m w) as [[a | e |] w1]; try discriminate.
  intros Hk. now exists a, w1.
Qed.

Lemma query_ok_inv {A : Type} (c : BusCall) (f : net -> BusResult A) (w w1 : World net)
    (a : A) :
  query c f w = (Ok a, w1) -> w1 = log_call c w /\ f (bus w) = Reply a.
Proof.
  rewrite query_run. destruct (f (bus w)); simpl; intros [= <- <-]; now split.
Qed.

Lemma getGatewayProperty_bus (family : Family) `{!AddrFamily family}
    (params : ChannelParams) (w w1 : World net) (g : option (addr family)) :
  getGatewayProperty family params w = (Ok g, w1) -> bus w1 = bus w /\ frame w w1.
Proof.
  unfold getGatewayProperty, mbind, M_bind. rewrite query_run.
  destruct (of_reply _) as [[s |] | |]; simpl; try discriminate.
  - destruct (maybeStringToAddr s); simpl; [| discriminate].
    intros [= <- <-]. repeat split.
  - intros [= <- <-]. repeat split.
Qed.

Lemma findGatewayNeighbor_bus (family : Family) `{!AddrFamily family}
    (params : ChannelParams) (neighbors : list (string * NeighborProps))
    (w w1 : World net) (x : option (IfNeigh family)) :
  findGatewayNeighbor family params neighbors w = (Ok x, w1) ->
  bus w1 = bus w /\ frame w w1.
Proof.
  unfold findGatewayNeighbor. intros Hrun.
  assert (Hfst : fst ((getGatewayProperty family params ≫=
                        (fun gateway => match gateway with
                                        | None => mret None
                                        | Some g => mret (findStaticNeighbor family g neighbors)
                                        end)) w) = Ok x) by now rewrite Hrun.
  apply bind_ok_inv in Hfst as (g & w0 & Hg & _).
  rewrite (bind_ok _ _ _ _ _ Hg) in Hrun.
  apply getGatewayProperty_bus in Hg.
  destruct g; simpl in Hrun; injection Hrun as <- <-; exact Hg.
Qed.

(** [reconfigureVLAN] begins with the reads of [snapshot]: when the
    snapshot is [s], it goes on with the values that [s] records, on a
    world that differs from the first by the log only. *)
Lemma reconfigureVLAN_reads (params : ChannelParams) (vlan : Z) (w : World net)
    (s : Snapshot) :
  fst (snapshot params w) = Ok s ->
  exists (w1 : World net) (ifaddr4 : option (IfAddr AF_INET))
         (ifaddrs6 : list (IfAddr AF_INET6))
         (neighbor4 : option (IfNeigh AF_INET)) (neighbor6 : option (IfNeigh AF_INET6)),
    bus w1 = bus w /\ frame w w1
    /\ s = {| snap_ifaddr4 := option_map addr_prefix ifaddr4;
              snap_ifaddrs6 := map addr_prefix ifaddrs6;
              snap_dhcp := snap_dhcp s;
              snap_neighbor4 := option_map ip_mac neighbor4;
              snap_neighbor6 := option_map ip_mac neighbor6 |}
    /\ reconfigureVLAN params vlan w
       = (params ← deconfigureChannel params;
          params ← createVLAN params vlan;
          setDHCPv6Property params (snap_dhcp s) false;;
          match ifaddr4 with
          | Some a => createIfAddr AF_INET params (ifaddr_address a) (ifaddr_prefix a)
          | None => mret tt
          end;;
          for_each ifaddrs6
            (fun ifaddr6 (_ : unit) =>
               createIfAddr AF_INET6 params (ifaddr_address ifaddr6)
                            (ifaddr_prefix ifaddr6)) tt;;
          match neighbor4 with
          | Some n => createNeighbor AF_INET params (ifneigh_ip n) (ifneigh_mac n)
          | None => mret tt
          end;;
          match neighbor6 with
          | Some n => createNeighbor AF_INET6 params (ifneigh_ip n) (ifneigh_mac n)
          | None => mret tt
          end;;
          mret params) w1.
Proof.
  intros Hsnap. unfold snapshot in Hsnap. unfold reconfigureVLAN.
  apply bind_ok_inv in Hsnap as (ips & wa & Hips & Hsnap).
  apply bind_ok_inv in Hsnap as (dhcp & wb & Hdhcp & Hsnap).
  apply bind_ok_inv in Hsnap as (neighbors & wc & Hneigh & Hsnap).
  apply bind_ok_inv in Hsnap as (x4 & wd & H4 & Hsnap).
  apply bind_ok_inv in Hsnap as (x6 & we & H6 & Hsnap).
  simpl in Hsnap. injection Hsnap as <-.
  rewrite (bind_ok _ _ _ _ _ Hips), (bind_ok _ _ _ _ _ Hdhcp),
    (bind_ok _ _ _ _ _ Hneigh), (bind_ok _ _ _ _ _ H4), (bind_ok _ _ _ _ _ H6).
  apply query_ok_inv in Hips as [-> _].
  apply query_ok_inv in Hdhcp as [-> _].
  apply query_ok_inv in Hneigh as [-> _].
  apply findGatewayNeighbor_bus in H4 as [Hb4 Hf4].
  apply findGatewayNeighbor_bus in H6 as [Hb6 Hf6].
  exists we, (findIfAddr AF_INET 0 originsV4 ips),
    (captureIfAddrs6 (Z.to_nat MAX_IPV6_STATIC_ADDRESSES) 0 ips), x4, x6.
  split; [| split; [| split]].
  - rewrite Hb6, Hb4. reflexivity.
  - eapply frame_trans; [| exact Hf6]. eapply frame_trans; [| exact Hf4].
    repeat split.
  - reflexivity.
  - reflexivity.
Qed.

End HandlerFacts.

(** ** Strings: prefixes and substrings of object paths *)

Section StringFacts.

Lemma prefix_app (a b : string) : String.prefix a (a +:+ b) = true.
Proof.
  induction a as [| c a IH]; simpl; [now destruct b |].
  destruct (Ascii.ascii_dec c c); [exact IH | congruence].
Qed.

Lemma prefix_app_r (a s r : string) :
  String.prefix a s = true -> String.prefix a (s +:+ r) = true.
Proof.
  revert s. induction a as [| c a IH]; intros s; simpl.
  - intros _. now destruct (s +:+ r).
  - destruct s as [| d s]; simpl; [discriminate |].
    destruct (Ascii.ascii_dec c d); [apply IH | discriminate].
Qed.

Lemma prefix_split (a s : string) :
  String.prefix a s = true -> exists r, s = a +:+ r.
Proof.
  revert s. induction a as [| c a IH]; intros s; simpl.
  - intros _. now exists s.
  - destruct s as [| d s]; simpl; [discriminate |].
    destruct (Ascii.ascii_dec c d) as [Heq | Hne]; [subst d | discriminate].
    intros Hp. destruct (IH s Hp) as [r ->]. now exists r.
Qed.

Lemma contains_unfold (s sub : string) :
  string_contains s sub
  = if String.prefix sub s then true
    else match s with
         | EmptyString => false
         | String _ s' => string_contains s' sub
         end.
Proof. destruct s; reflexivity. Qed.

Lemma contains_app_r (s r sub : string) :
  string_contains s sub = true -> string_contains (s +:+ r) sub = true.
Proof.
  induction s as [| c s IH]; intros Hs;
    rewrite contains_unfold in Hs; rewrite contains_unfold.
  - destruct (String.prefix sub "") eqn:Hp; [| discriminate].
    now rewrite (prefix_app_r _ _ r Hp).
  - destruct (String.prefix sub (String c s)) eqn:Hp.
    + now rewrite (prefix_app_r _ _ r Hp).
    + destruct (String.prefix sub (String c s +:+ r)); [reflexivity |].
      simpl. now apply IH.
Qed.

Lemma contains_app_l (a s sub : string) :
  string_contains s sub = true -> string_contains (a +:+ s) sub = true.
Proof.
  intros Hs. induction a as [| c a IH]; [exact Hs |].
  change (String c a +:+ s) with (String c (a +:+ s)). rewrite contains_unfold.
  destruct (String.prefix sub (String c (a +:+ s))); [reflexivity | exact IH].
Qed.

Lemma contains_self_app (name b : string) : string_contains (name +:+ b) name = true.
Proof. rewrite contains_unfold. now rewrite prefix_app. Qed.

Lemma contains_empty (name : string) : string_contains "" name = true -> name = "".
Proof. destruct name; [reflexivity | discriminate]. Qed.

Lemma under_contains (lp p name : string) :
  Sim.under lp p = true -> string_contains lp name = true ->
  string_contains p name = true.
Proof.
  unfold Sim.under. intros Hp Hc.
  apply prefix_split in Hp as [r ->].
  apply contains_app_r. now apply contains_app_r.
Qed.

Lemma string_app_assoc (a b c : string) : (a +:+ b) +:+ c = a +:+ b +:+ c.
Proof.
  induction a as [| x a IH]; [reflexivity |].
  change (String x ((a +:+ b) +:+ c) = String x (a +:+ b +:+ c)). now rewrite IH.
Qed.

Lemma vlan_path_contains (name : string) (vlan : Z) :
  string_contains (Sim.vlan_path name vlan) name = true.
Proof.
  unfold Sim.vlan_path. do 2 apply contains_app_l. apply contains_self_app.
Qed.

Lemma under_fresh (lp kind : string) (n : Sim.Net) :
  Sim.under lp (Sim.fresh lp kind n) = true.
Proof.
  unfold Sim.under, Sim.fresh. rewrite <- string_app_assoc. apply prefix_app.
Qed.

End StringFacts.

(** ** The modelled network service *)

Section SimStore.

Lemma find_eth_spec (p : string) (n : Sim.Net) :
  Sim.find_eth p n
  = match List.find (eth_at p) (Sim.objs n) with
    | Some o =>
        match Sim.body o with
        | Sim.Eth dhcp vlan mac => Some (dhcp, vlan, mac)
        | _ => None
        end
    | None => None
    end.
Proof.
  unfold Sim.find_eth. fold (eth_at p).
  destruct (List.find (eth_at p) (Sim.objs n)) as [[q []] |]; reflexivity.
Qed.

Lemma find_eth_None (p : string) (n : Sim.Net) :
  Sim.find_eth p n = None <-> List.find (eth_at p) (Sim.objs n) = None.
Proof.
  rewrite find_eth_spec.
  destruct (List.find (eth_at p) (Sim.objs n)) as [o |] eqn:Hfind; [| tauto].
  apply find_some in Hfind as [_ Heth]. unfold eth_at in Heth.
  apply andb_true_iff in Heth as [_ Heth].
  destruct (Sim.body o); try discriminate. split; discriminate.
Qed.

Lemma find_app_some {A : Type} (P : A -> bool) (l l' : list A) (x : A) :
  List.find P l = Some x -> List.find P (l ++ l') = Some x.
Proof.
  induction l as [| y l IH]; simpl; [discriminate |].
  destruct (P y); [trivial | exact IH].
Qed.

Lemma find_app_none {A : Type} (P : A -> bool) (l l' : list A) :
  List.find P l = None -> List.find P (l ++ l') = List.find P l'.
Proof.
  induction l as [| y l IH]; simpl; [trivial |].
  destruct (P y); [discriminate | exact IH].
Qed.

Lemma find_filter_some {A : Type} (P Q : A -> bool) (l : list A) (x : A) :
  List.find P l = Some x -> Q x = true -> List.find P (List.filter Q l) = Some x.
Proof.
  induction l as [| y l IH]; simpl; [discriminate |].
  destruct (P y) eqn:HP.
  - intros [= ->] HQ. rewrite HQ. simpl. now rewrite HP.
  - intros Hfind HQ. destruct (Q y); simpl; [rewrite HP |]; now apply IH.
Qed.

Lemma find_none_iff {A : Type} (P : A -> bool) (l : list A) :
  List.find P l = None <-> forall x, In x l -> P x = false.
Proof.
  split.
  - intros Hfind x Hin. now apply (find_none P l Hfind).
  - induction l as [| y l IH]; simpl; [trivial |].
    intros Hall. rewrite (Hall y) by now left. apply IH.
    intros x Hin. apply Hall. now right.
Qed.

Lemma find_map_same {A : Type} (P : A -> bool) (f : A -> A) (l : list A) :
  (forall x, P (f x) = P x) ->
  List.find P (map f l) = option_map f (List.find P l).
Proof.
  intros Hsame. induction l as [| y l IH]; simpl; [reflexivity |].
  rewrite Hsame. destruct (P y); [reflexivity | exact IH].
Qed.

(** *** Setting the DHCP mode *)

Lemma eth_at_set_dhcp (p q : string) (d : DHCPConf.t) (o : Sim.Obj) :
  eth_at q (if eth_at p o
            then {| Sim.path := Sim.path o; Sim.body := Sim.set_dhcp d (Sim.body o) |}
            else o)
  = eth_at q o.
Proof.
  destruct (eth_at p o) eqn:Hp; [| reflexivity].
  unfold eth_at in *. apply andb_true_iff in Hp as [_ Heth].
  destruct o as [po []]; try discriminate. reflexivity.
Qed.

Lemma find_eth_set_dhcp_at_same (p : string) (d d0 : DHCPConf.t) (v : option Z)
    (m : ether_addr) (n : Sim.Net) :
  Sim.find_eth p n = Some (d0, v, m) ->
  Sim.find_eth p (set_dhcp_at p d n) = Some (d, v, m).
Proof.
  rewrite !find_eth_spec. unfold set_dhcp_at. simpl.
  rewrite find_map_same by (intros; apply eth_at_set_dhcp).
  destruct (List.find (eth_at p) (Sim.objs n)) as [o |] eqn:Hfind; [| discriminate].
  apply find_some in Hfind as [_ Hat]. simpl. rewrite Hat.
  destruct (Sim.body o); try discriminate. now intros [= -> -> ->].
Qed.

Lemma find_eth_set_dhcp_at_other (p q : string) (d : DHCPConf.t) (n : Sim.Net) :
  p <> q -> Sim.find_eth q (set_dhcp_at p d n) = Sim.find_eth q n.
Proof.
  intros Hne. rewrite !find_eth_spec. unfold set_dhcp_at. simpl.
  rewrite find_map_same by (intros; apply eth_at_set_dhcp).
  destruct (List.find (eth_at q) (Sim.objs n)) as [o |] eqn:Hfind; [| reflexivity].
  apply find_some in Hfind as [_ Hat]. simpl.
  destruct (eth_at p o) eqn:Hp; [| reflexivity].
  exfalso. unfold eth_at, Sim.at_path in *.
  apply andb_true_iff in Hat as [Hq _]. apply andb_true_iff in Hp as [Hp _].
  apply bool_decide_eq_true in Hq, Hp. congruence.
Qed.

Lemma update_eth_set_dhcp (p : string) (d : DHCPConf.t) (n : Sim.Net) :
  is_Some (Sim.find_eth p n) ->
  Sim.update_eth p (Sim.set_dhcp d) n = (Reply tt, set_dhcp_at p d n).
Proof. intros [x Hx]. unfold Sim.update_eth. now rewrite Hx. Qed.

Lemma omap_map_same {A B : Type} (f : A -> option B) (g : A -> A) (l : list A) :
  (forall x, f (g x) = f x) -> omap f (map g l) = omap f l.
Proof.
  intros Hsame. induction l as [| x l IH]; [reflexivity |].
  change (omap f (map g (x :: l)))
    with (match f (g x) with Some y => y :: omap f (map g l) | None => omap f (map g l) end).
  change (omap f (x :: l))
    with (match f x with Some y => y :: omap f l | None => omap f l end).
  now rewrite Hsame, IH.
Qed.

Lemma ip_list_set_dhcp_at (lp p : string) (d : DHCPConf.t) (n : Sim.Net) :
  ip_list lp (set_dhcp_at p d n) = ip_list lp n.
Proof.
  unfold ip_list, set_dhcp_at. simpl. apply omap_map_same. intros o.
  destruct (eth_at p o) eqn:Hp; [| reflexivity].
  unfold eth_at in Hp. apply andb_true_iff in Hp as [_ Heth].
  destruct o as [po []]; try discriminate. reflexivity.
Qed.

Lemma neigh_list_set_dhcp_at (lp p : string) (d : DHCPConf.t) (n : Sim.Net) :
  neigh_list lp (set_dhcp_at p d n) = neigh_list lp n.
Proof.
  unfold neigh_list, set_dhcp_at. simpl. apply omap_map_same. intros o.
  destruct (eth_at p o) eqn:Hp; [| reflexivity].
  unfold eth_at in Hp. apply andb_true_iff in Hp as [_ Heth].
  destruct o as [po []]; try discriminate. reflexivity.
Qed.

Lemma at_path_set_dhcp_at (q p : string) (d : DHCPConf.t) (n : Sim.Net) :
  existsb (Sim.at_path q) (Sim.objs (set_dhcp_at p d n))
  = existsb (Sim.at_path q) (Sim.objs n).
Proof.
  unfold set_dhcp_at. simpl.
  induction (Sim.objs n) as [| o l IH]; [reflexivity |].
  simpl. rewrite IH. f_equal. destruct (eth_at p o); reflexivity.
Qed.

(** *** Adding an object at the end of the store *)

Lemma find_eth_add_obj (p : string) (o : Sim.Obj) (n : Sim.Net) :
  is_Some (Sim.find_eth p n) -> Sim.find_eth p (Sim.add_obj o n) = Sim.find_eth p n.
Proof.
  intros [x Hx]. rewrite !find_eth_spec in *. simpl.
  destruct (List.find (eth_at p) (Sim.objs n)) as [o1 |] eqn:Hfind; [| discriminate].
  now rewrite (find_app_some _ _ [o] _ Hfind).
Qed.

Lemma ip_list_add_obj (lp : string) (o : Sim.Obj) (n : Sim.Net) :
  ip_list lp (Sim.add_obj o n)
  = ip_list lp n
    ++ match Sim.body o with
       | Sim.Addr props => if Sim.under lp (Sim.path o) then [(Sim.path o, props)] else []
       | _ => []
       end.
Proof.
  unfold ip_list. simpl. rewrite omap_app. f_equal. simpl.
  destruct (Sim.body o); try reflexivity. now destruct (Sim.under lp (Sim.path o)).
Qed.

Lemma neigh_list_add_obj (lp : string) (o : Sim.Obj) (n : Sim.Net) :
  neigh_list lp (Sim.add_obj o n)
  = neigh_list lp n
    ++ match Sim.body o with
       | Sim.Neigh props => if Sim.under lp (Sim.path o) then [(Sim.path o, props)] else []
       | _ => []
       end.
Proof.
  unfold neigh_list. simpl. rewrite omap_app. f_equal. simpl.
  destruct (Sim.body o); try reflexivity. now destruct (Sim.under lp (Sim.path o)).
Qed.


Lemma neigh_list_new_neighbor (lp : string) (ip : NetAddr) (mac : ether_addr) (n : Sim.Net) :
  neigh_list lp (Sim.add_obj (new_neighbor lp ip mac n) n)
  = neigh_list lp n
    ++ [(Sim.path (new_neighbor lp ip mac n),
         {| IPAddress := ip; MACAddress := mac; State := Neighbor.Permanent |})].
Proof. rewrite neigh_list_add_obj. simpl. now rewrite under_fresh. Qed.

Lemma create_IP_run (s lp : string) (a : NetAddr) (prefix : Z) (n : Sim.Net) :
  is_Some (Sim.find_eth lp n) ->
  Sim.create_IP s lp (Sim.proto_of a) a prefix n
  = (Reply tt, Sim.add_obj (new_ip lp a prefix n) n).
Proof.
  intros [x Hx]. unfold Sim.create_IP. rewrite Hx.
  now rewrite bool_decide_eq_true_2 by reflexivity.
Qed.

Lemma create_Neighbor_run (s lp : string) (ip : NetAddr) (mac : ether_addr) (n : Sim.Net) :
  is_Some (Sim.find_eth lp n) ->
  Sim.create_Neighbor s lp ip mac n = (Reply tt, Sim.add_obj (new_neighbor lp ip mac n) n).
Proof. intros [x Hx]. unfold Sim.create_Neighbor. now rewrite Hx. Qed.

(** *** Creating a VLAN interface *)

Lemma create_VLAN_run (s name : string) (vlan : Z) (n : Sim.Net) :
  existsb (Sim.at_path (Sim.vlan_path name vlan)) (Sim.objs n) = false ->
  Sim.create_VLAN s name vlan n
  = (Reply (Sim.vlan_path name vlan),
     Sim.with_objs (Sim.objs n ++ [new_vlan name vlan]) n).
Proof. intros Hfree. unfold Sim.create_VLAN. now rewrite Hfree. Qed.

Lemma existsb_false_iff {A : Type} (P : A -> bool) (l : list A) :
  existsb P l = false <-> forall x, In x l -> P x = false.
Proof.
  split.
  - intros Hex x Hin. destruct (P x) eqn:HP; [| reflexivity].
    rewrite <- Hex. symmetry. apply existsb_exists. eauto.
  - intros Hall. destruct (existsb P l) eqn:Hex; [| reflexivity].
    apply existsb_exists in Hex as (x & Hin & HP). rewrite (Hall x Hin) in HP.
    discriminate.
Qed.

Lemma eth_at_new_vlan (name : string) (vlan : Z) :
  eth_at (Sim.vlan_path name vlan) (new_vlan name vlan) = true.
Proof.
  unfold eth_at, Sim.at_path, new_vlan. cbn [Sim.path Sim.body Sim.is_eth].
  rewrite bool_decide_eq_true_2 by reflexivity. reflexivity.
Qed.

Lemma find_eth_new_vlan (name : string) (vlan : Z) (n : Sim.Net) :
  existsb (Sim.at_path (Sim.vlan_path name vlan)) (Sim.objs n) = false ->
  Sim.find_eth (Sim.vlan_path name vlan)
               (Sim.with_objs (Sim.objs n ++ [new_vlan name vlan]) n)
  = Some (DHCPConf.none, Some vlan, {| ether_addr_octet := [0; 0; 0; 0; 0; 0] |}).
Proof.
  intros Hfree. rewrite find_eth_spec.
  change (Sim.objs (Sim.with_objs (Sim.objs n ++ [new_vlan name vlan]) n))
    with (Sim.objs n ++ [new_vlan name vlan]).
  rewrite find_app_none.
  - cbn [List.find]. rewrite eth_at_new_vlan. reflexivity.
  - apply find_none_iff. intros o Hin. unfold eth_at.
    rewrite existsb_false_iff in Hfree. now rewrite (Hfree o Hin).
Qed.

Lemma find_eth_with_objs_app (p : string) (l : list Sim.Obj) (n : Sim.Net) :
  is_Some (Sim.find_eth p n) ->
  Sim.find_eth p (Sim.with_objs (Sim.objs n ++ l) n) = Sim.find_eth p n.
Proof.
  intros [x Hx]. rewrite !find_eth_spec in *. simpl.
  destruct (List.find (eth_at p) (Sim.objs n)) as [o1 |] eqn:Hfind; [| discriminate].
  now rewrite (find_app_some _ _ l _ Hfind).
Qed.

Lemma ip_list_new_vlan (lp name : string) (vlan : Z) (n : Sim.Net) :
  ip_list lp (Sim.with_objs (Sim.objs n ++ [new_vlan name vlan]) n) = ip_list lp n.
Proof. unfold ip_list. simpl. rewrite omap_app. simpl. apply app_nil_r. Qed.

Lemma neigh_list_new_vlan (lp name : string) (vlan : Z) (n : Sim.Net) :
  neigh_list lp (Sim.with_objs (Sim.objs n ++ [new_vlan name vlan]) n) = neigh_list lp n.
Proof. unfold neigh_list. simpl. rewrite omap_app. simpl. apply app_nil_r. Qed.

End SimStore.

(** ** Tearing a channel down in the modelled service *)

Section SimDelete.

Lemma Delete_snd (s p : string) (n : Sim.Net) :
  snd (Sim.Delete s p n) = Sim.with_objs (delete1 p (Sim.objs n)) n.
Proof.
  unfold Sim.Delete, delete1.
  destruct (existsb _ (Sim.objs n)); [reflexivity |]. now destruct n.
Qed.

Lemma with_objs_with_objs (l l' : list Sim.Obj) (n : Sim.Net) :
  Sim.with_objs l (Sim.with_objs l' n) = Sim.with_objs l n.
Proof. reflexivity. Qed.

Lemma delete_all_objs (paths : list string) (n : Sim.Net) :
  delete_all paths n
  = Sim.with_objs (fold_left (fun l p => delete1 p l) paths (Sim.objs n)) n.
Proof.
  unfold delete_all. revert n. induction paths as [| p paths IH]; intros n; simpl.
  - now destruct n.
  - rewrite IH, Delete_snd. reflexivity.
Qed.

Lemma removed_by_doomed (name p : string) (o : Sim.Obj) :
  string_contains p name = true -> Sim.removed_by p o = true -> doomed name o = true.
Proof.
  intros Hp. unfold Sim.removed_by, doomed.
  intros Hrm. apply andb_true_iff in Hrm as [Hdel Hwhere]. rewrite Hdel. simpl.
  apply orb_true_iff in Hwhere as [Hat | Hunder].
  - unfold Sim.at_path in Hat. apply bool_decide_eq_true in Hat. now rewrite Hat.
  - apply andb_true_iff in Hunder as [_ Hunder]. now apply (under_contains p).
Qed.

Lemma filter_filter {A : Type} (P Q : A -> bool) (l : list A) :
  List.filter P (List.filter Q l) = List.filter (fun x => Q x && P x) l.
Proof.
  induction l as [| x l IH]; simpl; [reflexivity |].
  destruct (Q x); simpl; [destruct (P x) |]; now rewrite IH.
Qed.

Lemma filter_true {A : Type} (l : list A) : List.filter (fun _ => true) l = l.
Proof. induction l as [| x l IH]; simpl; [reflexivity | now rewrite IH]. Qed.

(** Deleting along paths that hold the interface name removes doomed
    objects only. *)
Lemma delete_paths_only_doomed (name : string) (paths : list string) (l : list Sim.Obj) :
  (forall p, In p paths -> string_contains p name = true) ->
  exists keep,
    fold_left (fun l p => delete1 p l) paths l = List.filter keep l
    /\ forall o, doomed name o = false -> keep o = true.
Proof.
  revert l. induction paths as [| p paths IH]; intros l Hpaths; simpl.
  - exists (fun _ => true). split; [now rewrite filter_true | reflexivity].
  - assert (Hp : string_contains p name = true) by (apply Hpaths; now left).
    destruct (IH (delete1 p l)) as (keep & Heq & Hkeep).
    { intros q Hq. apply Hpaths. now right. }
    rewrite Heq. unfold delete1.
    destruct (existsb _ l).
    + exists (fun o => negb (Sim.removed_by p o) && keep o).
      split; [apply filter_filter |].
      intros o Hd. rewrite (Hkeep o Hd), andb_true_r.
      destruct (Sim.removed_by p o) eqn:Hrm; [| reflexivity].
      rewrite (removed_by_doomed name p o Hp Hrm) in Hd. discriminate.
    + exists keep. split; [reflexivity | exact Hkeep].
Qed.

(** Every deletable object at one of the paths is gone. *)
Lemma delete_paths_removes (paths : list string) (l : list Sim.Obj) (o : Sim.Obj) :
  In o (fold_left (fun l p => delete1 p l) paths l) ->
  Sim.deletable (Sim.body o) = true -> ~ In (Sim.path o) paths.
Proof.
  revert l. induction paths as [| p paths IH]; intros l Hin Hdel; simpl in *; [tauto |].
  intros [Heq | Hrest].
  - assert (Hsub : In o (delete1 p l)).
    { destruct (delete_paths_only_doomed "" paths (delete1 p l)) as (keep & Hk & _).
      - intros q _. now destruct q.
      - rewrite Hk in Hin. now apply filter_In in Hin as [Hin _]. }
    unfold delete1 in Hsub.
    destruct (existsb _ l) eqn:Hex.
    + apply filter_In in Hsub as [_ Hrm]. unfold Sim.removed_by, Sim.at_path in Hrm.
      rewrite Hdel, bool_decide_eq_true_2 in Hrm by congruence. discriminate.
    + rewrite existsb_false_iff in Hex. specialize (Hex o Hsub). simpl in Hex.
      unfold Sim.at_path in Hex.
      rewrite Hdel, bool_decide_eq_true_2 in Hex by congruence. discriminate.
  - now apply (IH (delete1 p l)).
Qed.

Lemma filter_ext_in' {A : Type} (P Q : A -> bool) (l : list A) :
  (forall x, In x l -> P x = Q x) -> List.filter P l = List.filter Q l.
Proof.
  induction l as [| x l IH]; intros Hext; simpl; [reflexivity |].
  rewrite (Hext x) by now left. rewrite IH; [reflexivity |].
  intros y Hy. apply Hext. now right.
Qed.

(** Deleting every deletable object whose path holds the interface name
    leaves exactly the objects that are not doomed. *)
Lemma delete_all_kept (name : string) (l : list Sim.Obj) :
  fold_left (fun l p => delete1 p l)
            (List.filter (fun p => string_contains p name)
               (map Sim.path (List.filter (fun o => Sim.deletable (Sim.body o)) l)))
            l
  = kept name l.
Proof.
  set (paths := List.filter _ (map Sim.path _)).
  destruct (delete_paths_only_doomed name paths l) as (keep & Heq & Hkeep).
  { intros p Hp. subst paths. now apply filter_In in Hp as [_ Hp]. }
  rewrite Heq. unfold kept. apply filter_ext_in'. intros o Hin.
  destruct (doomed name o) eqn:Hd; [| now apply Hkeep].
  destruct (keep o) eqn:Hk; [exfalso | reflexivity].
  unfold doomed in Hd. apply andb_true_iff in Hd as [Hdel Hname].
  apply (delete_paths_removes paths l o).
  - rewrite Heq. apply filter_In. now split.
  - exact Hdel.
  - subst paths. apply filter_In. split; [| exact Hname].
    apply in_map. apply filter_In. now split.
Qed.

(** The objects that can be deleted, as the mapper lists them. *)
Lemma GetSubTree_deletable (n : Sim.Net) :
  Sim.GetSubTree [DELETE_INTERFACE] n
  = Reply (map delete_entry
               (map Sim.path
                    (List.filter (fun o => Sim.deletable (Sim.body o)) (Sim.objs n)))).
Proof.
  unfold Sim.GetSubTree. f_equal.
  induction (Sim.objs n) as [| o l IH]; [reflexivity |].
  change (omap ?f (o :: l))
    with (match f o with Some y => y :: omap f l | None => omap f l end).
  rewrite IH. destruct o as [p [d [v |] m | props | props]]; reflexivity.
Qed.

Lemma collapse_fields (paths : list string) (params : ChannelParams) :
  id (collapse paths params) = id params
  /\ ifname (collapse paths params) = ifname params
  /\ service (collapse paths params) = service params
  /\ ifPath (collapse paths params) = ifPath params.
Proof.
  unfold collapse. revert params.
  induction paths as [| p paths IH]; intros params; simpl; [repeat split |].
  destruct (negb _); [apply IH |].
  destruct (bool_decide _); [| apply IH].
  destruct (IH {| id := id params; ifname := ifname params; service := service params;
                  ifPath := ifPath params; logicalPath := ifPath params |})
    as (? & ? & ? & ?).
  repeat split; assumption.
Qed.

Lemma collapse_stable (paths : list string) (params : ChannelParams) :
  logicalPath params = ifPath params ->
  logicalPath (collapse paths params) = ifPath params.
Proof.
  unfold collapse. revert params.
  induction paths as [| p paths IH]; intros params Hlp; simpl; [exact Hlp |].
  destruct (negb _); [now apply IH |].
  destruct (bool_decide _); [| now apply IH].
  now rewrite IH.
Qed.

Lemma collapse_hit (paths : list string) (params : ChannelParams) :
  In (logicalPath params) paths ->
  string_contains (logicalPath params) (ifname params) = true ->
  logicalPath (collapse paths params) = ifPath params.
Proof.
  revert params.
  induction paths as [| p paths IH]; intros params Hin Hname; [destruct Hin |].
  change (collapse (p :: paths) params)
    with (collapse paths
            (if negb (string_contains p (ifname params)) then params
             else if bool_decide (p = logicalPath params)
                  then {| id := id params; ifname := ifname params;
                          service := service params; ifPath := ifPath params;
                          logicalPath := ifPath params |}
                  else params)).
  destruct (decide (p = logicalPath params)) as [-> | Hne].
  - rewrite Hname. simpl. rewrite bool_decide_eq_true_2 by reflexivity.
    now rewrite collapse_stable.
  - destruct Hin as [Heq | Hin]; [congruence |].
    rewrite (bool_decide_eq_false_2 _ Hne).
    destruct (negb _); now apply IH.
Qed.

End SimDelete.

(** ** Slots and gateway neighbours as lists *)

Section Lookups.
Context `{!Header}.

Lemma findIfAddr_slots (family : Family) `{!AddrFamily family} (i : Z)
    (origins : list IP.AddressOrigin) (ips : list (string * IPProps)) :
  0 <= i -> findIfAddr family i origins ips = slots family origins ips !! Z.to_nat i.
Proof.
  revert i. induction ips as [| [path properties] ips IH]; intros i Hi; [reflexivity |].
  unfold slots.
  change (omap ?f ((path, properties) :: ips))
    with (match f (path, properties) with
          | Some y => y :: omap f ips
          | None => omap f ips
          end).
  fold (slots family origins ips). simpl.
  destruct (maybeStringToAddr (Address properties)) as [address |]; [| now apply IH].
  destruct (bool_decide (Origin properties ∈ origins)); simpl; [| now apply IH].
  destruct (Z.ltb_spec 0 i) as [Hpos | Hzero].
  - rewrite IH by lia. replace (Z.to_nat i) with (S (Z.to_nat (i - 1))) by lia.
    reflexivity.
  - replace i with 0 by lia. reflexivity.
Qed.

Lemma capture_slots (n : nat) (i : Z) (ips : list (string * IPProps)) :
  0 <= i ->
  captureIfAddrs6 n i ips
  = take n (drop (Z.to_nat i) (slots AF_INET6 originsV6Static ips)).
Proof.
  revert i. induction n as [| n IH]; intros i Hi; simpl; [now rewrite take_0 |].
  rewrite findIfAddr_slots by assumption.
  destruct (slots AF_INET6 originsV6Static ips !! Z.to_nat i) as [a |] eqn:Hlook.
  - rewrite IH by lia. replace (Z.to_nat (i + 1)) with (S (Z.to_nat i)) by lia.
    rewrite (drop_S _ _ _ Hlook). reflexivity.
  - apply lookup_ge_None in Hlook. now rewrite drop_ge by assumption.
Qed.

Lemma slots_props (family : Family) `{!AddrFamily family}
    (origins : list IP.AddressOrigin) (ips : list (string * IPProps)) :
  map addr_prefix (slots family origins ips)
  = props_slots family origins (map snd ips).
Proof.
  unfold slots, props_slots.
  induction ips as [| [path properties] ips IH]; [reflexivity |].
  change (omap ?f ((path, properties) :: ips))
    with (match f (path, properties) with
          | Some y => y :: omap f ips
          | None => omap f ips
          end).
  change (map snd ((path, properties) :: ips)) with (properties :: map snd ips).
  change (omap ?f (properties :: map snd ips))
    with (match f properties with
          | Some y => y :: omap f (map snd ips)
          | None => omap f (map snd ips)
          end).
  rewrite <- IH. simpl.
  destruct (maybeStringToAddr (Address properties)) as [address |]; [| reflexivity].
  destruct (bool_decide (Origin properties ∈ origins)); reflexivity.
Qed.

Lemma findStaticNeighbor_static_mac (family : Family) `{!AddrFamily family}
    (ip : addr family) (neighbors : list (string * NeighborProps)) :
  option_map ip_mac (findStaticNeighbor family ip neighbors)
  = static_mac family ip (map snd neighbors).
Proof.
  induction neighbors as [| [path neighbor] neighbors IH]; [reflexivity |].
  simpl. destruct (maybeStringToAddr (IPAddress neighbor)) as [neighIP |]; [| exact IH].
  destruct (bool_decide (neighIP = ip)); simpl; [| exact IH].
  destruct (bool_decide (State neighbor = Neighbor.Permanent)); simpl; [| exact IH].
  reflexivity.
Qed.

Lemma head_map_lookup {A B : Type} (f : A -> B) (l : list A) :
  option_map f (l !! 0%nat) = head (map f l).
Proof. now destruct l. Qed.

End Lookups.

(** ** The handler on the modelled service *)

Section SimHandler.
Context `{!Platform} `{!Header}.

#[local] Abbreviation W := (World Sim.Net).

Lemma getGatewayProperty_sim (family : Family) `{!AddrFamily family}
    (params : ChannelParams) (w : W) :
  getGatewayProperty family params w
  = (match sim_gateway (protocol family) (bus w) with
     | None => Ok None
     | Some s =>
         match maybeStringToAddr s with
         | Some a => Ok (Some a)
         | None => Throw InternalFailure
         end
     end,
     log_call (GetGateway (service params) (ifname params) (protocol family)) w).
Proof.
  unfold getGatewayProperty.
  rewrite (bind_ok _ _ w
             (log_call (GetGateway (service params) (ifname params) (protocol family)) w)
             (sim_gateway (protocol family) (bus w))).
  - destruct (sim_gateway (protocol family) (bus w)) as [s |]; [| reflexivity].
    destruct (maybeStringToAddr s); reflexivity.
  - rewrite query_run. f_equal.
    change (get_Gateway (service params) (ifname params) (protocol family) (bus w))
      with (Sim.Gateway (service params) (ifname params) (protocol family) (bus w)).
    unfold Sim.Gateway, sim_gateway. now destruct (protocol family).
Qed.

Lemma gateway_neighbor_sim (family : Family) `{!AddrFamily family}
    (params : ChannelParams) (neighbors : list (string * NeighborProps)) (w : W) :
  match gateway_mac family (sim_gateway (protocol family) (bus w)) (map snd neighbors) with
  | Some r =>
      exists x, runs_to (findGatewayNeighbor family params neighbors) w x (bus w)
                /\ option_map ip_mac x = r
  | None => forall x, fst (findGatewayNeighbor family params neighbors w) <> Ok x
  end.
Proof.
  unfold findGatewayNeighbor, gateway_mac.
  pose proof (getGatewayProperty_sim family params w) as Hg.
  destruct (sim_gateway (protocol family) (bus w)) as [g |].
  - destruct (maybeStringToAddr g) as [a |].
    + exists (findStaticNeighbor family a neighbors). split.
      * unfold runs_to. rewrite (bind_ok _ _ _ _ _ Hg).
        eexists. split; [reflexivity |]. repeat split.
      * apply findStaticNeighbor_static_mac.
    + intros x. rewrite (bind_throw _ _ _ _ _ Hg). discriminate.
  - exists None. split; [| reflexivity].
    unfold runs_to. rewrite (bind_ok _ _ _ _ _ Hg).
    eexists. split; [reflexivity |]. repeat split.
Qed.

Lemma getDHCPProperty_sim (params : ChannelParams) (w : W) (dhcp : DHCPConf.t)
    (vlan : option Z) (mac : ether_addr) :
  Sim.find_eth (logicalPath params) (bus w) = Some (dhcp, vlan, mac) ->
  runs_to (getDHCPProperty params) w dhcp (bus w).
Proof.
  intros Hfind. apply runs_to_query.
  change (get_DHCPEnabled (service params) (logicalPath params) (bus w))
    with (Sim.DHCPEnabled (service params) (logicalPath params) (bus w)).
  unfold Sim.DHCPEnabled. now rewrite Hfind.
Qed.

Lemma getDHCPProperty_sim_fail (params : ChannelParams) (w : W) :
  Sim.find_eth (logicalPath params) (bus w) = None ->
  forall x, fst (getDHCPProperty params w) <> Ok x.
Proof.
  intros Hfind x. unfold getDHCPProperty. rewrite query_run.
  change (get_DHCPEnabled (service params) (logicalPath params) (bus w))
    with (Sim.DHCPEnabled (service params) (logicalPath params) (bus w)).
  unfold Sim.DHCPEnabled. rewrite Hfind. discriminate.
Qed.

Lemma fst_bind_not_ok {A B : Type} (m : M Sim.Net A) (k : A -> M Sim.Net B) (w : W) :
  (forall x, fst (m w) <> Ok x) -> forall y, fst ((m ≫= k) w) <> Ok y.
Proof.
  intros Hm y. unfold mbind, M_bind.
  destruct (m w) as [[a | e |] w1]; simpl in *; try discriminate.
  now destruct (Hm a).
Qed.

(** On the modelled service, [snapshot] computes [observe]. *)
Lemma snapshot_observe (params : ChannelParams) (w : W) (s : Snapshot) :
  fst (snapshot params w) = Ok s <-> observe (logicalPath params) (bus w) = Some s.
Proof.
  unfold snapshot, observe, ObjectLookupCache_IP, ObjectLookupCache_Neighbor.
  set (lp := logicalPath params).
  rewrite (bind_ok _ _ w (log_call (GetAllObjects (service params) lp INTF_IP) w)
             (ip_list lp (bus w))) by reflexivity.
  set (w1 := log_call _ w).
  destruct (Sim.find_eth lp (bus w)) as [[[dhcp vlan] mac] |] eqn:Hfind.
  - destruct (getDHCPProperty_sim params w1 dhcp vlan mac Hfind)
      as (w2 & Hrun2 & Hbus2 & _).
    rewrite (bind_ok _ _ _ _ _ Hrun2).
    rewrite (bind_ok _ _ w2 (log_call (GetAllObjects (service params) lp INTF_NEIGHBOR) w2)
               (neigh_list lp (bus w2))) by reflexivity.
    set (w3 := log_call _ w2).
    assert (Hbus3 : bus w3 = bus w) by exact Hbus2.
    rewrite Hbus2.
    pose proof (gateway_neighbor_sim AF_INET params (neigh_list lp (bus w)) w3) as H4.
    rewrite Hbus3 in H4.
    change (sim_gateway (protocol AF_INET) (bus w)) with (Sim.gateway4 (bus w)) in H4.
    destruct (gateway_mac AF_INET (Sim.gateway4 (bus w)) (map snd (neigh_list lp (bus w))))
      as [r4 |].
    + destruct H4 as (x4 & (w4 & Hrun4 & Hbus4 & _) & Hx4).
      rewrite (bind_ok _ _ _ _ _ Hrun4).
      pose proof (gateway_neighbor_sim AF_INET6 params (neigh_list lp (bus w)) w4) as H6.
      rewrite Hbus4 in H6.
      change (sim_gateway (protocol AF_INET6) (bus w)) with (Sim.gateway6 (bus w)) in H6.
      destruct (gateway_mac AF_INET6 (Sim.gateway6 (bus w))
                            (map snd (neigh_list lp (bus w)))) as [r6 |].
      * destruct H6 as (x6 & (w6 & Hrun6 & Hbus6 & _) & Hx6).
        rewrite (bind_ok _ _ _ _ _ Hrun6).
        cbn [mret M_ret fst].
        rewrite Hx4, Hx6.
        rewrite findIfAddr_slots by lia. rewrite capture_slots by lia.
        rewrite head_map_lookup, slots_props.
        change (Z.to_nat 0) with 0%nat. rewrite drop_0.
        rewrite <- firstn_map, slots_props.
        split; intros [= <-]; reflexivity.
      * split; [| discriminate]. intros Hok. exfalso.
        revert Hok. now apply fst_bind_not_ok.
    + split; [| discriminate]. intros Hok. exfalso.
      revert Hok. now apply fst_bind_not_ok.
  - split; [| discriminate]. intros Hok. exfalso.
    revert Hok. apply fst_bind_not_ok. now apply getDHCPProperty_sim_fail.
Qed.

Lemma deleteObjectIfExists_sim (s p : string) (w : W) :
  p <> "" ->
  runs_to (deleteObjectIfExists s p) w tt (snd (Sim.Delete s p (bus w))).
Proof.
  intros Hne. unfold deleteObjectIfExists.
  rewrite bool_decide_eq_false_2 by assumption.
  unfold runs_to, try_catch_SdBusError, command.
  change (call_Delete s p (bus w)) with (Sim.Delete s p (bus w)).
  unfold Sim.Delete.
  destruct (existsb _ (Sim.objs (bus w))).
  - eexists. split; [reflexivity |]. repeat split.
  - eexists. split; [reflexivity |]. repeat split.
Qed.

(** The deletion loop of [deconfigureChannel] over the deletable paths. *)
Lemma deconfigure_loop_sim (paths : list string) (params : ChannelParams) (w : W) :
  ifname params <> "" ->
  runs_to
    (for_each (map delete_entry paths)
       (fun '(path, impls) params =>
          if negb (string_contains path (ifname params)) then mret params
          else
            for_each impls
              (fun '(service_name, intfs) (_ : unit) =>
                 deleteObjectIfExists service_name path) tt;;
            if bool_decide (path = logicalPath params)
            then mret (with_logicalPath (ifPath params) params)
            else mret params)
       params)
    w (collapse paths params)
    (delete_all (List.filter (fun p => string_contains p (ifname params)) paths) (bus w)).
Proof.
  revert params w. induction paths as [| p paths IH]; intros params w Hname.
  - apply runs_to_ret.
  - change (map delete_entry (p :: paths)) with (delete_entry p :: map delete_entry paths).
    cbn [for_each].
    set (params1 :=
           if negb (string_contains p (ifname params)) then params
           else if bool_decide (p = logicalPath params)
                then {| id := id params; ifname := ifname params;
                        service := service params; ifPath := ifPath params;
                        logicalPath := ifPath params |}
                else params).
    assert (Hname1 : ifname params1 = ifname params).
    { subst params1. destruct (negb _); [reflexivity |].
      destruct (bool_decide _); reflexivity. }
    change (collapse (p :: paths) params) with (collapse paths params1).
    apply (runs_to_bind _ _ _ params1 _
             (snd (if string_contains p (ifname params)
                   then Sim.Delete Sim.SERVICE p (bus w)
                   else (Reply tt, bus w)))).
    + unfold delete_entry. subst params1.
      destruct (string_contains p (ifname params)) eqn:Hc; cbn [negb].
      * eapply runs_to_bind.
        { cbn [for_each]. eapply runs_to_bind.
          - apply deleteObjectIfExists_sim.
            intros ->. apply contains_empty in Hc. contradiction.
          - intros w1 Hb1 _. eapply runs_to_eq; [apply runs_to_ret | | exact Hb1].
            reflexivity. }
        intros w1 Hb1 _.
        destruct (bool_decide (p = logicalPath params)).
        -- eapply runs_to_eq; [apply runs_to_ret | reflexivity | exact Hb1].
        -- eapply runs_to_eq; [apply runs_to_ret | reflexivity | exact Hb1].
      * apply runs_to_ret.
    + intros w1 Hb1 _.
      eapply runs_to_eq; [apply IH; congruence | reflexivity |].
      rewrite Hb1, Hname1. cbn [List.filter].
      destruct (string_contains p (ifname params)); reflexivity.
Qed.

Lemma find_eth_In (p : string) (n : Sim.Net) (d : DHCPConf.t) (v : option Z)
    (m : ether_addr) :
  Sim.find_eth p n = Some (d, v, m) ->
  In {| Sim.path := p; Sim.body := Sim.Eth d v m |} (Sim.objs n).
Proof.
  rewrite find_eth_spec.
  destruct (List.find (eth_at p) (Sim.objs n)) as [o |] eqn:Hfind; [| discriminate].
  apply find_some in Hfind as [Hin Hat].
  unfold eth_at, Sim.at_path in Hat. apply andb_true_iff in Hat as [Hp _].
  apply bool_decide_eq_true in Hp.
  destruct o as [q b]. simpl in *. subst q.
  destruct b; try discriminate. now intros [= -> -> ->].
Qed.

Lemma find_eth_kept (name p : string) (n : Sim.Net) (d : DHCPConf.t) (m : ether_addr) :
  Sim.find_eth p n = Some (d, None, m) ->
  Sim.find_eth p (Sim.with_objs (kept name (Sim.objs n)) n) = Some (d, None, m).
Proof.
  rewrite !find_eth_spec.
  change (Sim.objs (Sim.with_objs (kept name (Sim.objs n)) n))
    with (kept name (Sim.objs n)).
  destruct (List.find (eth_at p) (Sim.objs n)) as [o |] eqn:Hfind; [| discriminate].
  intros Hbody. unfold kept.
  rewrite (find_filter_some _ _ _ _ Hfind); [exact Hbody |].
  unfold doomed. destruct o as [q b]. cbn [Sim.body] in *.
  destruct b as [d' [v |] m' | |]; try discriminate. reflexivity.
Qed.

Lemma setDHCPv6Property_sim (params : ChannelParams) (d : DHCPConf.t) (w : W) :
  is_Some (Sim.find_eth (logicalPath params) (bus w)) ->
  runs_to (setDHCPv6Property params d false) w tt
          (set_dhcp_at (logicalPath params) d (bus w)).
Proof.
  intros Hsome. pose proof Hsome as [[[d0 v] m] Hfind].
  unfold setDHCPv6Property.
  eapply runs_to_bind; [apply (getDHCPProperty_sim _ _ _ _ _ Hfind) |].
  intros w1 Hb1 _. apply runs_to_command.
  change (set_DHCPEnabled (service params) (logicalPath params) d (bus w1))
    with (Sim.update_eth (logicalPath params) (Sim.set_dhcp d) (bus w1)).
  rewrite Hb1. now apply update_eth_set_dhcp.
Qed.

Lemma collapse_describes (params : ChannelParams) (n : Sim.Net) :
  describes params n ->
  collapse (map Sim.path (List.filter (fun o => Sim.deletable (Sim.body o)) (Sim.objs n)))
           params
  = with_logicalPath (ifPath params) params.
Proof.
  intros (Hname & Hif & _ & Hlp).
  set (paths := map Sim.path _).
  destruct (collapse_fields paths params) as (Hid & Hn & Hs & Hi).
  assert (Hl : logicalPath (collapse paths params) = ifPath params).
  { destruct Hlp as [Heq | (Hc & d & v & m & Hfind)].
    - now apply collapse_stable.
    - apply collapse_hit; [| exact Hc].
      apply find_eth_In in Hfind. subst paths.
      apply in_map_iff. eexists. split; [| apply filter_In; split; [exact Hfind |]];
        reflexivity. }
  unfold with_logicalPath.
  destruct (collapse paths params) as [i nm sv ip lp']. simpl in *. now subst.
Qed.

(** Tearing the channel down: every deletable object whose path holds
    the interface name is gone, the logical path is the physical one
    again, and the DHCP mode of the physical interface is cleared. *)
Lemma deconfigureChannel_sim (params : ChannelParams) (w : W) :
  describes params (bus w) ->
  runs_to (deconfigureChannel params) w (with_logicalPath (ifPath params) params)
          (set_dhcp_at (ifPath params) DHCPConf.none
                       (Sim.with_objs (kept (ifname params) (Sim.objs (bus w))) (bus w))).
Proof.
  intros Hd. pose proof Hd as (Hname & Hif & (d0 & m0 & Hphys) & Hlp).
  unfold deconfigureChannel.
  eapply runs_to_bind.
  { apply runs_to_query.
    change (mapper_GetSubTree [DELETE_INTERFACE] (bus w))
      with (Sim.GetSubTree [DELETE_INTERFACE] (bus w)).
    apply GetSubTree_deletable. }
  intros w1 Hb1 _.
  eapply runs_to_bind; [apply deconfigure_loop_sim; exact Hname |].
  intros w2 Hb2 _.
  rewrite (collapse_describes params (bus w) Hd).
  rewrite delete_all_objs, Hb1, delete_all_kept in Hb2.
  eapply runs_to_bind.
  { apply setDHCPv6Property_sim. cbn [with_logicalPath logicalPath].
    rewrite Hb2. rewrite (find_eth_kept _ _ _ _ _ Hphys). eauto. }
  intros w3 Hb3 _.
  eapply runs_to_eq; [apply runs_to_ret | reflexivity |].
  rewrite Hb3. cbn [with_logicalPath logicalPath]. now rewrite Hb2.
Qed.

Lemma createVLAN_sim (params : ChannelParams) (vlan : Z) (w : W) :
  0 <= vlan < 2 ^ 32 ->
  (vlan <> 0 ->
   existsb (Sim.at_path (Sim.vlan_path (ifname params) vlan)) (Sim.objs (bus w)) = false) ->
  runs_to (createVLAN params vlan) w
          (with_logicalPath (if vlan =? 0 then logicalPath params
                             else Sim.vlan_path (ifname params) vlan) params)
          (if vlan =? 0 then bus w
           else Sim.with_objs (Sim.objs (bus w) ++ [new_vlan (ifname params) vlan]) (bus w)).
Proof.
  intros Hrange Hfree. unfold createVLAN.
  destruct (Z.eqb_spec vlan 0) as [-> | Hne].
  - eapply runs_to_eq; [apply runs_to_ret | | reflexivity].
    now destruct params.
  - assert (Hwrap : Word.wrap 32 vlan = vlan).
    { unfold Word.wrap. apply Z.mod_small. lia. }
    rewrite Hwrap.
    eapply runs_to_bind.
    { apply runs_to_command.
      change (call_VLAN (service params) (ifname params) vlan (bus w))
        with (Sim.create_VLAN (service params) (ifname params) vlan (bus w)).
      apply create_VLAN_run. now apply Hfree. }
    intros w1 Hb1 _. eapply runs_to_eq; [apply runs_to_ret | reflexivity | exact Hb1].
Qed.

Lemma createIfAddr4_sim (params : ChannelParams) (a : in_addr) (prefix : Z) (w : W) :
  is_Some (Sim.find_eth (logicalPath params) (bus w)) ->
  runs_to (createIfAddr AF_INET params a prefix) w tt
          (add_leaves (logicalPath params) [ip_item (Addr4 a) prefix] (bus w)).
Proof.
  intros Hsome. apply runs_to_command.
  change (call_IP (service params) (logicalPath params) (protocol AF_INET)
                  (@addrToString AF_INET AddrFamily_INET a) prefix (bus w))
    with (Sim.create_IP (service params) (logicalPath params) (Sim.proto_of (Addr4 a))
                        (Addr4 a) prefix (bus w)).
  now apply create_IP_run.
Qed.

Lemma createIfAddr6_sim (params : ChannelParams) (a : in6_addr) (prefix : Z) (w : W) :
  is_Some (Sim.find_eth (logicalPath params) (bus w)) ->
  runs_to (createIfAddr AF_INET6 params a prefix) w tt
          (add_leaves (logicalPath params) [ip_item (Addr6 a) prefix] (bus w)).
Proof.
  intros Hsome. apply runs_to_command.
  change (call_IP (service params) (logicalPath params) (protocol AF_INET6)
                  (@addrToString AF_INET6 AddrFamily_INET6 a) prefix (bus w))
    with (Sim.create_IP (service params) (logicalPath params) (Sim.proto_of (Addr6 a))
                        (Addr6 a) prefix (bus w)).
  now apply create_IP_run.
Qed.

Lemma createNeighbor_sim (family : Family) `{!AddrFamily family} (params : ChannelParams)
    (ip : addr family) (mac : ether_addr) (w : W) :
  is_Some (Sim.find_eth (logicalPath params) (bus w)) ->
  runs_to (createNeighbor family params ip mac) w tt
          (add_leaves (logicalPath params) [neighbor_item (addrToString ip) mac] (bus w)).
Proof.
  intros Hsome. apply runs_to_command.
  change (call_Neighbor (service params) (logicalPath params) (addrToString ip) mac (bus w))
    with (Sim.create_Neighbor (service params) (logicalPath params) (addrToString ip) mac
                              (bus w)).
  now apply create_Neighbor_run.
Qed.

Lemma add_leaves_app (lp : string) (items items' : list (string * Sim.Body)) (n : Sim.Net) :
  add_leaves lp (items ++ items') n = add_leaves lp items' (add_leaves lp items n).
Proof. unfold add_leaves. apply fold_left_app. Qed.

Lemma find_eth_add_leaves (p lp : string) (items : list (string * Sim.Body)) (n : Sim.Net) :
  is_Some (Sim.find_eth p n) ->
  Sim.find_eth p (add_leaves lp items n) = Sim.find_eth p n.
Proof.
  revert n. induction items as [| [kind b] items IH]; intros n Hsome; [reflexivity |].
  change (add_leaves lp ((kind, b) :: items) n)
    with (add_leaves lp items
            (Sim.add_obj {| Sim.path := Sim.fresh lp kind n; Sim.body := b |} n)).
  assert (Hs : is_Some (Sim.find_eth p (Sim.add_obj
                  {| Sim.path := Sim.fresh lp kind n; Sim.body := b |} n)))
    by (rewrite find_eth_add_obj; assumption).
  rewrite IH by exact Hs. now apply find_eth_add_obj.
Qed.

Lemma omap_cons {A B : Type} (f : A -> option B) (x : A) (l : list A) :
  omap f (x :: l) = match f x with Some y => y :: omap f l | None => omap f l end.
Proof. reflexivity. Qed.

Lemma ip_list_add_leaves (lp : string) (items : list (string * Sim.Body)) (n : Sim.Net) :
  map snd (ip_list lp (add_leaves lp items n)) = map snd (ip_list lp n) ++ item_ips items.
Proof.
  revert n. induction items as [| [kind b] items IH]; intros n.
  - symmetry. apply app_nil_r.
  - change (add_leaves lp ((kind, b) :: items) n)
      with (add_leaves lp items
              (Sim.add_obj {| Sim.path := Sim.fresh lp kind n; Sim.body := b |} n)).
    rewrite IH, ip_list_add_obj. cbn [Sim.body Sim.path].
    unfold item_ips. rewrite omap_cons. cbn [snd].
    rewrite map_app, <- app_assoc. f_equal.
    destruct b; try reflexivity. now rewrite under_fresh.
Qed.

Lemma neigh_list_add_leaves (lp : string) (items : list (string * Sim.Body)) (n : Sim.Net) :
  map snd (neigh_list lp (add_leaves lp items n))
  = map snd (neigh_list lp n) ++ item_neighs items.
Proof.
  revert n. induction items as [| [kind b] items IH]; intros n.
  - symmetry. apply app_nil_r.
  - change (add_leaves lp ((kind, b) :: items) n)
      with (add_leaves lp items
              (Sim.add_obj {| Sim.path := Sim.fresh lp kind n; Sim.body := b |} n)).
    rewrite IH, neigh_list_add_obj. cbn [Sim.body Sim.path].
    unfold item_neighs. rewrite omap_cons. cbn [snd].
    rewrite map_app, <- app_assoc. f_equal.
    destruct b; try reflexivity. now rewrite under_fresh.
Qed.

Lemma gateway_add_leaves (proto : IP.Protocol) (lp : string)
    (items : list (string * Sim.Body)) (n : Sim.Net) :
  sim_gateway proto (add_leaves lp items n) = sim_gateway proto n.
Proof.
  revert n. induction items as [| [kind b] items IH]; intros n; [reflexivity |].
  change (add_leaves lp ((kind, b) :: items) n)
    with (add_leaves lp items
            (Sim.add_obj {| Sim.path := Sim.fresh lp kind n; Sim.body := b |} n)).
  rewrite IH. now destruct proto.
Qed.

Lemma restore_items_records (a4 : option (IfAddr AF_INET)) (l6 : list (IfAddr AF_INET6))
    (d : DHCPConf.t) (n4 : option (IfNeigh AF_INET)) (n6 : option (IfNeigh AF_INET6)) :
  restore_items {| snap_ifaddr4 := option_map addr_prefix a4;
                   snap_ifaddrs6 := map addr_prefix l6;
                   snap_dhcp := d;
                   snap_neighbor4 := option_map ip_mac n4;
                   snap_neighbor6 := option_map ip_mac n6 |}
  = match a4 with
    | Some a => [ip_item (Addr4 (ifaddr_address a)) (ifaddr_prefix a)]
    | None => []
    end
    ++ map (fun a : IfAddr AF_INET6 => ip_item (Addr6 (ifaddr_address a)) (ifaddr_prefix a)) l6
    ++ match n4 with
       | Some n => [neighbor_item (Addr4 (ifneigh_ip n)) (ifneigh_mac n)]
       | None => []
       end
    ++ match n6 with
       | Some n => [neighbor_item (Addr6 (ifneigh_ip n)) (ifneigh_mac n)]
       | None => []
       end.
Proof.
  unfold restore_items. cbn [snap_ifaddr4 snap_ifaddrs6 snap_neighbor4 snap_neighbor6].
  rewrite map_map. destruct a4, n4, n6; reflexivity.
Qed.

Lemma runs_to_shift {A : Type} (m m' : M Sim.Net A) (w w1 : W) (a : A) (n : Sim.Net) :
  m w = m' w1 -> frame w w1 -> runs_to m' w1 a n -> runs_to m w a n.
Proof.
  intros Heq Hf (w2 & Hrun & Hb & Hf2). exists w2. split; [congruence |].
  split; [exact Hb | now apply (frame_trans _ w1)].
Qed.

Lemma for_each_ips6_sim (params : ChannelParams) (l6 : list (IfAddr AF_INET6)) (w : W) :
  is_Some (Sim.find_eth (logicalPath params) (bus w)) ->
  runs_to
    (for_each l6
       (fun ifaddr6 (_ : unit) =>
          createIfAddr AF_INET6 params (ifaddr_address ifaddr6) (ifaddr_prefix ifaddr6)) tt)
    w tt
    (add_leaves (logicalPath params)
       (map (fun a : IfAddr AF_INET6 => ip_item (Addr6 (ifaddr_address a)) (ifaddr_prefix a))
            l6)
       (bus w)).
Proof.
  revert w. induction l6 as [| a l6 IH]; intros w Hsome.
  - apply runs_to_ret.
  - cbn [for_each map]. eapply runs_to_bind; [now apply createIfAddr6_sim |].
    intros w1 Hb1 _.
    eapply runs_to_eq; [apply IH | reflexivity |].
    + rewrite Hb1, find_eth_add_leaves; assumption.
    + now rewrite Hb1.
Qed.

Lemma kept_vlan_free (name : string) (vlan : Z) (n : Sim.Net) :
  vlan_path_free name vlan n ->
  existsb (Sim.at_path (Sim.vlan_path name vlan)) (kept name (Sim.objs n)) = false.
Proof.
  intros Hfree. apply existsb_false_iff. intros o Hin.
  unfold kept in Hin. apply filter_In in Hin as [Hin Hkeep].
  unfold Sim.at_path. apply bool_decide_eq_false_2. intros Hpath.
  specialize (Hfree o Hin Hpath).
  unfold doomed in Hkeep. rewrite Hfree, Hpath, vlan_path_contains in Hkeep.
  discriminate.
Qed.

(** The second half of [reconfigureVLAN]: on an interface that exists,
    the saved settings are created one after the other. *)
Lemma restore_sim (params : ChannelParams) (a4 : option (IfAddr AF_INET))
    (l6 : list (IfAddr AF_INET6)) (d : DHCPConf.t) (n4 : option (IfNeigh AF_INET))
    (n6 : option (IfNeigh AF_INET6)) (w : W) :
  is_Some (Sim.find_eth (logicalPath params) (bus w)) ->
  runs_to
    (setDHCPv6Property params d false;;
     match a4 with
     | Some a => createIfAddr AF_INET params (ifaddr_address a) (ifaddr_prefix a)
     | None => mret tt
     end;;
     for_each l6
       (fun ifaddr6 (_ : unit) =>
          createIfAddr AF_INET6 params (ifaddr_address ifaddr6) (ifaddr_prefix ifaddr6)) tt;;
     match n4 with
     | Some n => createNeighbor AF_INET params (ifneigh_ip n) (ifneigh_mac n)
     | None => mret tt
     end;;
     match n6 with
     | Some n => createNeighbor AF_INET6 params (ifneigh_ip n) (ifneigh_mac n)
     | None => mret tt
     end;;
     mret params)
    w params
    (add_leaves (logicalPath params)
       (restore_items {| snap_ifaddr4 := option_map addr_prefix a4;
                         snap_ifaddrs6 := map addr_prefix l6;
                         snap_dhcp := d;
                         snap_neighbor4 := option_map ip_mac n4;
                         snap_neighbor6 := option_map ip_mac n6 |})
       (set_dhcp_at (logicalPath params) d (bus w))).
Proof.
  intros Hsome. rewrite restore_items_records.
  set (lp := logicalPath params).
  assert (Hsome0 : is_Some (Sim.find_eth lp (set_dhcp_at lp d (bus w)))).
  { destruct Hsome as [[[d0 v] m] Hfind].
    rewrite (find_eth_set_dhcp_at_same _ _ _ _ _ _ Hfind). eauto. }
  eapply runs_to_bind; [now apply setDHCPv6Property_sim |].
  intros w1 Hb1 _. fold lp in Hb1.
  rewrite !add_leaves_app.
  set (i4 := match a4 with Some a => _ | None => [] end).
  eapply (runs_to_bind _ _ _ tt _ (add_leaves lp i4 (bus w1))).
  { subst i4. destruct a4 as [a |]; [| apply runs_to_ret].
    apply createIfAddr4_sim. now rewrite Hb1. }
  intros w2 Hb2 _.
  assert (Hsome2 : is_Some (Sim.find_eth lp (bus w2))).
  { rewrite Hb2, find_eth_add_leaves; now rewrite Hb1. }
  eapply runs_to_bind; [now apply for_each_ips6_sim |].
  intros w3 Hb3 _. fold lp in Hb3.
  assert (Hsome3 : is_Some (Sim.find_eth lp (bus w3))).
  { rewrite Hb3, find_eth_add_leaves; assumption. }
  set (i5 := match n4 with Some n => _ | None => [] end).
  eapply (runs_to_bind _ _ _ tt _ (add_leaves lp i5 (bus w3))).
  { subst i5. destruct n4 as [n |]; [| apply runs_to_ret].
    eapply runs_to_eq;
      [apply (createNeighbor_sim AF_INET); exact Hsome3 | reflexivity | reflexivity]. }
  intros w4 Hb4 _.
  assert (Hsome4 : is_Some (Sim.find_eth lp (bus w4))).
  { rewrite Hb4, find_eth_add_leaves; assumption. }
  set (i6 := match n6 with Some n => _ | None => [] end).
  eapply (runs_to_bind _ _ _ tt _ (add_leaves lp i6 (bus w4))).
  { subst i6. destruct n6 as [n |]; [| apply runs_to_ret].
    eapply runs_to_eq;
      [apply (createNeighbor_sim AF_INET6); exact Hsome4 | reflexivity | reflexivity]. }
  intros w5 Hb5 _.
  eapply runs_to_eq; [apply runs_to_ret | reflexivity |].
  now rewrite Hb5, Hb4, Hb3, Hb2, Hb1.
Qed.

(** [reconfigureVLAN] on the modelled service: for a channel that the
    parameters describe and whose snapshot is [s], the call returns with
    the logical path on the new interface and leaves the network as
    [reconfigured] says. *)
Lemma reconfigureVLAN_sim (params : ChannelParams) (vlan : Z) (s : Snapshot) (w : W) :
  describes params (bus w) ->
  observe (logicalPath params) (bus w) = Some s ->
  0 <= vlan < 2 ^ 16 ->
  (vlan <> 0 -> vlan_path_free (ifname params) vlan (bus w)) ->
  runs_to (reconfigureVLAN params vlan) w
          (with_logicalPath (new_logicalPath params vlan) params)
          (reconfigured params vlan s (bus w)).
Proof.
  intros Hd Hobs Hvlan Hfree.
  pose proof Hd as (Hname & Hif & (d0 & m0 & Hphys) & Hlp).
  apply snapshot_observe in Hobs.
  destruct (reconfigureVLAN_reads params vlan w s Hobs)
    as (w1 & a4 & l6 & n4 & n6 & Hb1 & Hf1 & Hs & Hrun).
  eapply runs_to_shift; [exact Hrun | exact Hf1 |].
  eapply runs_to_bind; [apply deconfigureChannel_sim; now rewrite Hb1 |].
  intros w2 Hb2 _. rewrite Hb1 in Hb2.
  set (n1 := set_dhcp_at (ifPath params) DHCPConf.none
                         (Sim.with_objs (kept (ifname params) (Sim.objs (bus w))) (bus w)))
    in *.
  assert (Hphys1 : is_Some (Sim.find_eth (ifPath params) n1)).
  { subst n1. rewrite (find_eth_set_dhcp_at_same _ _ d0 None m0); [eauto |].
    now apply find_eth_kept. }
  eapply runs_to_bind.
  { apply createVLAN_sim; [lia |]. intros Hne.
    cbn [with_logicalPath ifname]. rewrite Hb2. subst n1.
    rewrite at_path_set_dhcp_at. apply kept_vlan_free. now apply Hfree. }
  intros w3 Hb3 _. cbn [with_logicalPath ifname logicalPath] in Hb3.
  rewrite Hb2 in Hb3.
  set (params3 := with_logicalPath _ (with_logicalPath _ params)).
  assert (Hparams3 : params3 = with_logicalPath (new_logicalPath params vlan) params).
  { subst params3. unfold new_logicalPath, with_logicalPath.
    cbn [id ifname service ifPath logicalPath]. now destruct (vlan =? 0). }
  rewrite Hparams3. clear params3 Hparams3.
  set (params3 := with_logicalPath (new_logicalPath params vlan) params).
  assert (Hsome3 : is_Some (Sim.find_eth (logicalPath params3) (bus w3))).
  { subst params3. cbn [with_logicalPath logicalPath]. rewrite Hb3.
    unfold new_logicalPath. destruct (Z.eqb_spec vlan 0) as [Hz | Hnz].
    - exact Hphys1.
    - rewrite find_eth_new_vlan; [eauto |].
      subst n1. rewrite at_path_set_dhcp_at. apply kept_vlan_free. now apply Hfree. }
  eapply runs_to_eq; [apply (restore_sim params3 a4 l6 (snap_dhcp s) n4 n6 w3 Hsome3) | |].
  - reflexivity.
  - rewrite <- Hs. subst params3. cbn [with_logicalPath logicalPath].
    unfold reconfigured. fold n1. now rewrite Hb3.
Qed.

(** *** What a fresh snapshot of the new interface shows *)

Lemma ip_list_kept (name lp : string) (l : list Sim.Obj) (n : Sim.Net) :
  string_contains lp name = true ->
  ip_list lp (Sim.with_objs (kept name l) n) = [].
Proof.
  intros Hlp. unfold ip_list.
  change (Sim.objs (Sim.with_objs (kept name l) n)) with (kept name l).
  induction l as [| o l IH]; [reflexivity |].
  unfold kept in *. cbn [List.filter].
  destruct (doomed name o) eqn:Hd; cbn [negb]; [exact IH |].
  rewrite omap_cons, IH.
  destruct o as [p b]. cbn [Sim.body Sim.path] in *.
  destruct b as [| props |]; try reflexivity.
  destruct (Sim.under lp p) eqn:Hu; [| reflexivity].
  unfold doomed in Hd. cbn [Sim.body Sim.path] in Hd.
  rewrite (under_contains _ _ _ Hu Hlp) in Hd. discriminate.
Qed.

Lemma neigh_list_kept (name lp : string) (l : list Sim.Obj) (n : Sim.Net) :
  string_contains lp name = true ->
  neigh_list lp (Sim.with_objs (kept name l) n) = [].
Proof.
  intros Hlp. unfold neigh_list.
  change (Sim.objs (Sim.with_objs (kept name l) n)) with (kept name l).
  induction l as [| o l IH]; [reflexivity |].
  unfold kept in *. cbn [List.filter].
  destruct (doomed name o) eqn:Hd; cbn [negb]; [exact IH |].
  rewrite omap_cons, IH.
  destruct o as [p b]. cbn [Sim.body Sim.path] in *.
  destruct b as [| | props]; try reflexivity.
  destruct (Sim.under lp p) eqn:Hu; [| reflexivity].
  unfold doomed in Hd. cbn [Sim.body Sim.path] in Hd.
  rewrite (under_contains _ _ _ Hu Hlp) in Hd. discriminate.
Qed.

Lemma item_ips_restore (s : Snapshot) :
  item_ips (restore_items s)
  = match snap_ifaddr4 s with
    | Some (a, p) => [static_ip_props (Addr4 a) p]
    | None => []
    end
    ++ map (fun x : in6_addr * Z => static_ip_props (Addr6 (fst x)) (snd x))
           (snap_ifaddrs6 s).
Proof.
  unfold restore_items, item_ips. rewrite !omap_app.
  assert (H6 : omap (fun item : string * Sim.Body =>
                       match snd item with Sim.Addr props => Some props | _ => None end)
                    (map (fun '(a, p) => ip_item (Addr6 a) p) (snap_ifaddrs6 s))
               = map (fun x : in6_addr * Z => static_ip_props (Addr6 (fst x)) (snd x))
                     (snap_ifaddrs6 s)).
  { induction (snap_ifaddrs6 s) as [| [a p] l IH]; [reflexivity |].
    cbn [map]. rewrite omap_cons, IH. reflexivity. }
  rewrite H6.
  destruct (snap_ifaddr4 s) as [[a p] |], (snap_neighbor4 s) as [[i4 m4] |],
    (snap_neighbor6 s) as [[i6 m6] |]; cbn; now rewrite ?app_nil_r.
Qed.

Lemma item_neighs_restore (s : Snapshot) :
  item_neighs (restore_items s)
  = match snap_neighbor4 s with
    | Some (ip, mac) => [static_neighbor_props (Addr4 ip) mac]
    | None => []
    end
    ++ match snap_neighbor6 s with
       | Some (ip, mac) => [static_neighbor_props (Addr6 ip) mac]
       | None => []
       end.
Proof.
  unfold restore_items, item_neighs. rewrite !omap_app.
  assert (H6 : omap (fun item : string * Sim.Body =>
                       match snd item with Sim.Neigh props => Some props | _ => None end)
                    (map (fun '(a, p) => ip_item (Addr6 a) p) (snap_ifaddrs6 s))
               = []).
  { induction (snap_ifaddrs6 s) as [| [a p] l IH]; [reflexivity |].
    cbn [map]. rewrite omap_cons, IH. reflexivity. }
  rewrite H6.
  destruct (snap_ifaddr4 s) as [[a p] |], (snap_neighbor4 s) as [[i4 m4] |],
    (snap_neighbor6 s) as [[i6 m6] |]; reflexivity.
Qed.

Lemma props_slots_app (family : Family) `{!AddrFamily family}
    (origins : list IP.AddressOrigin) (l l' : list IPProps) :
  props_slots family origins (l ++ l')
  = props_slots family origins l ++ props_slots family origins l'.
Proof. unfold props_slots. apply omap_app. Qed.

Lemma props_slots4_of_v6 (l : list (in6_addr * Z)) :
  props_slots AF_INET originsV4
    (map (fun x : in6_addr * Z => static_ip_props (Addr6 (fst x)) (snd x)) l) = [].
Proof.
  induction l as [| [a p] l IH]; [reflexivity |].
  cbn [map]. unfold props_slots in *. rewrite omap_cons, IH. reflexivity.
Qed.

Lemma props_slots6_of_v6 (l : list (in6_addr * Z)) :
  props_slots AF_INET6 originsV6Static
    (map (fun x : in6_addr * Z => static_ip_props (Addr6 (fst x)) (snd x)) l) = l.
Proof.
  induction l as [| [a p] l IH]; [reflexivity |].
  cbn [map]. unfold props_slots in *. rewrite omap_cons, IH. reflexivity.
Qed.

Lemma props_slots4_restore (s : Snapshot) :
  head (props_slots AF_INET originsV4 (item_ips (restore_items s))) = snap_ifaddr4 s.
Proof.
  rewrite item_ips_restore, props_slots_app, props_slots4_of_v6.
  destruct (snap_ifaddr4 s) as [[a p] |]; reflexivity.
Qed.

Lemma props_slots6_restore (s : Snapshot) :
  props_slots AF_INET6 originsV6Static (item_ips (restore_items s)) = snap_ifaddrs6 s.
Proof.
  rewrite item_ips_restore, props_slots_app, props_slots6_of_v6.
  destruct (snap_ifaddr4 s) as [[a p] |]; reflexivity.
Qed.

Lemma static_mac_ip (family : Family) `{!AddrFamily family} (ip ip' : addr family)
    (mac : ether_addr) (props : list NeighborProps) :
  static_mac family ip props = Some (ip', mac) -> ip' = ip.
Proof.
  induction props as [| neighbor props IH]; [discriminate |].
  cbn [static_mac].
  destruct (maybeStringToAddr (IPAddress neighbor)); [| exact IH].
  destruct (negb _); [exact IH |]. destruct (negb _); [exact IH |].
  now intros [= <- _].
Qed.

Lemma gateway_mac4_restore (s : Snapshot) (gateway : option NetAddr)
    (props : list NeighborProps) :
  gateway_mac AF_INET gateway props = Some (snap_neighbor4 s) ->
  gateway_mac AF_INET gateway (item_neighs (restore_items s)) = Some (snap_neighbor4 s).
Proof.
  unfold gateway_mac. destruct gateway as [g |]; [| trivial].
  destruct (maybeStringToAddr g) as [a |]; [| discriminate].
  intros [= Hmac]. f_equal. rewrite item_neighs_restore.
  destruct (snap_neighbor4 s) as [[ip mac] |].
  - apply static_mac_ip in Hmac as ->.
    cbn [app static_mac static_neighbor_props IPAddress State MACAddress].
    change (@maybeStringToAddr AF_INET _ (Addr4 a)) with (Some a).
    cbv beta iota. rewrite !bool_decide_eq_true_2 by reflexivity. reflexivity.
  - destruct (snap_neighbor6 s) as [[ip6 mac6] |]; reflexivity.
Qed.

Lemma gateway_mac6_restore (s : Snapshot) (gateway : option NetAddr)
    (props : list NeighborProps) :
  gateway_mac AF_INET6 gateway props = Some (snap_neighbor6 s) ->
  gateway_mac AF_INET6 gateway (item_neighs (restore_items s)) = Some (snap_neighbor6 s).
Proof.
  unfold gateway_mac. destruct gateway as [g |]; [| trivial].
  destruct (maybeStringToAddr g) as [a |]; [| discriminate].
  intros [= Hmac]. f_equal. rewrite item_neighs_restore.
  assert (Hskip : forall rest,
             static_mac AF_INET6 a
               (match snap_neighbor4 s with
                | Some (ip, mac) => [static_neighbor_props (Addr4 ip) mac]
                | None => []
                end ++ rest)
             = static_mac AF_INET6 a rest).
  { intros rest. destruct (snap_neighbor4 s) as [[ip4 mac4] |]; reflexivity. }
  rewrite Hskip.
  destruct (snap_neighbor6 s) as [[ip mac] |]; [| reflexivity].
  apply static_mac_ip in Hmac as ->.
  cbn [static_mac static_neighbor_props IPAddress State MACAddress].
  change (@maybeStringToAddr AF_INET6 _ (Addr6 a)) with (Some a).
  cbv beta iota. rewrite !bool_decide_eq_true_2 by reflexivity. reflexivity.
Qed.

Lemma gateway_reconfigured (proto : IP.Protocol) (params : ChannelParams) (vlan : Z)
    (s : Snapshot) (n : Sim.Net) :
  sim_gateway proto (reconfigured params vlan s n) = sim_gateway proto n.
Proof.
  unfold reconfigured. rewrite gateway_add_leaves.
  destruct (vlan =? 0), proto; reflexivity.
Qed.

(** After [reconfigureVLAN] the interface at the new logical path shows
    the snapshot that was taken of the old one. *)
Lemma observe_reconfigured (params : ChannelParams) (vlan : Z) (s : Snapshot)
    (n : Sim.Net) :
  describes params n ->
  observe (logicalPath params) n = Some s ->
  (vlan <> 0 -> vlan_path_free (ifname params) vlan n) ->
  observe (new_logicalPath params vlan) (reconfigured params vlan s n) = Some s.
Proof.
  intros Hd Hobs Hfree.
  pose proof Hd as (Hname & Hif & (d0 & m0 & Hphys) & Hlp).
  set (lp' := new_logicalPath params vlan).
  assert (Hlp' : string_contains lp' (ifname params) = true).
  { subst lp'. unfold new_logicalPath. destruct (vlan =? 0); [exact Hif |].
    apply vlan_path_contains. }
  set (n1 := set_dhcp_at (ifPath params) DHCPConf.none
                         (Sim.with_objs (kept (ifname params) (Sim.objs n)) n)).
  set (n2 := if vlan =? 0 then n1
             else Sim.with_objs (Sim.objs n1 ++ [new_vlan (ifname params) vlan]) n1).
  assert (Hips2 : ip_list lp' n2 = []).
  { subst n2. destruct (vlan =? 0); [| rewrite ip_list_new_vlan];
      subst n1; rewrite ip_list_set_dhcp_at; now apply ip_list_kept. }
  assert (Hneigh2 : neigh_list lp' n2 = []).
  { subst n2. destruct (vlan =? 0); [| rewrite neigh_list_new_vlan];
      subst n1; rewrite neigh_list_set_dhcp_at; now apply neigh_list_kept. }
  assert (Heth2 : is_Some (Sim.find_eth lp' n2)).
  { subst n2 lp'. unfold new_logicalPath.
    destruct (Z.eqb_spec vlan 0) as [Hz | Hnz].
    - subst n1. rewrite (find_eth_set_dhcp_at_same _ _ d0 None m0); [eauto |].
      now apply find_eth_kept.
    - rewrite find_eth_new_vlan; [eauto |].
      subst n1. rewrite at_path_set_dhcp_at. apply kept_vlan_free. now apply Hfree. }
  destruct Heth2 as [[[d2 v2] m2] Heth2].
  unfold observe in Hobs.
  destruct (Sim.find_eth (logicalPath params) n) as [[[dhcp v] m] |]; [| discriminate].
  destruct (gateway_mac AF_INET (Sim.gateway4 n) (map snd (neigh_list (logicalPath params) n)))
    as [r4 |] eqn:H4; [| discriminate].
  destruct (gateway_mac AF_INET6 (Sim.gateway6 n)
                        (map snd (neigh_list (logicalPath params) n)))
    as [r6 |] eqn:H6; [| discriminate].
  injection Hobs as Hs.
  assert (Hr4 : r4 = snap_neighbor4 s) by (now rewrite <- Hs).
  assert (Hr6 : r6 = snap_neighbor6 s) by (now rewrite <- Hs).
  assert (Hl6 : take (Z.to_nat MAX_IPV6_STATIC_ADDRESSES) (snap_ifaddrs6 s)
                = snap_ifaddrs6 s).
  { rewrite <- Hs. cbn [snap_ifaddrs6]. apply take_idemp. }
  subst r4 r6.
  unfold observe.
  change (reconfigured params vlan s n)
    with (add_leaves lp' (restore_items s) (set_dhcp_at lp' (snap_dhcp s) n2)).
  rewrite find_eth_add_leaves
    by (rewrite (find_eth_set_dhcp_at_same _ _ _ _ _ _ Heth2); eauto).
  rewrite (find_eth_set_dhcp_at_same _ _ _ _ _ _ Heth2).
  rewrite ip_list_add_leaves, neigh_list_add_leaves.
  rewrite ip_list_set_dhcp_at, neigh_list_set_dhcp_at, Hips2, Hneigh2.
  cbn [map app].
  pose proof (gateway_add_leaves IP.IPv4 lp' (restore_items s)
                (set_dhcp_at lp' (snap_dhcp s) n2)) as Hg4.
  pose proof (gateway_add_leaves IP.IPv6 lp' (restore_items s)
                (set_dhcp_at lp' (snap_dhcp s) n2)) as Hg6.
  cbn [sim_gateway] in Hg4, Hg6. rewrite Hg4, Hg6.
  assert (Hgw4 : Sim.gateway4 (set_dhcp_at lp' (snap_dhcp s) n2) = Sim.gateway4 n).
  { subst n2 n1. now destruct (vlan =? 0). }
  assert (Hgw6 : Sim.gateway6 (set_dhcp_at lp' (snap_dhcp s) n2) = Sim.gateway6 n).
  { subst n2 n1. now destruct (vlan =? 0). }
  rewrite Hgw4, Hgw6.
  rewrite (gateway_mac4_restore s _ _ H4), (gateway_mac6_restore s _ _ H6).
  rewrite props_slots4_restore, props_slots6_restore.
  f_equal. destruct s as [s4 s6 sd sn4 sn6].
  cbn [snap_ifaddr4 snap_ifaddrs6 snap_dhcp snap_neighbor4 snap_neighbor6] in *.
  f_equal. exact Hl6.
Qed.

End SimHandler.
(** * Channel resolution on the modelled network *)

Section SimResolve.
Context `{!Platform} `{!Header}.
#[local] Abbreviation W := (World Sim.Net).

Ltac scan_facts :=
  repeat first
    [ progress cbv [id ifname service ifPath logicalPath with_service with_ifPath
                    with_logicalPath scan_impls scan_interfaces]
    | progress cbn [fold_left orb andb negb]
    | match goal with
      | |- context [bool_decide ?P] =>
          first [ rewrite (bool_decide_eq_true_2 P) by (reflexivity || assumption)
                | rewrite (bool_decide_eq_false_2 P) by (assumption || discriminate) ]
      end ].

Lemma contains_nonempty (p name : string) :
  string_contains p name = true -> name <> "" -> p <> "".
Proof. intros Hc Hn ->. now apply contains_empty in Hc. Qed.

Lemma scanned_nil (name : string) (acc : ChannelParams) : scanned name [] acc = acc.
Proof.
  destruct acc as [i nm sv ip lp]. unfold scanned, first_path.
  cbn [id ifname service ifPath logicalPath existsb List.find].
  f_equal; case_bool_decide; congruence.
Qed.

Lemma scan_sim (name : string) (l : list Sim.Obj) (acc : ChannelParams) :
  name <> "" ->
  fold_left (scan_step name) (omap scan_entry l) acc
  = scanned name l acc.
Proof.
  intros Hname. revert acc.
  induction l as [| o l IH]; intros acc; [now rewrite scanned_nil |].
  change (omap scan_entry (o :: l))
    with (match scan_entry o with
          | Some y => y :: omap scan_entry l
          | None => omap scan_entry l
          end).
  destruct o as [p b].
  assert (Hleaf : Sim.is_eth b = false ->
                  scanned name ({| Sim.path := p; Sim.body := b |} :: l) acc
                  = scanned name l acc).
  { intros Hb. unfold scanned, first_path. cbn [existsb List.find Sim.body Sim.path].
    destruct b as [d [v |] m | props | props]; try discriminate; reflexivity. }
  destruct b as [d [v |] m | props | props];
    [| | rewrite Hleaf by reflexivity; apply IH
         | rewrite Hleaf by reflexivity; apply IH].
  - (* a VLAN interface *)
    change (fold_left (scan_step name) _ acc)
      with (fold_left (scan_step name) (omap scan_entry l)
              (scan_step name acc (p, [(Sim.SERVICE, [INTF_ETHERNET; INTF_VLAN])]))).
    rewrite IH. unfold scan_step, scanned, first_path.
    cbn [existsb List.find Sim.body Sim.path Sim.is_eth is_phys is_vlan andb].
    destruct (string_contains p name) eqn:Hc; cbn [negb orb]; [| reflexivity].
    pose proof (contains_nonempty _ _ Hc Hname) as Hp.
    destruct acc as [i nm sv ip lp].
    destruct (decide (sv = "")) as [Hsv | Hsv], (decide (ip = "")) as [Hip | Hip],
             (decide (lp = "")) as [Hlp | Hlp]; scan_facts; reflexivity.
  - (* a physical interface *)
    change (fold_left (scan_step name) _ acc)
      with (fold_left (scan_step name) (omap scan_entry l)
              (scan_step name acc (p, [(Sim.SERVICE, [INTF_ETHERNET])]))).
    rewrite IH. unfold scan_step, scanned, first_path.
    cbn [existsb List.find Sim.body Sim.path Sim.is_eth is_phys is_vlan andb].
    destruct (string_contains p name) eqn:Hc; cbn [negb orb]; [| reflexivity].
    pose proof (contains_nonempty _ _ Hc Hname) as Hp.
    destruct acc as [i nm sv ip lp].
    destruct (decide (sv = "")) as [Hsv | Hsv], (decide (ip = "")) as [Hip | Hip],
             (decide (lp = "")) as [Hlp | Hlp]; scan_facts; reflexivity.
Qed.

Lemma first_path_found (kind : Sim.Body -> bool) (name : string) (l : list Sim.Obj) :
  first_path kind name l <> "" ->
  exists o, In o l /\ kind (Sim.body o) = true
            /\ string_contains (Sim.path o) name = true
            /\ Sim.path o = first_path kind name l.
Proof.
  unfold first_path.
  destruct (List.find _ l) as [o |] eqn:Hfind; [| congruence].
  intros _. apply find_some in Hfind as [Hin Hp].
  apply andb_true_iff in Hp as [Hk Hc]. now exists o.
Qed.

(** The channel resolves to what [resolved] says, for the price of one
    enumeration of the interfaces. *)
Lemma maybeGetChannelParams_sim (channel : Z) (w : W) :
  getChannelName channel <> "" ->
  maybeGetChannelParams channel w
  = (Ok (resolved channel (getChannelName channel) (bus w)),
     log_call (GetSubTree [INTF_VLAN; INTF_ETHERNET]) w).
Proof.
  intros Hname. unfold maybeGetChannelParams.
  rewrite bool_decide_eq_false_2 by assumption.
  set (name := getChannelName channel) in *.
  unfold mbind, M_bind. rewrite query_run.
  change (mapper_GetSubTree [INTF_VLAN; INTF_ETHERNET] (bus w))
    with (Reply (omap scan_entry (Sim.objs (bus w)))).
  cbn [of_reply].
  change (fold_left _ (omap scan_entry (Sim.objs (bus w))) ?acc)
    with (fold_left (scan_step name) (omap scan_entry (Sim.objs (bus w))) acc).
  rewrite scan_sim by assumption.
  unfold scanned, resolved. cbn [id ifname service ifPath logicalPath].
  rewrite !(bool_decide_eq_true_2 ("" = "")) by reflexivity.
  destruct (decide (first_path is_phys name (Sim.objs (bus w)) = "")) as [Hnone | Hsome].
  - rewrite !bool_decide_eq_true_2 by assumption. reflexivity.
  - rewrite !(bool_decide_eq_false_2 _ Hsome).
    destruct (first_path_found _ _ _ Hsome) as (o & Hin & Hk & Hc & _).
    assert (Hex : existsb (fun o => Sim.is_eth (Sim.body o)
                                    && string_contains (Sim.path o) name)
                          (Sim.objs (bus w)) = true).
    { apply existsb_exists. exists o. split; [exact Hin |].
      rewrite Hc, andb_true_r. now destruct (Sim.body o) as [d [v |] m | |]. }
    rewrite Hex.
    destruct (bool_decide (first_path is_vlan name (Sim.objs (bus w)) = ""));
      reflexivity.
Qed.

Lemma channelCall_sim {A : Type} (func : ChannelParams -> M Sim.Net A) (channel : Z)
    (params : ChannelParams) (w : W) :
  getChannelName channel <> "" ->
  resolved channel (getChannelName channel) (bus w) = Some params ->
  channelCall func channel w
  = func params (log_call (GetSubTree [INTF_VLAN; INTF_ETHERNET]) w).
Proof.
  intros Hname Hres. unfold channelCall.
  rewrite (bind_ok _ _ _ _ _ (maybeGetChannelParams_sim channel w Hname)).
  now rewrite Hres.
Qed.

(** *** What the channel resolves to after a reconfiguration *)

Lemma find_filter_imp {A : Type} (P Q : A -> bool) (l : list A) :
  (forall x, P x = true -> Q x = true) ->
  List.find P (List.filter Q l) = List.find P l.
Proof.
  intros Himp. induction l as [| y l IH]; [reflexivity |].
  cbn [List.filter List.find].
  destruct (P y) eqn:HP.
  - rewrite (Himp y HP). cbn [List.find]. now rewrite HP.
  - destruct (Q y); cbn [List.find]; [rewrite HP |]; exact IH.
Qed.

Lemma find_filter_none {A : Type} (P Q : A -> bool) (l : list A) :
  (forall x, P x = true -> Q x = false) ->
  List.find P (List.filter Q l) = None.
Proof.
  intros Himp. apply find_none_iff. intros x Hin.
  apply filter_In in Hin as [_ HQ].
  destruct (P x) eqn:HP; [| reflexivity].
  rewrite (Himp x HP) in HQ. discriminate.
Qed.

Lemma find_app_false {A : Type} (P : A -> bool) (l l' : list A) :
  (forall x, In x l' -> P x = false) ->
  List.find P (l ++ l') = List.find P l.
Proof.
  intros Hfalse. destruct (List.find P l) as [x |] eqn:Hfind.
  - now apply find_app_some.
  - rewrite find_app_none by assumption. now apply find_none_iff.
Qed.

Lemma find_add_leaves (P : Sim.Obj -> bool) (lp : string)
    (items : list (string * Sim.Body)) (n : Sim.Net) :
  (forall kind b p, In (kind, b) items -> P {| Sim.path := p; Sim.body := b |} = false) ->
  List.find P (Sim.objs (add_leaves lp items n)) = List.find P (Sim.objs n).
Proof.
  revert n. induction items as [| [kind b] items IH]; intros n Hleaf; [reflexivity |].
  change (add_leaves lp ((kind, b) :: items) n)
    with (add_leaves lp items
            (Sim.add_obj {| Sim.path := Sim.fresh lp kind n; Sim.body := b |} n)).
  rewrite IH by (intros k b' p' Hin; apply (Hleaf k); now right).
  cbn [Sim.add_obj Sim.objs]. apply find_app_false.
  intros x [<- | []]. apply (Hleaf kind). now left.
Qed.

Lemma restore_items_leaves (s : Snapshot) (kind : string) (b : Sim.Body) :
  In (kind, b) (restore_items s) -> Sim.is_eth b = false.
Proof.
  unfold restore_items. rewrite !in_app_iff.
  intros [Hin | [Hin | [Hin | Hin]]].
  - destruct (snap_ifaddr4 s) as [[a p] |]; [| destruct Hin].
    destruct Hin as [[= <- <-] | []]. reflexivity.
  - apply in_map_iff in Hin as ([a p] & [= <- <-] & _). reflexivity.
  - destruct (snap_neighbor4 s) as [[ip mac] |]; [| destruct Hin].
    destruct Hin as [[= <- <-] | []]. reflexivity.
  - destruct (snap_neighbor6 s) as [[ip mac] |]; [| destruct Hin].
    destruct Hin as [[= <- <-] | []]. reflexivity.
Qed.

Lemma first_path_add_leaves (kind : Sim.Body -> bool) (name lp : string) (s : Snapshot)
    (n : Sim.Net) :
  (forall b, Sim.is_eth b = false -> kind b = false) ->
  first_path kind name (Sim.objs (add_leaves lp (restore_items s) n))
  = first_path kind name (Sim.objs n).
Proof.
  intros Hkind. unfold first_path. rewrite find_add_leaves; [reflexivity |].
  intros k b p Hin. cbn [Sim.body Sim.path].
  now rewrite (Hkind b (restore_items_leaves s k b Hin)).
Qed.

Lemma first_path_set_dhcp_at (kind : Sim.Body -> bool) (name p : string)
    (d : DHCPConf.t) (n : Sim.Net) :
  (forall b, kind (Sim.set_dhcp d b) = kind b) ->
  first_path kind name (Sim.objs (set_dhcp_at p d n)) = first_path kind name (Sim.objs n).
Proof.
  intros Hkind. unfold first_path, set_dhcp_at. cbn [Sim.objs Sim.with_objs].
  rewrite find_map_same.
  - destruct (List.find _ (Sim.objs n)) as [o |]; [| reflexivity].
    cbn [option_map]. now destruct (eth_at p o).
  - intros o. destruct (eth_at p o); [| reflexivity].
    cbn [Sim.body Sim.path]. now rewrite Hkind.
Qed.

Lemma is_phys_set_dhcp (d : DHCPConf.t) (b : Sim.Body) :
  is_phys (Sim.set_dhcp d b) = is_phys b.
Proof. now destruct b as [d0 [v |] m | |]. Qed.

Lemma is_vlan_set_dhcp (d : DHCPConf.t) (b : Sim.Body) :
  is_vlan (Sim.set_dhcp d b) = is_vlan b.
Proof. now destruct b as [d0 [v |] m | |]. Qed.

Lemma first_phys_reconfigured (params : ChannelParams) (vlan : Z) (s : Snapshot)
    (n : Sim.Net) :
  first_path is_phys (ifname params) (Sim.objs (reconfigured params vlan s n))
  = first_path is_phys (ifname params) (Sim.objs n).
Proof.
  unfold reconfigured.
  rewrite first_path_add_leaves by (now intros [d [v |] m | |]).
  rewrite first_path_set_dhcp_at by apply is_phys_set_dhcp.
  assert (Hkept : first_path is_phys (ifname params)
                    (Sim.objs (set_dhcp_at (ifPath params) DHCPConf.none
                       (Sim.with_objs (kept (ifname params) (Sim.objs n)) n)))
                  = first_path is_phys (ifname params) (Sim.objs n)).
  { rewrite first_path_set_dhcp_at by apply is_phys_set_dhcp.
    unfold first_path, kept. cbn [Sim.objs Sim.with_objs].
    rewrite find_filter_imp; [reflexivity |].
    intros o Ho. apply andb_true_iff in Ho as [Hk _]. unfold doomed.
    now destruct (Sim.body o) as [d [v |] m | |]. }
  destruct (vlan =? 0); [exact Hkept |].
  rewrite <- Hkept. unfold first_path at 1. cbn [Sim.objs Sim.with_objs].
  rewrite find_app_false; [reflexivity |].
  intros x [<- | []]. reflexivity.
Qed.

Lemma first_vlan_reconfigured (params : ChannelParams) (vlan : Z) (s : Snapshot)
    (n : Sim.Net) :
  first_path is_vlan (ifname params) (Sim.objs (reconfigured params vlan s n))
  = if vlan =? 0 then "" else Sim.vlan_path (ifname params) vlan.
Proof.
  unfold reconfigured.
  rewrite first_path_add_leaves by (now intros [d [v |] m | |]).
  rewrite first_path_set_dhcp_at by apply is_vlan_set_dhcp.
  assert (Hkept : List.find (fun o => is_vlan (Sim.body o)
                                      && string_contains (Sim.path o) (ifname params))
                    (Sim.objs (set_dhcp_at (ifPath params) DHCPConf.none
                       (Sim.with_objs (kept (ifname params) (Sim.objs n)) n)))
                  = None).
  { pose proof (first_path_set_dhcp_at is_vlan (ifname params) (ifPath params)
                  DHCPConf.none
                  (Sim.with_objs (kept (ifname params) (Sim.objs n)) n)
                  (is_vlan_set_dhcp DHCPConf.none)) as Hsame.
    unfold first_path, set_dhcp_at in *. cbn [Sim.objs Sim.with_objs] in *.
    rewrite find_map_same.
    - unfold kept. rewrite find_filter_none; [reflexivity |].
      intros o Ho. apply andb_true_iff in Ho as [Hk Hc]. unfold doomed.
      rewrite Hc. now destruct (Sim.body o) as [d [v |] m | |].
    - intros o. destruct (eth_at (ifPath params) o); [| reflexivity].
      cbn [Sim.body Sim.path]. now rewrite is_vlan_set_dhcp. }
  destruct (vlan =? 0).
  - unfold first_path. now rewrite Hkept.
  - unfold first_path. cbn [Sim.objs Sim.with_objs].
    rewrite find_app_none by exact Hkept.
    cbn [List.find new_vlan Sim.body Sim.path is_vlan andb].
    now rewrite vlan_path_contains.
Qed.

(** After [reconfigureVLAN] the channel resolves to the parameters that
    the call has returned. *)
Lemma resolved_reconfigured (channel : Z) (params : ChannelParams) (vlan : Z)
    (s : Snapshot) (n : Sim.Net) :
  ifname params <> "" ->
  resolved channel (ifname params) n = Some params ->
  resolved channel (ifname params) (reconfigured params vlan s n)
  = Some (with_logicalPath (new_logicalPath params vlan) params).
Proof.
  intros Hname. unfold resolved.
  rewrite first_phys_reconfigured, first_vlan_reconfigured.
  destruct (bool_decide (first_path is_phys (ifname params) (Sim.objs n) = ""));
    [discriminate |].
  intros [= <-]. unfold with_logicalPath, new_logicalPath.
  cbn [id ifname service ifPath logicalPath].
  destruct (vlan =? 0).
  - rewrite (bool_decide_eq_true_2 ("" = "")) by reflexivity. reflexivity.
  - rewrite bool_decide_eq_false_2; [reflexivity |].
    apply (contains_nonempty _ (ifname params)); [| assumption].
    cbn [ifname]. apply vlan_path_contains.
Qed.

Lemma find_eth_reconfigured (params : ChannelParams) (vlan : Z) (s : Snapshot)
    (n : Sim.Net) :
  vlan <> 0 ->
  vlan_path_free (ifname params) vlan n ->
  Sim.find_eth (Sim.vlan_path (ifname params) vlan) (reconfigured params vlan s n)
  = Some (snap_dhcp s, Some vlan, {| ether_addr_octet := [0; 0; 0; 0; 0; 0] |}).
Proof.
  intros Hne Hfree. unfold reconfigured, new_logicalPath.
  apply Z.eqb_neq in Hne. rewrite Hne.
  set (n1 := set_dhcp_at (ifPath params) DHCPConf.none
                         (Sim.with_objs (kept (ifname params) (Sim.objs n)) n)).
  assert (Hvlan : Sim.find_eth (Sim.vlan_path (ifname params) vlan)
                    (Sim.with_objs (Sim.objs n1 ++ [new_vlan (ifname params) vlan]) n1)
                  = Some (DHCPConf.none, Some vlan,
                          {| ether_addr_octet := [0; 0; 0; 0; 0; 0] |})).
  { apply find_eth_new_vlan. subst n1. rewrite at_path_set_dhcp_at.
    now apply kept_vlan_free. }
  pose proof (find_eth_set_dhcp_at_same _ (snap_dhcp s) _ _ _ _ Hvlan) as Hset.
  rewrite find_eth_add_leaves by (rewrite Hset; eauto).
  exact Hset.
Qed.

(** The physical interface of a resolved channel is not where a free
    VLAN path points. *)
Lemma resolved_not_vlan_path (channel : Z) (name : string) (params : ChannelParams)
    (vlan : Z) (n : Sim.Net) :
  resolved channel name n = Some params ->
  vlan_path_free name vlan n ->
  ifPath params <> Sim.vlan_path name vlan.
Proof.
  unfold resolved.
  destruct (decide (first_path is_phys name (Sim.objs n) = "")) as [Hnone | Hsome].
  { rewrite bool_decide_eq_true_2 by assumption. discriminate. }
  rewrite bool_decide_eq_false_2 by assumption.
  intros [= <-] Hfree. cbn [ifPath].
  destruct (first_path_found _ _ _ Hsome) as (o & Hin & Hk & _ & Hpath).
  rewrite <- Hpath. intros Hat. specialize (Hfree o Hin Hat).
  now destruct (Sim.body o) as [d [v |] m | |].
Qed.

End SimResolve.

(** * The request data and the entry of Get LAN *)

Section Requests.
Context {net : Type} `{!Bus net} `{!Platform} `{!Header}.

Lemma unpack_uint_range (count : Z) (p q : Payload) (v : Z) :
  0 <= count -> unpack_uint count p = Some (v, q) -> 0 <= v < 2 ^ count.
Proof.
  intros Hcount. unfold unpack_uint.
  destruct (fillBits count _ _ _) as [r |]; [| discriminate].
  intros [= <- _]. rewrite Z.land_ones by assumption.
  apply Z.mod_pos_bound. now apply Z.pow_pos_nonneg.
Qed.

Lemma unpack_VLANId_range (req : Payload) (vlanData reserved : Z) (vlanEnable : bool) :
  unpack_VLANId req = Some (vlanData, reserved, vlanEnable) ->
  0 <= vlanData < 2 ^ 12 /\ 0 <= reserved < 2 ^ 3.
Proof.
  unfold unpack_VLANId, unpacked.
  destruct (unpack_uint 12 req) as [[v p] |] eqn:Hv; [| discriminate].
  cbn [mbind option_bind].
  destruct (unpack_uint 3 p) as [[r p'] |] eqn:Hr; [| discriminate].
  cbn [mbind option_bind].
  destruct (unpack_bool p') as [[e p''] |]; [| discriminate].
  cbn [mbind option_bind].
  destruct (fullyUnpacked p''); [| discriminate].
  intros [= <- <- _].
  split; [apply (unpack_uint_range 12 req p) | apply (unpack_uint_range 3 p p')];
    (lia || assumption).
Qed.

(** Get LAN loads the cipher suite list once; this changes neither the
    network state nor the log nor the handler's maps, whether the list
    can be read or not. *)
Lemma cipher_init_run (w : World net) :
  exists w1,
    bus w1 = bus w /\ calls w1 = calls w /\ setStatus w1 = setStatus w
    /\ lastDisabledVlan w1 = lastDisabledVlan w
    /\ forall (B : Type) (k : M net B),
         (init ← get_listInit;
          (if negb init
           then try_catch_all (l ← getCipherList; put_cipherList l) (mret tt)
           else mret tt);;
          k) w = k w1.
Proof.
  unfold mbind, M_bind, get_listInit.
  destruct (listInit w) eqn:Hinit; cbn [negb mret M_ret].
  - exists w. repeat split.
  - unfold try_catch_all, getCipherList, mbind, M_bind.
    destruct cipherSuitesFile as [records |]; cbn.
    + exists (snd (put_cipherList (0x00 :: records) w)). repeat split.
    + exists w. repeat split.
Qed.

End Requests.

(** * The VLAN parameter on the modelled network *)

Section SimVLAN.
Context `{!Platform} `{!Header}.
#[local] Abbreviation W := (World Sim.Net).

Lemma resolved_fields (channel : Z) (name : string) (params : ChannelParams)
    (n : Sim.Net) :
  resolved channel name n = Some params ->
  id params = channel /\ ifname params = name /\ service params = Sim.SERVICE.
Proof.
  unfold resolved. destruct (bool_decide _); [discriminate |].
  intros [= <-]. repeat split.
Qed.

Lemma maybeGetChannelParams_named (channel : Z) (params : ChannelParams) (w : W) :
  fst (maybeGetChannelParams channel w) = Ok (Some params) ->
  getChannelName channel <> ""
  /\ resolved channel (getChannelName channel) (bus w) = Some params.
Proof.
  destruct (decide (getChannelName channel = "")) as [Hempty | Hname].
  - unfold maybeGetChannelParams. rewrite bool_decide_eq_true_2 by assumption.
    discriminate.
  - rewrite maybeGetChannelParams_sim by assumption. cbn [fst].
    intros [= Hres]. now split.
Qed.

Lemma channelCall_reconfigureVLAN_sim (channel : Z) (params : ChannelParams) (vlan : Z)
    (s : Snapshot) (w : W) :
  getChannelName channel <> "" ->
  resolved channel (getChannelName channel) (bus w) = Some params ->
  describes params (bus w) ->
  observe (logicalPath params) (bus w) = Some s ->
  0 <= vlan < 2 ^ 16 ->
  (vlan <> 0 -> vlan_path_free (ifname params) vlan (bus w)) ->
  runs_to (channelCall (fun params => reconfigureVLAN params vlan) channel) w
          (with_logicalPath (new_logicalPath params vlan) params)
          (reconfigured params vlan s (bus w)).
Proof.
  intros Hname Hres Hd Hobs Hrange Hfree.
  eapply runs_to_shift.
  - apply (channelCall_sim _ channel params w Hname Hres).
  - repeat split.
  - apply (reconfigureVLAN_sim params vlan s
             (log_call (GetSubTree [INTF_VLAN; INTF_ETHERNET]) w)); assumption.
Qed.

(** Reading the VLAN parameter while the channel sits on its physical
    interface gives the last id stored as disabled. *)
Lemma getLan_VLANId_disabled (ctx_channel channelBits parameter set block : Z)
    (params : ChannelParams) (v : Z) (w : W) :
  let channel := convertCurrentChannelNum channelBits ctx_channel in
  isValidChannel channel = true ->
  enum_cast LanParam_value LanParam.all parameter = Some LanParam.VLANId ->
  getChannelName channel <> "" ->
  resolved channel (getChannelName channel) (bus w) = Some params ->
  ifPath params = logicalPath params ->
  lastDisabledVlan w !! channel = Some v ->
  fst (getLan ctx_channel channelBits 0 false parameter set block w)
  = Ok (ccSuccess, current_revision :: Word.le_split 2 v).
Proof.
  intros channel Hvalid Hparam Hname Hres Hsame Hlast.
  destruct (cipher_init_run w) as (w1 & Hbus & _ & _ & Hmap & Hrun).
  unfold getLan. fold channel. rewrite Hvalid. cbn [negb orb Z.eqb].
  rewrite Hrun, Hparam.
  rewrite <- Hbus in Hres.
  unfold mbind at 1, M_bind at 1.
  rewrite (channelCall_sim _ channel params w1 Hname Hres).
  unfold getVLANProperty. rewrite bool_decide_eq_true_2 by assumption.
  cbn [mret M_ret Z.eqb negb].
  unfold mbind, M_bind, get_lastDisabledVlan_map.
  cbn [lastDisabledVlan log_call]. rewrite Hmap, Hlast. reflexivity.
Qed.

(** Reading the VLAN parameter while the channel sits on a VLAN
    interface gives the id of that interface with the enable flag. *)
Lemma getLan_VLANId_enabled (ctx_channel channelBits parameter set block : Z)
    (params : ChannelParams) (dhcp : DHCPConf.t) (mac : ether_addr) (v : Z) (w : W) :
  let channel := convertCurrentChannelNum channelBits ctx_channel in
  isValidChannel channel = true ->
  enum_cast LanParam_value LanParam.all parameter = Some LanParam.VLANId ->
  getChannelName channel <> "" ->
  resolved channel (getChannelName channel) (bus w) = Some params ->
  ifPath params <> logicalPath params ->
  Sim.find_eth (logicalPath params) (bus w) = Some (dhcp, Some v, mac) ->
  0 < v < 2 ^ 12 ->
  fst (getLan ctx_channel channelBits 0 false parameter set block w)
  = Ok (ccSuccess, current_revision :: Word.le_split 2 (Z.lor v VLAN_ENABLE_FLAG)).
Proof.
  intros channel Hvalid Hparam Hname Hres Hdiff Hfind Hv.
  destruct (cipher_init_run w) as (w1 & Hbus & _ & _ & Hmap & Hrun).
  unfold getLan. fold channel. rewrite Hvalid. cbn [negb orb Z.eqb].
  rewrite Hrun, Hparam.
  rewrite <- Hbus in Hres, Hfind.
  unfold mbind at 1, M_bind at 1.
  rewrite (channelCall_sim _ channel params w1 Hname Hres).
  unfold getVLANProperty. rewrite bool_decide_eq_false_2 by assumption.
  unfold mbind at 1, M_bind at 1. rewrite query_run.
  change (get_VLAN_Id (service params) (logicalPath params)
            (bus (log_call (GetSubTree [INTF_VLAN; INTF_ETHERNET]) w1)))
    with (Sim.VLAN_Id (service params) (logicalPath params) (bus w1)).
  unfold Sim.VLAN_Id. rewrite Hfind. cbn [of_reply].
  assert (Hmask : Z.land v VLAN_VALUE_MASK = v).
  { change VLAN_VALUE_MASK with (Z.ones 12).
    rewrite Z.land_ones by lia. apply Z.mod_small. lia. }
  rewrite Hmask, Z.eqb_refl. cbn [negb mret M_ret].
  assert (Hwrap : Word.wrap 16 v = v).
  { unfold Word.wrap. apply Z.mod_small. lia. }
  rewrite Hwrap.
  assert (Hnz : (v =? 0) = false) by (apply Z.eqb_neq; lia).
  rewrite Hnz. reflexivity.
Qed.

End SimVLAN.

(** * Further properties of the netmask codec *)

Section ByteSwap.

Ltac decide_comparisons :=
  repeat match goal with
    | |- context [?a <=? ?b] =>
        first [ replace (a <=? b) with true by (symmetry; apply Z.leb_le; lia)
              | replace (a <=? b) with false by (symmetry; apply Z.leb_gt; lia) ]
    | |- context [?a <? ?b] =>
        first [ replace (a <? b) with true by (symmetry; apply Z.ltb_lt; lia)
              | replace (a <? b) with false by (symmetry; apply Z.ltb_ge; lia) ]
    end.

Lemma byte_of_testbit (x j n : Z) :
  0 <= j ->
  Z.testbit (Word.byte_of x j) n = (0 <=? n) && (n <? 8) && Z.testbit x (n + 8 * j).
Proof.
  intros Hj. unfold Word.byte_of.
  destruct (Z.leb_spec 0 n) as [Hn | Hn]; [| now rewrite Z.testbit_neg_r by lia].
  rewrite Z.land_spec, Z.shiftr_spec by lia.
  change 255 with (Z.ones 8).
  destruct (Z.ltb_spec n 8).
  - rewrite Z.ones_spec_low by lia. now rewrite andb_true_r.
  - rewrite Z.ones_spec_high by lia. now rewrite andb_false_r.
Qed.

Lemma bswap32_testbit (x i : Z) :
  0 <= i ->
  Z.testbit (Word.bswap32 x) i
  = ((24 <=? i) && (i <? 32) && Z.testbit x (i - 24))
    || ((16 <=? i) && (i <? 24) && Z.testbit x (i - 8))
    || ((8 <=? i) && (i <? 16) && Z.testbit x (i + 8))
    || ((i <? 8) && Z.testbit x (i + 24)).
Proof.
  intros Hi. unfold Word.bswap32.
  rewrite !Z.lor_spec, !Z.shiftl_spec, !byte_of_testbit by lia.
  replace (i - 24 + 8 * 0) with (i - 24) by lia.
  replace (i - 16 + 8 * 1) with (i - 8) by lia.
  replace (i - 8 + 8 * 2) with (i + 8) by lia.
  replace (i + 8 * 3) with (i + 24) by lia.
  destruct (Z.ltb_spec i 8);
    [decide_comparisons; cbn [andb orb]; now rewrite ?orb_false_r |].
  destruct (Z.ltb_spec i 16);
    [decide_comparisons; cbn [andb orb]; now rewrite ?orb_false_r |].
  destruct (Z.ltb_spec i 24);
    [decide_comparisons; cbn [andb orb]; now rewrite ?orb_false_r |].
  destruct (Z.ltb_spec i 32);
    decide_comparisons; cbn [andb orb]; now rewrite ?orb_false_r.
Qed.

Lemma uint32_high_bits (x i : Z) : is_uint32 x -> 32 <= i -> Z.testbit x i = false.
Proof.
  intros [Hlo Hhi] Hi.
  destruct (Z.eq_dec x 0) as [-> | Hne]; [apply Z.testbit_0_l |].
  apply Z.bits_above_log2; [assumption |].
  assert (Z.log2 x < 32) by (apply Z.log2_lt_pow2; lia). lia.
Qed.

(** Reversing the bytes twice gives the word back. *)
Lemma bswap32_involutive (x : Z) : is_uint32 x -> Word.bswap32 (Word.bswap32 x) = x.
Proof.
  intros Hx. apply Z.bits_inj'. intros i Hi.
  rewrite bswap32_testbit by assumption.
  destruct (Z.ltb_spec i 8).
  { decide_comparisons. cbn [andb orb].
    rewrite bswap32_testbit by lia. decide_comparisons. cbn [andb orb].
    rewrite ?orb_false_r, ?andb_true_r. f_equal. lia. }
  destruct (Z.ltb_spec i 16).
  { decide_comparisons. cbn [andb orb].
    rewrite bswap32_testbit by lia. decide_comparisons. cbn [andb orb].
    rewrite ?orb_false_r, ?andb_true_r. f_equal. lia. }
  destruct (Z.ltb_spec i 24).
  { decide_comparisons. cbn [andb orb].
    rewrite bswap32_testbit by lia. decide_comparisons. cbn [andb orb].
    rewrite ?orb_false_r, ?andb_true_r. f_equal. lia. }
  destruct (Z.ltb_spec i 32).
  { decide_comparisons. cbn [andb orb].
    rewrite bswap32_testbit by lia. decide_comparisons. cbn [andb orb].
    rewrite ?orb_false_r, ?andb_true_r. f_equal. lia. }
  decide_comparisons. cbn [andb orb].
  symmetry. now apply uint32_high_bits.
Qed.

End ByteSwap.

Lemma netmask_check_run (x : Z) :
  is_uint32 x ->
  Z.land (Word.not32 x) (Word.add32 (Word.not32 x) 1) = 0 ->
  exists k : nat, (k <= 32)%nat /\ x = mask_of_run (Z.of_nat k).
Proof.
  intros Hx. rewrite (not32_uint32 x Hx).
  unfold Word.add32, Word.wrap, mask_of_run. unfold is_uint32 in Hx.
  destruct (Z.eq_dec x 0) as [-> | Hne].
  - intros _. exists 32%nat. split; [lia | reflexivity].
  - rewrite Z.mod_small by lia. intros Hland.
    apply land_succ_zero in Hland as (k & Hk & Heq); [| lia].
    assert (Hk32 : k <= 32).
    { destruct (Z.le_gt_cases k 32) as [| Hgt]; [assumption | exfalso].
      assert (2 ^ 33 <= 2 ^ k) by (apply Z.pow_le_mono_r; lia). lia. }
    exists (Z.to_nat k). split; [lia |]. rewrite Z2Nat.id by lia. lia.
Qed.

Lemma decodes_back_all : forallb decodes_back (map Z.of_nat (seq 0 33)) = true.
Proof. vm_compute. reflexivity. Qed.

(** X13.  [netmaskToPrefix] never reaches the undefined count of
    trailing zeros of 0: for every netmask it returns a prefix or throws. *)
Theorem netmaskToPrefix_never_undefined (m : in_addr) : netmaskToPrefix m <> Undefined.
Proof.
  unfold netmaskToPrefix.
  destruct (negb _); [discriminate |].
  pose proof (bswap32_range (s_addr m)) as [Hlo _].
  unfold Word.be32toh.
  destruct (Word.bswap32 (s_addr m)) as [| q | q]; cbn; [discriminate .. | lia].
Qed.

(** X14.  Decoding then encoding: a netmask (a 32-bit word) that
    [netmaskToPrefix] accepts has a prefix between 0 and 32, and
    [prefixToNetmask] of that prefix is the netmask again. *)
Theorem netmask_prefix_round_trip (m : in_addr) (p : Z) :
  is_uint32 (s_addr m) ->
  netmaskToPrefix m = Ok p ->
  0 <= p <= 32 /\ prefixToNetmask p = Ok m.
Proof.
  intros Hm Hdec.
  assert (Hcheck : Z.land (Word.not32 (Word.be32toh (s_addr m)))
                          (Word.add32 (Word.not32 (Word.be32toh (s_addr m))) 1) = 0).
  { unfold netmaskToPrefix in Hdec.
    destruct (Z.eqb_spec
                (Z.land (Word.not32 (Word.be32toh (s_addr m)))
                        (Word.add32 (Word.not32 (Word.be32toh (s_addr m))) 1)) 0)
      as [Hzero | Hnz]; [exact Hzero | discriminate]. }
  apply netmask_check_run in Hcheck as (k & Hk & Hrun); [| apply bswap32_range].
  assert (Hword : s_addr m = Word.htobe32 (mask_of_run (Z.of_nat k))).
  { rewrite <- Hrun. unfold Word.htobe32, Word.be32toh.
    now rewrite bswap32_involutive. }
  pose proof decodes_back_all as Hall. rewrite forallb_forall in Hall.
  specialize (Hall (Z.of_nat k)).
  assert (Hin : In (Z.of_nat k) (map Z.of_nat (seq 0 33))).
  { apply in_map, in_seq. lia. }
  specialize (Hall Hin). unfold decodes_back in Hall.
  destruct m as [s]. cbn [s_addr] in *. subst s.
  rewrite Hdec in Hall.
  apply andb_true_iff in Hall as [Hrange Hback].
  apply andb_true_iff in Hrange as [Hlo Hhi].
  apply Z.leb_le in Hlo, Hhi. split; [lia |].
  destruct (prefixToNetmask p) as [[s'] | |]; try discriminate.
  cbn [s_addr] in Hback. apply Z.eqb_eq in Hback. now subst s'.
Qed.

(** * Further properties of the handler, for any bus backend *)

Section HandlerProperties.
Context {net : Type} `{!Bus net} `{!Platform} `{!Header}.

(** X1.  Set LAN checks the reserved bits and the channel before it
    looks at the parameter: a request with nonzero reserved bits, or for
    a channel that is not valid, is answered invalid-field whatever the
    parameter and the data are, and nothing at all happens: no bus call,
    no change of state. *)
Theorem setLan_invalid_request_untouched (ctx_channel channelBits reserved1 parameter : Z)
    (req : Payload) (w : World net) :
  reserved1 <> 0
  \/ isValidChannel (convertCurrentChannelNum channelBits ctx_channel) = false ->
  setLan ctx_channel channelBits reserved1 parameter req w = (Ok ccInvalidFieldRequest, w).
Proof.
  intros Hbad. unfold setLan.
  destruct Hbad as [Hres | Hch].
  - apply Z.eqb_neq in Hres. now rewrite Hres.
  - rewrite Hch. now rewrite orb_true_r.
Qed.

(** X2.  Get LAN with the revision-only flag answers with the parameter
    revision 0x11 alone and does nothing else, also for a channel that is
    not valid and with reserved bits set; without the flag such a request
    is answered invalid-field, before the cipher suite list is loaded. *)
Theorem getLan_entry (ctx_channel channelBits reserved parameter set block : Z)
    (w : World net) :
  getLan ctx_channel channelBits reserved true parameter set block w
  = (Ok (ccSuccess, [0x11]), w)
  /\ (reserved <> 0
      \/ isValidChannel (convertCurrentChannelNum channelBits ctx_channel) = false ->
      getLan ctx_channel channelBits reserved false parameter set block w
      = (Ok (ccInvalidFieldRequest, []), w)).
Proof.
  split; [reflexivity |].
  intros Hbad. unfold getLan.
  destruct Hbad as [Hres | Hch].
  - apply Z.eqb_neq in Hres. now rewrite Hres.
  - rewrite Hch. now rewrite orb_true_r.
Qed.

(** X3.  The parameters that can only be read (AuthSupport, AuthEnables,
    CiphersuiteSupport, CiphersuiteEntries, IPFamilySupport, IPv6Status
    and IPv6DynamicAddresses) answer a write with parameter-read-only,
    whatever the data, and nothing happens. *)
Theorem setLan_read_only_parameters (ctx_channel channelBits parameter : Z)
    (req : Payload) (lanParam : LanParam.t) (w : World net) :
  isValidChannel (convertCurrentChannelNum channelBits ctx_channel) = true ->
  enum_cast LanParam_value LanParam.all parameter = Some lanParam ->
  In lanParam [LanParam.AuthSupport; LanParam.AuthEnables; LanParam.CiphersuiteSupport;
               LanParam.CiphersuiteEntries; LanParam.IPFamilySupport;
               LanParam.IPv6Status; LanParam.IPv6DynamicAddresses] ->
  setLan ctx_channel channelBits 0 parameter req w = (Ok ccParamReadOnly, w).
Proof.
  intros Hvalid Hparam Hin. unfold setLan. rewrite Hvalid, Hparam.
  cbn [negb orb Z.eqb].
  cbn [In] in Hin.
  destruct Hin as [<- | [<- | [<- | [<- | [<- | [<- | [<- | []]]]]]]]; reflexivity.
Qed.

(** X4.  A parameter number that is none of the LAN parameters is
    answered parameter-not-supported by Set LAN and by Get LAN alike,
    inside the OEM range (where the default OEM handlers answer) and
    outside of it; Set LAN changes nothing and Get LAN returns no
    data. *)
Theorem unknown_parameter_not_supported (ctx_channel channelBits parameter set block : Z)
    (req : Payload) (w : World net) :
  isValidChannel (convertCurrentChannelNum channelBits ctx_channel) = true ->
  enum_cast LanParam_value LanParam.all parameter = None ->
  setLan ctx_channel channelBits 0 parameter req w = (Ok ccParamNotSupported, w)
  /\ fst (getLan ctx_channel channelBits 0 false parameter set block w)
     = Ok (ccParamNotSupported, []).
Proof.
  intros Hvalid Hparam. split.
  - unfold setLan. rewrite Hvalid, Hparam. cbn [negb orb Z.eqb].
    unfold setLanOem. now destruct (_ && _).
  - destruct (cipher_init_run w) as (w1 & _ & _ & _ & _ & Hrun).
    unfold getLan. rewrite Hvalid. cbn [negb orb Z.eqb].
    rewrite Hrun, Hparam. unfold getLanOem. now destruct (_ && _).
Qed.

Lemma all_zero_false (l : list Z) :
  all_zero l = false <-> exists b, In b l /\ b <> 0.
Proof.
  unfold all_zero. induction l as [| b l IH]; cbn [forallb In].
  - split; [discriminate | intros (b & [] & _)].
  - destruct (Z.eqb_spec b 0) as [-> | Hb]; cbn [andb].
    + split.
      * intros Hl. apply IH in Hl as (c & Hin & Hc). exists c. auto.
      * intros (c & [<- | Hin] & Hc); [congruence |]. apply IH. now exists c.
    + split; [intros _; exists b; auto | reflexivity].
Qed.

(** X5.  [isValidMACAddress] accepts exactly the unicast addresses that
    are not all zero: some octet is nonzero and the first octet is
    even. *)
Theorem isValidMACAddress_spec (mac : ether_addr) :
  isValidMACAddress mac = true
  <-> (exists b, In b (ether_addr_octet mac) /\ b <> 0)
      /\ Z.even (nth 0 (ether_addr_octet mac) 0) = true.
Proof.
  unfold isValidMACAddress, all_zero.
  set (first := nth 0 (ether_addr_octet mac) 0).
  assert (Hland : Z.land first 1 = if Z.even first then 0 else 1).
  { change 1 with (Z.ones 1) at 1. rewrite Z.land_ones by lia.
    change (2 ^ 1) with 2. rewrite Zmod_even. reflexivity. }
  pose proof (all_zero_false (ether_addr_octet mac)) as Hzero.
  unfold all_zero in Hzero.
  destruct (forallb _ _).
  - split; [discriminate |]. intros [Hex _]. apply Hzero in Hex. discriminate.
  - rewrite Hland. destruct (Z.even first); cbn [Z.eqb negb].
    + split; [| reflexivity]. intros _. split; [now apply Hzero | reflexivity].
    + split; [discriminate | intros [_ Hev]; discriminate].
Qed.

(** X6.  A MAC write with an address that [isValidMACAddress] refuses
    (all zero, or multicast) is answered invalid-field and nothing is
    sent to the network service. *)
Theorem setLan_MAC_invalid_untouched (ctx_channel channelBits parameter : Z)
    (req : Payload) (bytes : list Z) (w : World net) :
  isValidChannel (convertCurrentChannelNum channelBits ctx_channel) = true ->
  enum_cast LanParam_value LanParam.all parameter = Some LanParam.MAC ->
  unpacked (unpack_array 6 req) = Some bytes ->
  isValidMACAddress (copyIntoMAC bytes) = false ->
  setLan ctx_channel channelBits 0 parameter req w = (Ok ccInvalidFieldRequest, w).
Proof.
  intros Hvalid Hparam Hreq Hmac. unfold setLan.
  rewrite Hvalid, Hparam, Hreq. cbn [negb orb Z.eqb]. cbv zeta.
  now rewrite Hmac.
Qed.

(** X7.  [getVLANProperty]: a channel whose logical interface is the
    physical one has VLAN 0, and the service is not asked; otherwise the
    Id property is read, an id with bits above the 12-bit mask is an
    internal failure, and any other id is returned as it is. *)
Theorem getVLANProperty_cases (params : ChannelParams) (w : World net) :
  (ifPath params = logicalPath params -> getVLANProperty params w = (Ok 0, w))
  /\ (forall vlan,
        ifPath params <> logicalPath params ->
        get_VLAN_Id (service params) (logicalPath params) (bus w) = Reply vlan ->
        let w' := log_call (GetVLANId (service params) (logicalPath params)) w in
        (0 <= vlan <= VLAN_VALUE_MASK -> getVLANProperty params w = (Ok vlan, w'))
        /\ (VLAN_VALUE_MASK < vlan ->
            getVLANProperty params w = (Throw InternalFailure, w'))).
Proof.
  split.
  - intros Hsame. unfold getVLANProperty.
    now rewrite bool_decide_eq_true_2 by assumption.
  - intros vlan Hdiff Hget w'. unfold getVLANProperty.
    rewrite bool_decide_eq_false_2 by assumption.
    unfold mbind, M_bind. rewrite query_run, Hget. cbn [of_reply]. fold w'.
    change VLAN_VALUE_MASK with (Z.ones 12). rewrite Z.land_ones by lia.
    change (Z.ones 12) with (2 ^ 12 - 1).
    split.
    + intros Hrange. rewrite Z.mod_small by lia. rewrite Z.eqb_refl.
      cbn [negb mret M_ret]. unfold Word.wrap. rewrite Z.mod_small by lia. reflexivity.
    + intros Hbig.
      assert (Hne : (vlan mod 2 ^ 12 =? vlan) = false).
      { apply Z.eqb_neq. pose proof (Z.mod_pos_bound vlan (2 ^ 12)). lia. }
      rewrite Hne. reflexivity.
Qed.

(** X8.  [reconfigureIfAddr4] with neither an address on the interface
    nor a new address fails with the internal failure, having done
    nothing but enumerate the addresses. *)
Theorem reconfigureIfAddr4_nothing_to_configure (params : ChannelParams)
    (ips : list (string * IPProps)) (prefix : option Z) (w : World net) :
  get_IP_objects (service params) (logicalPath params) (bus w) = Reply ips ->
  findIfAddr AF_INET 0 originsV4 ips = None ->
  reconfigureIfAddr4 params None prefix w
  = (Throw InternalFailure,
     log_call (GetAllObjects (service params) (logicalPath params) INTF_IP) w).
Proof.
  intros Hips Hnone.
  unfold reconfigureIfAddr4, getIfAddr4, getIfAddr, ObjectLookupCache_IP.
  unfold mbind, M_bind. rewrite query_run, Hips. cbn [of_reply mret M_ret].
  rewrite Hnone. reflexivity.
Qed.

(** X9.  [reconfigureIfAddr4] on an interface that has an IPv4 address
    replaces it: it enumerates the addresses, deletes the object of the
    old address and creates one address, with the new address or else the
    old one, and the new prefix or else the old one. *)
Theorem reconfigureIfAddr4_replaces (params : ChannelParams)
    (ips : list (string * IPProps)) (prior : IfAddr AF_INET) (address : option in_addr)
    (prefix : option Z) (n1 n2 : net) (w : World net) :
  let newAddress := default (@ifaddr_address AF_INET _ prior) address in
  let newPrefix := default (ifaddr_prefix prior) prefix in
  get_IP_objects (service params) (logicalPath params) (bus w) = Reply ips ->
  findIfAddr AF_INET 0 originsV4 ips = Some prior ->
  ifaddr_path prior <> "" ->
  call_Delete (service params) (ifaddr_path prior) (bus w) = (Reply tt, n1) ->
  call_IP (service params) (logicalPath params) IP.IPv4 (Addr4 newAddress) newPrefix n1
  = (Reply tt, n2) ->
  exists w',
    reconfigureIfAddr4 params address prefix w = (Ok tt, w')
    /\ bus w' = n2
    /\ calls w'
       = calls w
         ++ [GetAllObjects (service params) (logicalPath params) INTF_IP;
             CallDelete (service params) (ifaddr_path prior);
             CallIP (service params) (logicalPath params) IP.IPv4 (Addr4 newAddress)
                    newPrefix].
Proof.
  intros newAddress newPrefix Hips Hfind Hpath Hdel Hcreate.
  unfold reconfigureIfAddr4, getIfAddr4, getIfAddr, ObjectLookupCache_IP.
  unfold mbind, M_bind. rewrite query_run, Hips.
  cbn [of_reply mret M_ret]. rewrite Hfind.
  rewrite (bool_decide_eq_true_2 (is_Some (Some prior))) by eauto.
  cbn [negb andb mret M_ret].
  unfold deleteObjectIfExists. rewrite bool_decide_eq_false_2 by assumption.
  unfold try_catch_SdBusError, command.
  cbn [bus log_call]. rewrite Hdel. cbn [of_reply deref mret M_ret].
  unfold createIfAddr, command. cbn [bus with_bus].
  change (@addrToString AF_INET _ (default (ifaddr_address prior) address))
    with (Addr4 newAddress).
  change (protocol AF_INET) with IP.IPv4.
  fold newPrefix. rewrite Hcreate.
  eexists. split; [reflexivity |]. split; [reflexivity |].
  cbn [calls with_bus log_call]. now rewrite <- !app_assoc.
Qed.

(** X10.  [reconfigureGatewayMAC] without a gateway fails with the
    internal failure; it has read the gateway property and has neither
    looked up nor created a neighbour. *)
Theorem reconfigureGatewayMAC_without_gateway (family : Family) `{!AddrFamily family}
    (params : ChannelParams) (mac : ether_addr) (w : World net) :
  get_Gateway (service params) (ifname params) (protocol family) (bus w) = Reply None ->
  reconfigureGatewayMAC family params mac w
  = (Throw InternalFailure,
     log_call (GetGateway (service params) (ifname params) (protocol family)) w).
Proof.
  intros Hgw. unfold reconfigureGatewayMAC, getGatewayProperty.
  unfold mbind, M_bind. rewrite query_run, Hgw. reflexivity.
Qed.

(** X11.  [deconfigureIfAddr6] on a slot that holds no static address
    returns without deleting anything: the enumeration is its only
    call. *)
Theorem deconfigureIfAddr6_empty_slot (params : ChannelParams) (idx : Z)
    (ips : list (string * IPProps)) (w : World net) :
  get_IP_objects (service params) (logicalPath params) (bus w) = Reply ips ->
  findIfAddr AF_INET6 idx originsV6Static ips = None ->
  deconfigureIfAddr6 params idx w
  = (Ok tt, log_call (GetAllObjects (service params) (logicalPath params) INTF_IP) w).
Proof.
  intros Hips Hnone. unfold deconfigureIfAddr6, getIfAddr, ObjectLookupCache_IP.
  unfold mbind, M_bind. rewrite query_run, Hips. cbn [of_reply mret M_ret].
  now rewrite Hnone.
Qed.

(** X12.  A channel without a name has no parameters:
    [maybeGetChannelParams] returns nothing and [getChannelParams] fails
    with the internal failure, and neither asks the object mapper. *)
Theorem unnamed_channel_has_no_params (channel : Z) (w : World net) :
  getChannelName channel = "" ->
  maybeGetChannelParams channel w = (Ok None, w)
  /\ getChannelParams channel w = (Throw InternalFailure, w).
Proof.
  intros Hname.
  assert (Hmaybe : maybeGetChannelParams channel w = (Ok None, w)).
  { unfold maybeGetChannelParams. now rewrite bool_decide_eq_true_2 by assumption. }
  split; [exact Hmaybe |].
  unfold getChannelParams. now rewrite (bind_ok _ _ _ _ _ Hmaybe).
Qed.

End HandlerProperties.

(** * Get LAN only reads *)

Section ReadOnly.
Context {net : Type} `{!Bus net} `{!Platform} `{!Header}.

Lemma keeps_bus_ret {A : Type} (a : A) : keeps_bus (mret a : M net A).
Proof. intros w. reflexivity. Qed.

Lemma keeps_bus_bind {A B : Type} (m : M net A) (k : A -> M net B) :
  keeps_bus m -> (forall a, keeps_bus (k a)) -> keeps_bus (m ≫= k).
Proof.
  intros Hm Hk w. unfold mbind, M_bind. specialize (Hm w).
  destruct (m w) as [[a | e |] w1]; cbn [snd] in *; [| exact Hm ..].
  now rewrite (Hk a w1).
Qed.

Lemma keeps_bus_throw {A : Type} (e : exn) : keeps_bus (throw e : M net A).
Proof. intros w. reflexivity. Qed.

Lemma keeps_bus_lift {A : Type} (o : Outcome A) : keeps_bus (lift o : M net A).
Proof. intros w. reflexivity. Qed.

Lemma keeps_bus_deref {A : Type} (o : option A) : keeps_bus (deref o : M net A).
Proof. intros w. now destruct o. Qed.

Lemma keeps_bus_query {A : Type} (c : BusCall) (f : net -> BusResult A) :
  keeps_bus (query c f).
Proof. intros w. reflexivity. Qed.

Lemma keeps_bus_try_catch_all {A : Type} (m h : M net A) :
  keeps_bus m -> keeps_bus h -> keeps_bus (try_catch_all m h).
Proof.
  intros Hm Hh w. unfold try_catch_all. specialize (Hm w).
  destruct (m w) as [[a | e |] w1]; cbn [snd] in *; try exact Hm.
  now rewrite (Hh w1).
Qed.

Lemma keeps_bus_put_cipherList (l : list Z) : keeps_bus (put_cipherList l : M net unit).
Proof. intros w. reflexivity. Qed.

Lemma keeps_bus_put_lastDisabledVlan (channel vlan : Z) :
  keeps_bus (put_lastDisabledVlan channel vlan : M net unit).
Proof. intros w. reflexivity. Qed.

Lemma keeps_bus_get_listInit : keeps_bus (get_listInit : M net bool).
Proof. intros w. reflexivity. Qed.

Lemma keeps_bus_get_cipherList : keeps_bus (get_cipherList : M net (list Z)).
Proof. intros w. reflexivity. Qed.

Lemma keeps_bus_get_setStatus_map :
  keeps_bus (get_setStatus_map : M net (gmap Z SetStatus.t)).
Proof. intros w. reflexivity. Qed.

Lemma keeps_bus_get_lastDisabledVlan_map :
  keeps_bus (get_lastDisabledVlan_map : M net (gmap Z Z)).
Proof. intros w. reflexivity. Qed.

Ltac keeps_step :=
  first
    [ apply keeps_bus_ret | apply keeps_bus_throw | apply keeps_bus_lift
    | apply keeps_bus_deref | apply keeps_bus_query
    | apply keeps_bus_put_cipherList | apply keeps_bus_put_lastDisabledVlan
    | apply keeps_bus_get_listInit | apply keeps_bus_get_cipherList
    | apply keeps_bus_get_setStatus_map | apply keeps_bus_get_lastDisabledVlan_map
    | apply keeps_bus_try_catch_all
    | apply keeps_bus_bind; [| intros ?]
    | match goal with
      | |- keeps_bus (if ?b then _ else _) => destruct b
      | |- keeps_bus (match ?x with _ => _ end) => destruct x
      | |- keeps_bus (let '(_, _) := ?x in _) => destruct x
      end ].

Lemma keeps_bus_maybeGetChannelParams (channel : Z) :
  keeps_bus (maybeGetChannelParams channel).
Proof. unfold maybeGetChannelParams. repeat keeps_step. Qed.

Lemma keeps_bus_channelCall {A : Type} (func : ChannelParams -> M net A) (channel : Z) :
  (forall params, keeps_bus (func params)) -> keeps_bus (channelCall func channel).
Proof.
  intros Hfunc. unfold channelCall. apply keeps_bus_bind.
  - apply keeps_bus_maybeGetChannelParams.
  - intros [params |]; [apply Hfunc | apply keeps_bus_throw].
Qed.

Lemma keeps_bus_getIfAddr (family : Family) `{!AddrFamily family} (params : ChannelParams)
    (idx : Z) (origins : list IP.AddressOrigin) :
  keeps_bus (getIfAddr family params idx origins).
Proof. unfold getIfAddr, ObjectLookupCache_IP. repeat keeps_step. Qed.

Lemma keeps_bus_getGatewayProperty (family : Family) `{!AddrFamily family}
    (params : ChannelParams) :
  keeps_bus (getGatewayProperty family params).
Proof. unfold getGatewayProperty, elog_InternalFailure. repeat keeps_step. Qed.

Lemma keeps_bus_getGatewayNeighbor (family : Family) `{!AddrFamily family}
    (params : ChannelParams) :
  keeps_bus (getGatewayNeighbor family params).
Proof.
  unfold getGatewayNeighbor, findGatewayNeighbor, ObjectLookupCache_Neighbor.
  apply keeps_bus_bind; [apply keeps_bus_query | intros neighbors].
  apply keeps_bus_bind; [apply keeps_bus_getGatewayProperty | intros gateway].
  repeat keeps_step.
Qed.

Lemma keeps_bus_getVLANProperty (params : ChannelParams) :
  keeps_bus (getVLANProperty params).
Proof. unfold getVLANProperty, elog_InternalFailure. repeat keeps_step. Qed.

Lemma keeps_bus_getLanIPv6Address (channel set : Z) (origins : list IP.AddressOrigin) :
  keeps_bus (getLanIPv6Address channel set origins).
Proof.
  unfold getLanIPv6Address. cbv zeta.
  apply keeps_bus_bind.
  - apply keeps_bus_channelCall. intros params. apply keeps_bus_getIfAddr.
  - intros [a |]; [| apply keeps_bus_ret].
    unfold originToSourceType, elog_InternalFailure. repeat keeps_step.
Qed.

(** X15.  Get LAN never changes the state of the network service,
    whatever the request is and however it ends: every bus call it makes
    is a query. *)
Theorem getLan_keeps_network_state (ctx_channel channelBits reserved : Z) (revOnly : bool)
    (parameter set block : Z) (w : World net) :
  bus (snd (getLan ctx_channel channelBits reserved revOnly parameter set block w))
  = bus w.
Proof.
  revert w. change (keeps_bus (getLan ctx_channel channelBits reserved revOnly
                                     parameter set block)).
  unfold getLan. cbv zeta.
  destruct revOnly; [apply keeps_bus_ret |].
  destruct (_ || _); [apply keeps_bus_ret |].
  apply keeps_bus_bind; [apply keeps_bus_get_listInit | intros init].
  apply keeps_bus_bind.
  { destruct (negb init); [| apply keeps_bus_ret].
    unfold getCipherList, elog_InternalFailure. repeat keeps_step. }
  intros _.
  destruct (enum_cast LanParam_value LanParam.all parameter) as [[] |];
    unfold getLanOem, getIfAddr4, getDHCPProperty, getMACProperty;
    repeat first
      [ apply keeps_bus_channelCall; intros ?
      | apply keeps_bus_getIfAddr | apply keeps_bus_getGatewayProperty
      | apply keeps_bus_getGatewayNeighbor | apply keeps_bus_getVLANProperty
      | apply keeps_bus_getLanIPv6Address
      | keeps_step ].
Qed.

End ReadOnly.

(** * Writes and what a read shows afterwards, for any bus backend *)

Section WriteRead.
Context {net : Type} `{!Bus net} `{!Platform} `{!Header}.

Lemma enum_cast_value {E : Type} (value : E -> Z) (all : list E) (z : Z) (e : E) :
  enum_cast value all z = Some e -> value e = z.
Proof.
  unfold enum_cast. intros Hfind. apply find_some in Hfind as [_ Heq].
  now apply Z.eqb_eq.
Qed.

Lemma unpack_SetStatus_range (req : Payload) (flag rsvd : Z) :
  unpack_SetStatus req = Some (flag, rsvd) -> 0 <= flag < 2 ^ 2.
Proof.
  unfold unpack_SetStatus, unpacked.
  destruct (unpack_uint 2 req) as [[v p] |] eqn:Hv; [| discriminate].
  cbn [mbind option_bind].
  destruct (unpack_uint 6 p) as [[r p'] |]; [| discriminate].
  cbn [mbind option_bind].
  destruct (fullyUnpacked p'); [| discriminate].
  intros [= <- _]. apply (unpack_uint_range 2 req p); [lia | assumption].
Qed.

Lemma pack_two_bits (v : Z) : 0 <= v < 2 ^ 2 -> pack_bits [(2, v); (6, 0)] = [v].
Proof.
  intros Hv. unfold pack_bits. cbn [pack_fields].
  change ((2 + (6 + 0)) / 8) with 1. change (Z.to_nat 1) with 1%nat.
  cbn [Word.le_split]. f_equal.
  change (Z.shiftl (Z.lor (Z.land 0 (Z.ones 6)) (Z.shiftl 0 6)) 2) with 0.
  rewrite Z.lor_0_r.
  rewrite Z.land_ones by lia. rewrite Z.mod_small by lia.
  change 255 with (Z.ones 8). rewrite Z.land_ones by lia.
  apply Z.mod_small. lia.
Qed.

(** X16.  A SetStatus write that succeeds with Complete or InProgress is
    what a SetStatus read of the channel returns afterwards: the data
    byte of the response is the flag that was written. *)
Theorem SetStatus_write_then_read (ctx_channel channelBits parameter : Z) (req : Payload)
    (flag : Z) (status : SetStatus.t) (set block : Z) (w : World net) :
  let r := setLan ctx_channel channelBits 0 parameter req w in
  isValidChannel (convertCurrentChannelNum channelBits ctx_channel) = true ->
  enum_cast LanParam_value LanParam.all parameter = Some LanParam.SetStatus ->
  unpack_SetStatus req = Some (flag, 0) ->
  enum_cast SetStatus_value SetStatus.all flag = Some status ->
  status <> SetStatus.Commit ->
  fst r = Ok ccSuccess ->
  fst (getLan ctx_channel channelBits 0 false parameter set block (snd r))
  = Ok (ccSuccess, [0x11; flag]).
Proof.
  intros r Hvalid Hparam Hreq Hstatus Hcommit Hok.
  set (channel := convertCurrentChannelNum channelBits ctx_channel) in *.
  pose proof (unpack_SetStatus_range req flag 0 Hreq) as Hflag.
  pose proof (enum_cast_value _ _ _ _ Hstatus) as Hvalue.
  assert (Hstored : setStatus (snd r) !! channel = Some status).
  { subst r.
    rewrite (setLan_SetStatus ctx_channel channelBits parameter req flag w
               Hvalid Hparam Hreq) in Hok |- *.
    fold channel in Hok |- *. rewrite Hstatus in Hok |- *.
    destruct (getSetStatus_spec channel w) as (w1 & Hget & _).
    destruct status; [| | congruence].
    - rewrite (bind_ok _ _ _ _ _ Hget). cbn. apply lookup_insert_eq.
    - rewrite (bind_ok _ _ _ _ _ Hget) in Hok |- *.
      destruct (bool_decide _); [discriminate |].
      cbn. apply lookup_insert_eq. }
  destruct (cipher_init_run (snd r)) as (w1 & _ & _ & Hmap & _ & Hrun).
  unfold getLan. fold channel. rewrite Hvalid. cbn [negb orb Z.eqb].
  rewrite Hrun, Hparam.
  unfold mbind, M_bind, get_setStatus_map. cbn [mret M_ret fst].
  rewrite Hmap, Hstored.
  change (default SetStatus.Complete (Some status)) with status. rewrite Hvalue.
  now rewrite pack_two_bits.
Qed.

(** X17.  A SubnetMask write whose four bytes are not a netmask (the
    1-bits are not a left-aligned run) ends in the internal failure
    thrown by [netmaskToPrefix]; no completion code is returned and the
    network state is not changed. *)
Theorem setLan_SubnetMask_invalid_netmask (ctx_channel channelBits parameter : Z)
    (req : Payload) (bytes : list Z) (dhcp : DHCPConf.t) (w : World net) :
  let channel := convertCurrentChannelNum channelBits ctx_channel in
  let r := setLan ctx_channel channelBits 0 parameter req w in
  isValidChannel channel = true ->
  enum_cast LanParam_value LanParam.all parameter = Some LanParam.SubnetMask ->
  fst (channelCall getDHCPProperty channel w) = Ok dhcp ->
  dhcp = DHCPConf.v6 \/ dhcp = DHCPConf.none ->
  unpacked (unpack_array 4 req) = Some bytes ->
  ~ left_aligned_ones (Word.be32toh (s_addr (copyInto4 bytes))) ->
  fst r = Throw InternalFailure /\ only_logged w (snd r).
Proof.
  intros channel r Hvalid Hparam Hdhcp Hstatic Hreq Hbad.
  pose proof (channelCall_getDHCPProperty_only_logged channel w) as Hframe.
  assert (Hact : dhcpv4_active dhcp = false).
  { unfold dhcpv4_active. destruct Hstatic as [-> | ->]; reflexivity. }
  subst r. unfold setLan. fold channel. rewrite Hvalid, Hparam.
  cbn [negb orb Z.eqb].
  destruct (channelCall getDHCPProperty channel w) as [o w1] eqn:Hcall.
  cbn [fst snd] in Hdhcp, Hframe. subst o.
  rewrite (bind_ok _ _ _ _ _ Hcall), Hact, Hreq. cbv zeta.
  unfold mbind, M_bind, lift.
  rewrite (netmaskToPrefix_rejects _ Hbad). split; [reflexivity | exact Hframe].
Qed.

(** X18.  [setDHCPv6Property] outside its default mode writes the
    requested combined mode as it is, whatever the current mode: this is
    how a channel's DHCP mode is cleared and restored. *)
Theorem setDHCPv6Property_sets_any_value (params : ChannelParams)
    (current requested : DHCPConf.t) (w : World net) :
  get_DHCPEnabled (service params) (logicalPath params) (bus w) = Reply current ->
  last_DHCPEnabled_written (calls (snd (setDHCPv6Property params requested false w)))
  = Some requested.
Proof.
  intros Hget. rewrite (setDHCPv6Property_verbatim params current requested w Hget).
  rewrite command_calls. apply last_DHCPEnabled_written_snoc.
Qed.

End WriteRead.

(** * Further properties on the modelled network *)

Section SimProperties.
Context `{!Platform} `{!Header}.
#[local] Abbreviation W := (World Sim.Net).


Lemma in_set_dhcp_at (p : string) (d : DHCPConf.t) (n : Sim.Net) (o' : Sim.Obj) :
  In o' (Sim.objs (set_dhcp_at p d n)) ->
  exists o, In o (Sim.objs n) /\ Sim.path o' = Sim.path o
            /\ Sim.deletable (Sim.body o') = Sim.deletable (Sim.body o).
Proof.
  unfold set_dhcp_at. cbn [Sim.objs Sim.with_objs]. intros Hin.
  apply in_map_iff in Hin as (o & <- & Hin). exists o. split; [exact Hin |].
  destruct (eth_at p o); [| now split].
  cbn [Sim.path Sim.body]. split; [reflexivity |].
  now destruct (Sim.body o) as [d0 [v |] m | |].
Qed.

(** X20.  [deconfigureChannel] clears the channel.  Afterwards the
    logical path is the physical path; no object that can be deleted and
    whose path holds the interface name is left; the physical interface
    has the DHCP mode none; and the objects whose path does not hold the
    name are all still there. *)
Theorem deconfigureChannel_clears (params : ChannelParams) (w : W) :
  describes params (bus w) ->
  exists w',
    deconfigureChannel params w = (Ok (with_logicalPath (ifPath params) params), w')
    /\ (forall o, In o (Sim.objs (bus w')) ->
                  string_contains (Sim.path o) (ifname params) = true ->
                  Sim.deletable (Sim.body o) = false)
    /\ (exists mac, Sim.find_eth (ifPath params) (bus w')
                    = Some (DHCPConf.none, None, mac))
    /\ (forall o, In o (Sim.objs (bus w)) ->
                  string_contains (Sim.path o) (ifname params) = false ->
                  In o (Sim.objs (bus w'))).
Proof.
  intros Hd. pose proof Hd as (Hname & Hif & (d0 & m0 & Hphys) & _).
  destruct (deconfigureChannel_sim params w Hd) as (w' & Hrun & Hbus & _).
  exists w'. split; [exact Hrun |]. rewrite Hbus.
  refine (conj _ (conj _ _)).
  - intros o' Hin Hc.
    apply in_set_dhcp_at in Hin as (o & Hin & Hpath & Hdel).
    cbn [Sim.objs Sim.with_objs] in Hin. unfold kept in Hin.
    apply filter_In in Hin as [_ Hkeep]. unfold doomed in Hkeep.
    rewrite Hdel. rewrite Hpath in Hc. rewrite Hc, andb_true_r in Hkeep.
    now destruct (Sim.deletable (Sim.body o)).
  - exists m0. apply (find_eth_set_dhcp_at_same _ _ d0).
    now apply find_eth_kept.
  - intros o Hin Hc. unfold set_dhcp_at. cbn [Sim.objs Sim.with_objs].
    apply in_map_iff. exists o. split.
    + destruct (eth_at (ifPath params) o) eqn:Hat; [| reflexivity].
      exfalso. unfold eth_at, Sim.at_path in Hat.
      apply andb_true_iff in Hat as [Hp _]. apply bool_decide_eq_true in Hp.
      rewrite Hp, Hif in Hc. discriminate.
    + unfold kept. apply filter_In. split; [exact Hin |].
      unfold doomed. rewrite Hc. now rewrite andb_false_r.
Qed.

Lemma resolved_set_dhcp_at (channel : Z) (name p : string) (d : DHCPConf.t)
    (n : Sim.Net) :
  resolved channel name (set_dhcp_at p d n) = resolved channel name n.
Proof.
  unfold resolved.
  now rewrite !first_path_set_dhcp_at by (apply is_phys_set_dhcp || apply is_vlan_set_dhcp).
Qed.

Lemma setDHCPv4Property_sim (params : ChannelParams) (requested current : DHCPConf.t)
    (vlan : option Z) (mac : ether_addr) (w : W) :
  Sim.find_eth (logicalPath params) (bus w) = Some (current, vlan, mac) ->
  exists next,
    runs_to (setDHCPv4Property params requested) w tt
            (set_dhcp_at (logicalPath params) next (bus w))
    /\ (requested = DHCPConf.v4 -> dhcpv4_active next = true)
    /\ (requested = DHCPConf.none -> dhcpv4_active next = false).
Proof.
  intros Hfind. unfold setDHCPv4Property.
  eexists. split.
  - eapply runs_to_bind; [apply (getDHCPProperty_sim _ _ _ _ _ Hfind) |].
    intros w1 Hb1 _. apply runs_to_command.
    change (set_DHCPEnabled (service params) (logicalPath params) ?d (bus w1))
      with (Sim.update_eth (logicalPath params) (Sim.set_dhcp d) (bus w1)).
    rewrite Hb1. apply update_eth_set_dhcp. eauto.
  - split; intros ->; now destruct current.
Qed.

(** X21.  An IP source write is what an IP source read shows
    afterwards.  On a channel that resolves to an interface of the
    network, writing DHCP succeeds and a read then reports DHCP; writing
    Static (or Unspecified) succeeds and a read then reports Static;
    whatever the combined DHCP mode was before. *)
Theorem IPSrc_write_then_read (ctx_channel channelBits parameter : Z) (req : Payload)
    (flag : Z) (src : IPSrc.t) (params : ChannelParams) (current : DHCPConf.t)
    (vlan : option Z) (mac : ether_addr) (set block : Z) (w : W) :
  let channel := convertCurrentChannelNum channelBits ctx_channel in
  let r := setLan ctx_channel channelBits 0 parameter req w in
  let read := getLan ctx_channel channelBits 0 false parameter set block (snd r) in
  isValidChannel channel = true ->
  enum_cast LanParam_value LanParam.all parameter = Some LanParam.IPSrc ->
  unpacked ('(flag, p) ← unpack_uint 4 req;
            '(rsvd, p) ← unpack_uint 4 p;
            Some ((flag, rsvd), p)) = Some (flag, 0) ->
  enum_cast IPSrc_value IPSrc.all flag = Some src ->
  src = IPSrc.DHCP \/ src = IPSrc.Static \/ src = IPSrc.Unspecified ->
  fst (maybeGetChannelParams channel w) = Ok (Some params) ->
  Sim.find_eth (logicalPath params) (bus w) = Some (current, vlan, mac) ->
  fst r = Ok ccSuccess
  /\ fst read
     = Ok (ccSuccess,
           current_revision
           :: pack_bits [(4, IPSrc_value match src with
                                          | IPSrc.DHCP => IPSrc.DHCP
                                          | _ => IPSrc.Static
                                          end);
                         (4, 0)]).
Proof.
  intros channel r read Hvalid Hparam Hreq Hsrc Hkind Hres Hfind.
  apply maybeGetChannelParams_named in Hres as [Hname Hres].
  set (requested := match src with IPSrc.DHCP => DHCPConf.v4 | _ => DHCPConf.none end).
  assert (Hr : r = (channelCall (fun params => setDHCPv4Property params requested)
                                channel;;
                    mret ccSuccess) w).
  { subst r requested. unfold setLan. fold channel. rewrite Hvalid, Hparam.
    cbn [negb orb Z.eqb]. rewrite Hreq. cbn [negb Z.eqb]. rewrite Hsrc.
    destruct Hkind as [-> | [-> | ->]]; reflexivity. }
  destruct (setDHCPv4Property_sim params requested current vlan mac
              (log_call (GetSubTree [INTF_VLAN; INTF_ETHERNET]) w) Hfind)
    as (next & (w2 & Hrun & Hbus & _) & Hon & Hoff).
  assert (Hr2 : r = (Ok ccSuccess, w2)).
  { rewrite Hr. unfold mbind, M_bind.
    rewrite (channelCall_sim _ channel params w Hname Hres). now rewrite Hrun. }
  split; [now rewrite Hr2 |].
  subst read. rewrite Hr2. cbn [snd].
  cbn [bus log_call] in Hbus.
  destruct (cipher_init_run w2) as (w3 & Hbus3 & _ & _ & _ & Hinit).
  unfold getLan. fold channel. rewrite Hvalid. cbn [negb orb Z.eqb].
  rewrite Hinit, Hparam.
  assert (Hres3 : resolved channel (getChannelName channel) (bus w3) = Some params).
  { rewrite Hbus3, Hbus. now rewrite resolved_set_dhcp_at. }
  assert (Hfind3 : Sim.find_eth (logicalPath params)
                     (bus (log_call (GetSubTree [INTF_VLAN; INTF_ETHERNET]) w3))
                   = Some (next, vlan, mac)).
  { cbn [bus log_call]. rewrite Hbus3, Hbus.
    now apply (find_eth_set_dhcp_at_same _ _ current). }
  destruct (getDHCPProperty_sim params _ next vlan mac Hfind3) as (w4 & Hget & _).
  unfold mbind, M_bind.
  rewrite (channelCall_sim _ channel params w3 Hname Hres3), Hget.
  cbn [mret M_ret fst]. do 4 f_equal.
  subst requested.
  destruct Hkind as [-> | [-> | ->]]; [now rewrite Hon | now rewrite Hoff ..].
Qed.

End SimProperties.

(** * Addresses through the codec and the modelled network *)

Section Codec.

Lemma unpack_array_bytes (n : nat) (p q : Payload) (bs : list Z) :
  unpack_array n p = Some (bs, q) ->
  length bs = n /\ Forall (fun b => 0 <= b < 256) bs.
Proof.
  revert p q bs. induction n as [| n IH]; intros p q bs; cbn [unpack_array].
  - intros [= <- _]. split; [reflexivity | constructor].
  - destruct (unpack_uint 8 p) as [[b p'] |] eqn:Hb; [| discriminate].
    destruct (unpack_array n p') as [[bs' r] |] eqn:Hbs; [| discriminate].
    intros [= <- _]. destruct (IH _ _ _ Hbs) as [Hlen Hall].
    split; [cbn [length]; now rewrite Hlen |].
    constructor; [| exact Hall].
    apply (unpack_uint_range 8 p p'); [lia | exact Hb].
Qed.

Lemma unpacked_array_bytes (n : nat) (req : Payload) (bs : list Z) :
  unpacked (unpack_array n req) = Some bs ->
  length bs = n /\ Forall (fun b => 0 <= b < 256) bs.
Proof.
  unfold unpacked.
  destruct (unpack_array n req) as [[bs' q] |] eqn:Hbs; [| discriminate].
  destruct (fullyUnpacked q); [| discriminate].
  intros [= <-]. now apply (unpack_array_bytes n req q).
Qed.

Lemma le_combine_nonneg (l : list Z) : 0 <= Word.le_combine l.
Proof.
  induction l as [| b l IH]; cbn [Word.le_combine]; [lia |].
  apply Z.lor_nonneg. split; [apply Z.land_nonneg; right; lia |].
  now apply Z.shiftl_nonneg.
Qed.

(** The bytes of an address are the bytes it was assembled from. *)
Lemma le_split_combine (l : list Z) :
  Forall (fun b => 0 <= b < 256) l ->
  Word.le_split (length l) (Word.le_combine l) = l.
Proof.
  induction 1 as [| b l Hb Hall IH]; [reflexivity |].
  cbn [length Word.le_split Word.le_combine].
  assert (Hlow : Z.land b 255 = b).
  { change 255 with (Z.ones 8). rewrite Z.land_ones by lia. apply Z.mod_small. lia. }
  rewrite Hlow. f_equal.
  - apply Z.bits_inj'. intros i Hi.
    rewrite Z.land_spec, Z.lor_spec. change 255 with (Z.ones 8).
    destruct (Z.ltb_spec i 8).
    + rewrite Z.ones_spec_low by lia. rewrite Z.shiftl_spec_low by lia.
      now rewrite orb_false_r, andb_true_r.
    + rewrite Z.ones_spec_high by lia. rewrite andb_false_r.
      symmetry. apply Z.bits_above_log2; [lia |].
      destruct (Z.eq_dec b 0) as [-> | Hnz]; [cbn; lia |].
      assert (Z.log2 b < 8) by (apply Z.log2_lt_pow2; lia). lia.
  - assert (Hshift : Z.shiftr (Z.lor b (Z.shiftl (Word.le_combine l) 8)) 8
                     = Word.le_combine l).
    { apply Z.bits_inj'. intros i Hi.
      rewrite Z.shiftr_spec, Z.lor_spec, Z.shiftl_spec by lia.
      replace (i + 8 - 8) with i by lia.
      replace (Z.testbit b (i + 8)) with false; [reflexivity |].
      symmetry. apply Z.bits_above_log2; [lia |].
      destruct (Z.eq_dec b 0) as [-> | Hnz]; [cbn; lia |].
      assert (Z.log2 b < 8) by (apply Z.log2_lt_pow2; lia). lia. }
    now rewrite Hshift.
Qed.

Lemma dataRef4_copyInto4 (req : Payload) (bytes : list Z) :
  unpacked (unpack_array 4 req) = Some bytes ->
  dataRef4 (copyInto4 bytes) = bytes.
Proof.
  intros Hreq. apply unpacked_array_bytes in Hreq as [Hlen Hall].
  unfold dataRef4, copyInto4. cbn [s_addr].
  rewrite <- Hlen. now apply le_split_combine.
Qed.

End Codec.

Section SimAddresses.
Context `{!Platform} `{!Header}.
#[local] Abbreviation W := (World Sim.Net).

Lemma channelCall_runs_to {A : Type} (func : ChannelParams -> M Sim.Net A) (channel : Z)
    (params : ChannelParams) (w : W) (a : A) (n' : Sim.Net) :
  getChannelName channel <> "" ->
  resolved channel (getChannelName channel) (bus w) = Some params ->
  (forall w1, bus w1 = bus w -> runs_to (func params) w1 a n') ->
  runs_to (channelCall func channel) w a n'.
Proof.
  intros Hname Hres Hfunc. eapply runs_to_shift.
  - apply (channelCall_sim _ channel params w Hname Hres).
  - repeat split.
  - now apply Hfunc.
Qed.

(** X22.  A Gateway1 write is what a Gateway1 read shows afterwards.
    With DHCPv4 off on the channel, writing four bytes as the gateway
    succeeds, and a read then returns these four bytes. *)
Theorem Gateway1_write_then_read (ctx_channel channelBits parameter : Z) (req : Payload)
    (bytes : list Z) (params : ChannelParams) (current : DHCPConf.t) (vlan : option Z)
    (mac : ether_addr) (set block : Z) (w : W) :
  let channel := convertCurrentChannelNum channelBits ctx_channel in
  let r := setLan ctx_channel channelBits 0 parameter req w in
  let read := getLan ctx_channel channelBits 0 false parameter set block (snd r) in
  isValidChannel channel = true ->
  enum_cast LanParam_value LanParam.all parameter = Some LanParam.Gateway1 ->
  unpacked (unpack_array 4 req) = Some bytes ->
  fst (maybeGetChannelParams channel w) = Ok (Some params) ->
  Sim.find_eth (logicalPath params) (bus w) = Some (current, vlan, mac) ->
  current = DHCPConf.v6 \/ current = DHCPConf.none ->
  fst r = Ok ccSuccess /\ fst read = Ok (ccSuccess, current_revision :: bytes).
Proof.
  intros channel r read Hvalid Hparam Hreq Hres Hfind Hstatic.
  apply maybeGetChannelParams_named in Hres as [Hname Hres].
  assert (Hact : dhcpv4_active current = false).
  { unfold dhcpv4_active. destruct Hstatic as [-> | ->]; reflexivity. }
  set (gateway := copyInto4 bytes).
  set (n2 := snd (Sim.set_gateway (service params) (ifname params) IP.IPv4
                                  (Addr4 gateway) (bus w))).
  assert (Hrun : runs_to (setLan ctx_channel channelBits 0 parameter req) w
                         ccSuccess n2).
  { unfold setLan. fold channel. rewrite Hvalid, Hparam. cbn [negb orb Z.eqb].
    eapply runs_to_bind.
    { apply (channelCall_runs_to _ channel params w current (bus w) Hname Hres).
      intros w1 Hb1. rewrite <- Hb1.
      apply (getDHCPProperty_sim params w1 current vlan mac). now rewrite Hb1. }
    intros w1 Hb1 _. rewrite Hact, Hreq. cbv zeta.
    eapply runs_to_bind; [| intros w2 Hb2 _; rewrite <- Hb2; apply runs_to_ret].
    apply (channelCall_runs_to _ channel params w1 tt n2 Hname);
      [now rewrite Hb1 |].
    intros w2 Hb2. apply runs_to_command. rewrite Hb2, Hb1. reflexivity. }
  destruct Hrun as (w2 & Hr & Hbus & _). fold r in Hr.
  split; [now rewrite Hr |].
  subst read. rewrite Hr. cbn [snd].
  destruct (cipher_init_run w2) as (w3 & Hbus3 & _ & _ & _ & Hinit).
  unfold getLan. fold channel. rewrite Hvalid. cbn [negb orb Z.eqb].
  rewrite Hinit, Hparam.
  assert (Hres3 : resolved channel (getChannelName channel) (bus w3) = Some params).
  { rewrite Hbus3, Hbus. exact Hres. }
  unfold mbind, M_bind.
  rewrite (channelCall_sim _ channel params w3 Hname Hres3).
  rewrite getGatewayProperty_sim. cbn [bus log_call]. rewrite Hbus3, Hbus.
  change (sim_gateway (protocol AF_INET) n2) with (Some (Addr4 gateway)).
  simpl (maybeStringToAddr _).
  cbn [fst mret M_ret]. do 3 f_equal.
  apply (dataRef4_copyInto4 req bytes Hreq).
Qed.




(** X24.  An interface without an IPv4 address reads as 0.0.0.0 with
    the netmask 255.255.255.255: the IP read packs the zero address and
    the SubnetMask read packs the netmask of the default prefix 32. *)
Theorem getLan_without_IPv4_address (ctx_channel channelBits parameter set block : Z)
    (params : ChannelParams) (w : W) :
  let channel := convertCurrentChannelNum channelBits ctx_channel in
  let read := getLan ctx_channel channelBits 0 false parameter set block w in
  isValidChannel channel = true ->
  fst (maybeGetChannelParams channel w) = Ok (Some params) ->
  findIfAddr AF_INET 0 originsV4 (ip_list (logicalPath params) (bus w)) = None ->
  (enum_cast LanParam_value LanParam.all parameter = Some LanParam.IP ->
   fst read = Ok (ccSuccess, [0x11; 0; 0; 0; 0]))
  /\ (enum_cast LanParam_value LanParam.all parameter = Some LanParam.SubnetMask ->
      fst read = Ok (ccSuccess, [0x11; 255; 255; 255; 255])).
Proof.
  intros channel read Hvalid Hres Hnone.
  apply maybeGetChannelParams_named in Hres as [Hname Hres].
  destruct (cipher_init_run w) as (w1 & Hbus1 & _ & _ & _ & Hinit).
  assert (Hres1 : resolved channel (getChannelName channel) (bus w1) = Some params).
  { now rewrite Hbus1. }
  assert (Hget : forall w2, bus w2 = bus w ->
                            fst (getIfAddr4 params w2) = Ok None
                            /\ exists w3, getIfAddr4 params w2 = (Ok None, w3)).
  { intros w2 Hb2. unfold getIfAddr4, getIfAddr, ObjectLookupCache_IP.
    unfold mbind, M_bind. rewrite query_run.
    change (get_IP_objects (service params) (logicalPath params) (bus w2))
      with (Reply (ip_list (logicalPath params) (bus w2))).
    cbn [of_reply mret M_ret]. rewrite Hb2, Hnone. split; [reflexivity | eauto]. }
  destruct (Hget (log_call (GetSubTree [INTF_VLAN; INTF_ETHERNET]) w1) Hbus1)
    as (_ & w3 & Hrun).
  split; intros Hparam; subst read; unfold getLan; fold channel;
    rewrite Hvalid; cbn [negb orb Z.eqb]; rewrite Hinit, Hparam;
    unfold mbind, M_bind;
    rewrite (channelCall_sim _ channel params w1 Hname Hres1), Hrun; reflexivity.
Qed.

End SimAddresses.

Section SimSlots.
Context `{!Platform} `{!Header}.
#[local] Abbreviation W := (World Sim.Net).



End SimSlots.

(** * The set-in-progress latch moves only on SetStatus writes *)

Section Latch.
Context {net : Type} `{!Bus net} `{!Platform} `{!Header}.

Lemma keeps_status_ret {A : Type} (a : A) : keeps_status (mret a : M net A).
Proof. intros w. reflexivity. Qed.

Lemma keeps_status_bind {A B : Type} (m : M net A) (k : A -> M net B) :
  keeps_status m -> (forall a, keeps_status (k a)) -> keeps_status (m ≫= k).
Proof.
  intros Hm Hk w. unfold mbind, M_bind. specialize (Hm w).
  destruct (m w) as [[a | e |] w1]; cbn [snd] in *; [| exact Hm ..].
  now rewrite (Hk a w1).
Qed.

Lemma keeps_status_throw {A : Type} (e : exn) : keeps_status (throw e : M net A).
Proof. intros w. reflexivity. Qed.

Lemma keeps_status_lift {A : Type} (o : Outcome A) : keeps_status (lift o : M net A).
Proof. intros w. reflexivity. Qed.

Lemma keeps_status_deref {A : Type} (o : option A) : keeps_status (deref o : M net A).
Proof. intros w. now destruct o. Qed.

Lemma keeps_status_query {A : Type} (c : BusCall) (f : net -> BusResult A) :
  keeps_status (query c f).
Proof. intros w. reflexivity. Qed.

Lemma keeps_status_command {A : Type} (c : BusCall) (f : net -> BusResult A * net) :
  keeps_status (command c f).
Proof. intros w. unfold command. now destruct (f (bus w)). Qed.

Lemma keeps_status_try_catch_all {A : Type} (m h : M net A) :
  keeps_status m -> keeps_status h -> keeps_status (try_catch_all m h).
Proof.
  intros Hm Hh w. unfold try_catch_all. specialize (Hm w).
  destruct (m w) as [[a | e |] w1]; cbn [snd] in *; try exact Hm.
  now rewrite (Hh w1).
Qed.

Lemma keeps_status_try_catch_SdBusError {A : Type} (m : M net A)
    (h : string -> exn -> M net A) :
  keeps_status m -> (forall name e, keeps_status (h name e)) ->
  keeps_status (try_catch_SdBusError m h).
Proof.
  intros Hm Hh w. unfold try_catch_SdBusError. specialize (Hm w).
  destruct (m w) as [[a | [| | name] |] w1]; cbn [snd] in *; try exact Hm.
  now rewrite (Hh name (SdBusError name) w1).
Qed.

Lemma keeps_status_for_each {A S : Type} (l : list A) (body : A -> S -> M net S) (s : S) :
  (forall a s, keeps_status (body a s)) -> keeps_status (for_each l body s).
Proof.
  intros Hbody. revert s. induction l as [| a l IH]; intros s; cbn [for_each].
  - apply keeps_status_ret.
  - apply keeps_status_bind; [apply Hbody | exact IH].
Qed.

Lemma keeps_status_put_cipherList (l : list Z) :
  keeps_status (put_cipherList l : M net unit).
Proof. intros w. reflexivity. Qed.

Lemma keeps_status_put_lastDisabledVlan (channel vlan : Z) :
  keeps_status (put_lastDisabledVlan channel vlan : M net unit).
Proof. intros w. reflexivity. Qed.

Lemma keeps_status_get_listInit : keeps_status (get_listInit : M net bool).
Proof. intros w. reflexivity. Qed.

Lemma keeps_status_get_cipherList : keeps_status (get_cipherList : M net (list Z)).
Proof. intros w. reflexivity. Qed.

Lemma keeps_status_get_setStatus_map :
  keeps_status (get_setStatus_map : M net (gmap Z SetStatus.t)).
Proof. intros w. reflexivity. Qed.

Lemma keeps_status_get_lastDisabledVlan_map :
  keeps_status (get_lastDisabledVlan_map : M net (gmap Z Z)).
Proof. intros w. reflexivity. Qed.

Ltac status_step :=
  first
    [ apply keeps_status_ret | apply keeps_status_throw | apply keeps_status_lift
    | apply keeps_status_deref | apply keeps_status_query | apply keeps_status_command
    | apply keeps_status_put_cipherList | apply keeps_status_put_lastDisabledVlan
    | apply keeps_status_get_listInit | apply keeps_status_get_cipherList
    | apply keeps_status_get_setStatus_map
    | apply keeps_status_get_lastDisabledVlan_map
    | apply keeps_status_try_catch_all
    | apply keeps_status_try_catch_SdBusError; [| intros ? ?]
    | apply keeps_status_for_each; intros ? ?
    | apply keeps_status_bind; [| intros ?]
    | match goal with
      | |- keeps_status (if ?b then _ else _) => destruct b
      | |- keeps_status (match ?x with _ => _ end) => destruct x
      | |- keeps_status (let '(_, _) := ?x in _) => destruct x
      | |- keeps_status ((match ?x with _ => _ end) _) => destruct x
      | |- keeps_status ((match ?x with _ => _ end) _ _) => destruct x
      end
    | progress cbv beta ].

Lemma keeps_status_channelCall {A : Type} (func : ChannelParams -> M net A)
    (channel : Z) :
  (forall params, keeps_status (func params)) -> keeps_status (channelCall func channel).
Proof.
  intros Hfunc. unfold channelCall. apply keeps_status_bind.
  - unfold maybeGetChannelParams. repeat status_step.
  - intros [params |]; [apply Hfunc | apply keeps_status_throw].
Qed.

Lemma keeps_status_deleteObjectIfExists (service_name path : string) :
  keeps_status (deleteObjectIfExists service_name path).
Proof. unfold deleteObjectIfExists. repeat status_step. Qed.

Lemma keeps_status_getGatewayProperty (family : Family) `{!AddrFamily family}
    (params : ChannelParams) :
  keeps_status (getGatewayProperty family params).
Proof. unfold getGatewayProperty, elog_InternalFailure. repeat status_step. Qed.

Lemma keeps_status_setDHCPv6Property (params : ChannelParams) (d : DHCPConf.t)
    (defaultMode : bool) :
  keeps_status (setDHCPv6Property params d defaultMode).
Proof.
  unfold setDHCPv6Property, getDHCPProperty.
  apply keeps_status_bind; [apply keeps_status_query | intros current].
  apply keeps_status_command.
Qed.

Lemma keeps_status_reconfigureVLAN (params : ChannelParams) (vlan : Z) :
  keeps_status (reconfigureVLAN params vlan).
Proof.
  unfold reconfigureVLAN, ObjectLookupCache_IP, ObjectLookupCache_Neighbor,
    getDHCPProperty, findGatewayNeighbor, deconfigureChannel, createVLAN,
    createIfAddr, createNeighbor.
  repeat first
    [ apply keeps_status_deleteObjectIfExists
    | apply keeps_status_getGatewayProperty
    | apply keeps_status_setDHCPv6Property
    | status_step ].
Qed.

Lemma keeps_status_getLanIPv6Address (channel set : Z) (origins : list IP.AddressOrigin) :
  keeps_status (getLanIPv6Address channel set origins).
Proof.
  unfold getLanIPv6Address. cbv zeta.
  apply keeps_status_bind.
  - apply keeps_status_channelCall. intros params.
    unfold getIfAddr, ObjectLookupCache_IP. repeat status_step.
  - intros [a |]; [| apply keeps_status_ret].
    unfold originToSourceType, elog_InternalFailure. repeat status_step.
Qed.

(** X26.  The set-in-progress status of the channels is moved by
    SetStatus writes only: a Set LAN request for any other parameter,
    and every Get LAN request, leave the status of every channel as it
    was, however the request ends. *)
Theorem set_status_moves_on_SetStatus_only (ctx_channel channelBits reserved parameter : Z)
    (req : Payload) (revOnly : bool) (set block : Z) (w : World net) :
  (enum_cast LanParam_value LanParam.all parameter <> Some LanParam.SetStatus ->
   setStatus (snd (setLan ctx_channel channelBits reserved parameter req w))
   = setStatus w)
  /\ setStatus (snd (getLan ctx_channel channelBits reserved revOnly parameter set block w))
     = setStatus w.
Proof.
  split.
  - intros Hother. revert w.
    change (keeps_status (setLan ctx_channel channelBits reserved parameter req)).
    unfold setLan. cbv zeta.
    destruct (_ || _); [apply keeps_status_ret |].
    destruct (enum_cast LanParam_value LanParam.all parameter) as [[] |];
      try congruence;
      unfold setLanOem, getDHCPProperty, setDHCPv4Property, setMACProperty,
        setGatewayProperty, reconfigureIfAddr4, reconfigureIfAddr6, deconfigureIfAddr6,
        reconfigureGatewayMAC, getIfAddr4, getIfAddr, ObjectLookupCache_IP,
        ObjectLookupCache_Neighbor, createIfAddr, createNeighbor, elog_InternalFailure,
        unpack_VLANId, unpack_IPv6StaticAddresses;
      repeat first
        [ apply keeps_status_channelCall; intros ?
        | apply keeps_status_deleteObjectIfExists
        | apply keeps_status_getGatewayProperty
        | apply keeps_status_reconfigureVLAN
        | status_step ].
  - revert w.
    change (keeps_status (getLan ctx_channel channelBits reserved revOnly
                                 parameter set block)).
    unfold getLan. cbv zeta.
    destruct revOnly; [apply keeps_status_ret |].
    destruct (_ || _); [apply keeps_status_ret |].
    apply keeps_status_bind; [apply keeps_status_get_listInit | intros init].
    apply keeps_status_bind.
    { destruct (negb init); [| apply keeps_status_ret].
      unfold getCipherList, elog_InternalFailure. repeat status_step. }
    intros _.
    destruct (enum_cast LanParam_value LanParam.all parameter) as [[] |];
      unfold getLanOem, getIfAddr4, getIfAddr, getDHCPProperty, getMACProperty,
        getGatewayNeighbor, findGatewayNeighbor, getVLANProperty,
        ObjectLookupCache_IP, ObjectLookupCache_Neighbor, elog_InternalFailure;
      repeat first
        [ apply keeps_status_channelCall; intros ?
        | apply keeps_status_getGatewayProperty
        | apply keeps_status_getLanIPv6Address
        | status_step ].
Qed.

End Latch.

(** * The main theorems *)

Section MainTheorems.
Context {net : Type} `{!Bus net} `{!Platform} `{!Header}.

(** C3.  The SetStatus parameter of Set LAN is a latch, on every channel.
    For a well-formed SetStatus request on a valid channel: setting
    Complete succeeds and stores Complete; setting InProgress succeeds and
    stores InProgress when the stored status is not InProgress, and
    answers parameter-locked, leaving the status as it is, when it
    already is InProgress; Commit answers invalid-field while the stored
    status is Complete, and succeeds while it is InProgress, which it
    stays.  The status of the other channels and the network state are
    not touched. *)
Theorem C3_SetStatus_latch (ctx_channel channelBits parameter : Z) (req : Payload)
    (flag : Z) (w : World net) :
  let channel := convertCurrentChannelNum channelBits ctx_channel in
  let r := setLan ctx_channel channelBits 0 parameter req w in
  let requested := enum_cast SetStatus_value SetStatus.all flag in
  isValidChannel channel = true ->
  enum_cast LanParam_value LanParam.all parameter = Some LanParam.SetStatus ->
  unpack_SetStatus req = Some (flag, 0) ->
  (requested = Some SetStatus.Complete ->
   fst r = Ok ccSuccess /\ storedStatus (snd r) channel = SetStatus.Complete)
  /\ (requested = Some SetStatus.InProgress ->
      storedStatus w channel <> SetStatus.InProgress ->
      fst r = Ok ccSuccess /\ storedStatus (snd r) channel = SetStatus.InProgress)
  /\ (requested = Some SetStatus.InProgress ->
      storedStatus w channel = SetStatus.InProgress ->
      fst r = Ok ccParamSetLocked
      /\ storedStatus (snd r) channel = SetStatus.InProgress)
  /\ (requested = Some SetStatus.Commit ->
      storedStatus w channel = SetStatus.Complete ->
      fst r = Ok ccInvalidFieldRequest
      /\ storedStatus (snd r) channel = SetStatus.Complete)
  /\ (requested = Some SetStatus.Commit ->
      storedStatus w channel = SetStatus.InProgress ->
      fst r = Ok ccSuccess /\ storedStatus (snd r) channel = SetStatus.InProgress)
  /\ (forall c, c <> channel -> storedStatus (snd r) c = storedStatus w c)
  /\ bus (snd r) = bus w.
Proof.
  intros channel r requested Hvalid Hparam Hreq.
  pose proof (setLan_SetStatus ctx_channel channelBits parameter req flag w
                Hvalid Hparam Hreq) as Hrun.
  fold channel r requested in Hrun.
  destruct (getSetStatus_spec channel w)
    as (w1 & Hget & Hentry & Hsame & Hbus & _ & _).
  refine (conj _ (conj _ (conj _ (conj _ (conj _ (conj _ _)))))).
  - intros Hrq. rewrite Hrq in Hrun. rewrite Hrun.
    rewrite (bind_ok _ _ _ _ _ Hget). split; [reflexivity |].
    unfold storedStatus; simpl. now rewrite lookup_insert_eq.
  - intros Hrq Hne. rewrite Hrq in Hrun. rewrite Hrun.
    rewrite (bind_ok _ _ _ _ _ Hget).
    rewrite bool_decide_eq_false_2 by assumption. split; [reflexivity |].
    unfold storedStatus; simpl. now rewrite lookup_insert_eq.
  - intros Hrq Heq. rewrite Hrq in Hrun. rewrite Hrun.
    rewrite (bind_ok _ _ _ _ _ Hget).
    rewrite bool_decide_eq_true_2 by assumption. split; [reflexivity |].
    simpl. now rewrite Hsame.
  - intros Hrq Heq. rewrite Hrq in Hrun. rewrite Hrun.
    rewrite (bind_ok _ _ _ _ _ Hget). rewrite Heq. split; [reflexivity |].
    simpl. now rewrite Hsame.
  - intros Hrq Heq. rewrite Hrq in Hrun. rewrite Hrun.
    rewrite (bind_ok _ _ _ _ _ Hget). rewrite Heq. split; [reflexivity |].
    simpl. now rewrite Hsame.
  - intros c Hc. rewrite Hrun.
    destruct requested as [[] |]; try reflexivity;
      rewrite (bind_ok _ _ _ _ _ Hget).
    + unfold storedStatus at 1; simpl.
      rewrite lookup_insert_ne by congruence. apply Hsame.
    + destruct (bool_decide _); [apply Hsame |].
      unfold storedStatus at 1; simpl.
      rewrite lookup_insert_ne by congruence. apply Hsame.
    + destruct (negb _); apply Hsame.
  - rewrite Hrun.
    destruct requested as [[] |]; try reflexivity;
      rewrite (bind_ok _ _ _ _ _ Hget).
    + exact Hbus.
    + destruct (bool_decide _); exact Hbus.
    + destruct (negb _); exact Hbus.
Qed.

(** C2.  The DHCP table fails in one case.  When the current mode is v6
    and DHCPv4 is switched off (requested none), [setDHCPv4Property]
    writes none, where the table leaves the mode at v6; likewise
    [setDHCPv6Property] in its default mode writes none when the current
    mode is v4 and none is requested.  In every other case the value
    written is the one of the table. *)
Theorem C2_dhcp_toggle_clears_other_family (params : ChannelParams) (w : World net) :
  (get_DHCPEnabled (service params) (logicalPath params) (bus w) = Reply DHCPConf.v6 ->
   last_DHCPEnabled_written (calls (snd (setDHCPv4Property params DHCPConf.none w)))
   = Some DHCPConf.none
   /\ spec_setV4 DHCPConf.v6 DHCPConf.none = DHCPConf.v6)
  /\ (get_DHCPEnabled (service params) (logicalPath params) (bus w) = Reply DHCPConf.v4 ->
      last_DHCPEnabled_written
        (calls (snd (setDHCPv6Property params DHCPConf.none true w)))
      = Some DHCPConf.none
      /\ spec_setV6 DHCPConf.v4 DHCPConf.none = DHCPConf.v4)
  /\ (forall current requested,
        get_DHCPEnabled (service params) (logicalPath params) (bus w) = Reply current ->
        ~ (current = DHCPConf.v6 /\ requested = DHCPConf.none) ->
        last_DHCPEnabled_written (calls (snd (setDHCPv4Property params requested w)))
        = Some (spec_setV4 current requested))
  /\ (forall current requested,
        get_DHCPEnabled (service params) (logicalPath params) (bus w) = Reply current ->
        ~ (current = DHCPConf.v4 /\ requested = DHCPConf.none) ->
        last_DHCPEnabled_written
          (calls (snd (setDHCPv6Property params requested true w)))
        = Some (spec_setV6 current requested)).
Proof.
  refine (conj _ (conj _ (conj _ _))).
  - intros Hget.
    destruct (setDHCPv4Property_writes params _ DHCPConf.none w Hget)
      as (next & Hlast & Hbug & _).
    rewrite Hlast, Hbug by (split; reflexivity). split; reflexivity.
  - intros Hget.
    destruct (setDHCPv6Property_writes params _ DHCPConf.none w Hget)
      as (next & Hlast & Hbug & _).
    rewrite Hlast, Hbug by (split; reflexivity). split; reflexivity.
  - intros current requested Hget Hne.
    destruct (setDHCPv4Property_writes params _ requested w Hget)
      as (next & Hlast & _ & Htable).
    now rewrite Hlast, Htable.
  - intros current requested Hget Hne.
    destruct (setDHCPv6Property_writes params _ requested w Hget)
      as (next & Hlast & _ & Htable).
    now rewrite Hlast, Htable.
Qed.

(** C4.  [reconfigureIfAddr4] reads through the absent prior address.
    When the interface has no IPv4 address of Static or DHCP origin and a
    new address is supplied, the call evaluates [ifaddr->address] on the
    empty optional: it ends in undefined behaviour, having asked the bus
    for nothing but the address enumeration. *)
Theorem C4_reconfigureIfAddr4_reads_absent_address (params : ChannelParams)
    (ips : list (string * IPProps)) (address : in_addr) (prefix : option Z)
    (w : World net) :
  get_IP_objects (service params) (logicalPath params) (bus w) = Reply ips ->
  findIfAddr AF_INET 0 originsV4 ips = None ->
  reconfigureIfAddr4 params (Some address) prefix w
  = (Undefined,
     log_call (GetAllObjects (service params) (logicalPath params) INTF_IP) w).
Proof.
  intros Hips Hnone.
  unfold reconfigureIfAddr4, getIfAddr4, getIfAddr, ObjectLookupCache_IP.
  unfold mbind, M_bind. rewrite query_run, Hips. cbn [of_reply mret M_ret].
  rewrite Hnone. reflexivity.
Qed.

(** C7.  While DHCPv4 is active on the channel (combined mode v4 or
    both), a Set LAN request for IP, SubnetMask or Gateway1 on a valid
    channel is answered command-not-available, whatever its data, and
    nothing is changed: the network state and the handler's maps are as
    before, only the log of bus queries has grown. *)
Theorem C7_ipv4_writes_rejected_under_dhcp (ctx_channel channelBits parameter : Z)
    (req : Payload) (lanParam : LanParam.t) (dhcp : DHCPConf.t) (w : World net) :
  let channel := convertCurrentChannelNum channelBits ctx_channel in
  let r := setLan ctx_channel channelBits 0 parameter req w in
  isValidChannel channel = true ->
  enum_cast LanParam_value LanParam.all parameter = Some lanParam ->
  lanParam = LanParam.IP \/ lanParam = LanParam.SubnetMask
  \/ lanParam = LanParam.Gateway1 ->
  fst (channelCall getDHCPProperty channel w) = Ok dhcp ->
  dhcp = DHCPConf.v4 \/ dhcp = DHCPConf.both ->
  fst r = Ok ccCommandNotAvailable /\ only_logged w (snd r).
Proof.
  intros channel r Hvalid Hparam Hlan Hdhcp Hactive.
  pose proof (channelCall_getDHCPProperty_only_logged channel w) as Hframe.
  assert (Hact : dhcpv4_active dhcp = true).
  { unfold dhcpv4_active. destruct Hactive as [-> | ->]; reflexivity. }
  assert (Hrun : r = (Ok ccCommandNotAvailable,
                      snd (channelCall getDHCPProperty channel w))).
  { subst r. unfold setLan. fold channel. rewrite Hvalid, Hparam.
    cbn [negb orb Z.eqb].
    destruct (channelCall getDHCPProperty channel w) as [o w1] eqn:Hcall.
    simpl in Hdhcp. subst o.
    destruct Hlan as [-> | [-> | ->]];
      rewrite (bind_ok _ _ _ _ _ Hcall), Hact; reflexivity. }
  rewrite Hrun. split; [reflexivity | exact Hframe].
Qed.

(** C8.  [deleteObjectIfExists] on an empty path does nothing and calls
    nothing.  Otherwise it places the Delete call; the call returns
    normally when the deletion succeeds and when it fails with the
    object-unknown error or with the generic internal failure, and any
    other error of the bus is thrown on to the caller. *)
Theorem C8_deleteObjectIfExists (service_name path : string) (w : World net) :
  (path = "" -> deleteObjectIfExists service_name path w = (Ok tt, w))
  /\ (path <> "" ->
      let w' := with_bus (snd (call_Delete service_name path (bus w)))
                         (log_call (CallDelete service_name path) w) in
      match fst (call_Delete service_name path (bus w)) with
      | Reply _ => deleteObjectIfExists service_name path w = (Ok tt, w')
      | BusError name =>
          (name = InternalFailureName \/ name = UnknownObjectName ->
           deleteObjectIfExists service_name path w = (Ok tt, w'))
          /\ (name <> InternalFailureName -> name <> UnknownObjectName ->
              deleteObjectIfExists service_name path w = (Throw (SdBusError name), w'))
      end).
Proof.
  split.
  - intros ->. reflexivity.
  - intros Hne. unfold deleteObjectIfExists.
    rewrite bool_decide_eq_false_2 by assumption.
    unfold try_catch_SdBusError, command.
    destruct (call_Delete service_name path (bus w)) as [[[] | name] n]; simpl.
    + reflexivity.
    + split.
      * intros [-> | ->]; reflexivity.
      * intros H1 H2. unfold InternalFailureName, UnknownObjectName in *.
        rewrite !bool_decide_eq_false_2 by assumption. reflexivity.
Qed.

(** C9.  A Get LAN request for IPv6StaticAddresses on a valid channel
    whose set selector is MAX_IPV6_STATIC_ADDRESSES or more is answered
    parameter-out-of-range, and no call is placed on the bus. *)
Theorem C9_getLan_static_slot_out_of_range (ctx_channel channelBits parameter : Z)
    (set block : Z) (w : World net) :
  let channel := convertCurrentChannelNum channelBits ctx_channel in
  let r := getLan ctx_channel channelBits 0 false parameter set block w in
  isValidChannel channel = true ->
  enum_cast LanParam_value LanParam.all parameter = Some LanParam.IPv6StaticAddresses ->
  MAX_IPV6_STATIC_ADDRESSES <= set ->
  fst r = Ok (ccParmOutOfRange, []) /\ untouched w (snd r).
Proof.
  intros channel r Hvalid Hparam Hset. subst r.
  unfold getLan. fold channel. rewrite Hvalid, Hparam.
  cbn [negb orb Z.eqb].
  apply Z.leb_le in Hset.
  unfold mbind, M_bind, get_listInit.
  destruct (listInit w) eqn:Hinit; cbn [negb mret M_ret].
  - rewrite Hset. repeat split.
  - unfold try_catch_all, getCipherList, mbind, M_bind.
    destruct cipherSuitesFile as [records |]; simpl; rewrite Hset; repeat split.
Qed.

(** C10.  A Set LAN request for IPv6StaticAddresses whose data are
    well-formed with zero reserved bits is never answered
    parameter-out-of-range.  On a valid channel the set selector goes
    unchecked to [reconfigureIfAddr6] (enabled) or [deconfigureIfAddr6]
    (disabled), also when it is MAX_IPV6_STATIC_ADDRESSES or more, and
    the request succeeds when that call returns. *)
Theorem C10_setLan_static_slot_unchecked (ctx_channel channelBits reserved1 parameter : Z)
    (req : Payload) (set : Z) (enabled : bool) (ipbytes : list Z) (prefix status : Z)
    (w : World net) :
  let channel := convertCurrentChannelNum channelBits ctx_channel in
  let r := setLan ctx_channel channelBits reserved1 parameter req w in
  enum_cast LanParam_value LanParam.all parameter = Some LanParam.IPv6StaticAddresses ->
  unpack_IPv6StaticAddresses req = Some (set, 0, enabled, ipbytes, prefix, status) ->
  fst r <> Ok ccParmOutOfRange
  /\ (reserved1 = 0 -> isValidChannel channel = true ->
      r = ((if enabled
            then channelCall
                   (fun params => reconfigureIfAddr6 params set (copyInto16 ipbytes) prefix)
                   channel
            else channelCall (fun params => deconfigureIfAddr6 params set) channel);;
           mret ccSuccess) w).
Proof.
  intros channel r Hparam Hreq. subst r. unfold setLan. fold channel.
  destruct (negb (reserved1 =? 0) || negb (isValidChannel channel)) eqn:Hguard.
  - split; [discriminate |].
    intros -> Hvalid. rewrite Hvalid in Hguard. discriminate.
  - rewrite Hparam, Hreq. cbn [negb Z.eqb].
    split; [| reflexivity].
    unfold mbind, M_bind.
    destruct enabled;
      match goal with
      | |- context [channelCall ?f channel w] =>
          destruct (channelCall f channel w) as [[[] | e |] w1]
      end; discriminate.
Qed.

End MainTheorems.

(** * The main theorems on the modelled network *)

Section SimMainTheorems.
Context `{!Platform} `{!Header}.

(** C1.  [reconfigureVLAN] restores what it has saved.  On the modelled
    network service, take an interface whose settings read as the
    snapshot [s]: its IPv4 address and prefix, its IPv6 static addresses
    slot by slot, its combined DHCP mode, and per family the gateway's
    static neighbour MAC.  Then [reconfigureVLAN params vlan] returns,
    the logical path is the new VLAN interface (the physical interface
    when [vlan] is 0), and reading the new logical interface with the
    same lookups gives the snapshot [s] again.  This holds for every
    snapshot, so also for an IPv4 address A with prefix P, two IPv6
    static addresses, the mode both and a neighbour MAC in each
    family. *)
Theorem C1_reconfigureVLAN_round_trip (params : ChannelParams) (vlan : Z) (s : Snapshot)
    (w : World Sim.Net) :
  describes params (bus w) ->
  fst (snapshot params w) = Ok s ->
  0 <= vlan < 2 ^ 16 ->
  (vlan <> 0 -> vlan_path_free (ifname params) vlan (bus w)) ->
  exists params' w',
    reconfigureVLAN params vlan w = (Ok params', w')
    /\ logicalPath params'
       = (if vlan =? 0 then ifPath params else Sim.vlan_path (ifname params) vlan)
    /\ ifPath params' = ifPath params
    /\ fst (snapshot params' w') = Ok s.
Proof.
  intros Hd Hsnap Hrange Hfree.
  apply snapshot_observe in Hsnap.
  destruct (reconfigureVLAN_sim params vlan s w Hd Hsnap Hrange Hfree)
    as (w' & Hrun & Hbus & _).
  exists (with_logicalPath (new_logicalPath params vlan) params), w'.
  refine (conj Hrun (conj _ (conj _ _))); [reflexivity | reflexivity |].
  apply snapshot_observe. rewrite Hbus.
  now apply observe_reconfigured.
Qed.

(** C5.  The VLANId parameter of Set LAN, for a request that unpacks
    into a 12-bit id, three reserved bits and the enable bit.  Nonzero
    reserved bits are answered invalid-field.  With the enable bit set,
    the ids 0 and 0xFFF are answered invalid-field.  With the enable bit
    clear the id is stored as the channel's last disabled VLAN, and a
    read of VLANId then returns that id, whose enable bit is clear.  With
    the enable bit set and any other id, a read of VLANId then returns
    the id with the enable flag.  The last two are on the modelled
    network service, for a channel that resolves to an interface whose
    settings can be read and, when a VLAN is created, whose VLAN path is
    free; they hold for every such id, so for id 100. *)
Theorem C5_VLANId_write_then_read (ctx_channel channelBits parameter : Z) (req : Payload)
    (vlanData reserved : Z) (vlanEnable : bool) (w : World Sim.Net) :
  let channel := convertCurrentChannelNum channelBits ctx_channel in
  let r := setLan ctx_channel channelBits 0 parameter req w in
  let read := getLan ctx_channel channelBits 0 false parameter 0 0 (snd r) in
  isValidChannel channel = true ->
  enum_cast LanParam_value LanParam.all parameter = Some LanParam.VLANId ->
  unpack_VLANId req = Some (vlanData, reserved, vlanEnable) ->
  (reserved <> 0 -> fst r = Ok ccInvalidFieldRequest)
  /\ (reserved = 0 -> vlanEnable = true -> vlanData = 0 \/ vlanData = 0xFFF ->
      fst r = Ok ccInvalidFieldRequest)
  /\ (forall params s,
        reserved = 0 ->
        fst (maybeGetChannelParams channel w) = Ok (Some params) ->
        describes params (bus w) ->
        fst (snapshot params w) = Ok s ->
        (vlanEnable = false ->
         fst r = Ok ccSuccess
         /\ lastDisabledVlan (snd r) !! channel = Some vlanData
         /\ fst read = Ok (ccSuccess, current_revision :: Word.le_split 2 vlanData)
         /\ Z.land vlanData VLAN_ENABLE_FLAG = 0)
        /\ (vlanEnable = true -> vlanData <> 0 -> vlanData <> 0xFFF ->
            vlan_path_free (ifname params) vlanData (bus w) ->
            fst r = Ok ccSuccess
            /\ fst read
               = Ok (ccSuccess,
                     current_revision
                     :: Word.le_split 2 (Z.lor vlanData VLAN_ENABLE_FLAG)))).
Proof.
  intros channel r read Hvalid Hparam Hreq.
  destruct (unpack_VLANId_range req vlanData reserved vlanEnable Hreq) as [Hid _].
  assert (Hwrap : Word.wrap 16 vlanData = vlanData).
  { unfold Word.wrap. apply Z.mod_small. lia. }
  assert (Hr : r = (if negb (reserved =? 0) then mret ccInvalidFieldRequest
                    else if negb vlanEnable
                         then put_lastDisabledVlan channel vlanData;;
                              channelCall (fun params => reconfigureVLAN params 0) channel;;
                              mret ccSuccess
                         else if (vlanData =? 0) || (vlanData =? VLAN_VALUE_MASK)
                              then mret ccInvalidFieldRequest
                              else channelCall
                                     (fun params => reconfigureVLAN params vlanData)
                                     channel;;
                                   mret ccSuccess) w).
  { subst r. unfold setLan. fold channel. rewrite Hvalid, Hparam, Hreq.
    cbn [negb orb Z.eqb]. cbv zeta. rewrite Hwrap. reflexivity. }
  refine (conj _ (conj _ _)).
  - intros Hne. rewrite Hr. apply Z.eqb_neq in Hne. now rewrite Hne.
  - intros -> -> Hbad. rewrite Hr. cbn [Z.eqb negb].
    destruct Hbad as [-> | ->]; reflexivity.
  - intros params s -> Hres Hd Hsnap.
    apply maybeGetChannelParams_named in Hres as [Hname Hres].
    apply snapshot_observe in Hsnap.
    destruct (resolved_fields _ _ _ _ Hres) as (_ & Hifname & _).
    cbn [Z.eqb negb] in Hr.
    assert (Hafter : forall v,
               resolved channel (getChannelName channel)
                        (reconfigured params v s (bus w))
               = Some (with_logicalPath (new_logicalPath params v) params)).
    { intros v. pose proof (resolved_reconfigured channel params v s (bus w)) as Hrr.
      rewrite Hifname in Hrr. now apply Hrr. }
    split.
    + intros ->. cbn [negb] in Hr.
      destruct (channelCall_reconfigureVLAN_sim channel params 0 s
                  (snd (put_lastDisabledVlan channel vlanData w))
                  Hname Hres Hd Hsnap ltac:(lia) ltac:(congruence))
        as (w2 & Hrun & Hbus & _ & Hmap & _).
      assert (Hr2 : r = (Ok ccSuccess, w2)).
      { rewrite Hr. unfold mbind at 1, M_bind at 1.
        cbn [put_lastDisabledVlan]. unfold mbind, M_bind.
        cbn [put_lastDisabledVlan snd] in Hrun. now rewrite Hrun. }
      assert (Hlast : lastDisabledVlan w2 !! channel = Some vlanData).
      { rewrite Hmap. cbn [put_lastDisabledVlan snd lastDisabledVlan].
        apply lookup_insert_eq. }
      assert (Hclear : Z.land vlanData VLAN_ENABLE_FLAG = 0).
      { apply Z.bits_inj'. intros i Hi. rewrite Z.land_spec, Z.bits_0.
        destruct (Z.eq_dec i 15) as [-> | Hne].
        - rewrite (Z.bits_above_log2 vlanData 15); [reflexivity | lia |].
          destruct (Z.eq_dec vlanData 0) as [-> | Hnz]; [reflexivity |].
          apply Z.log2_lt_pow2; lia.
        - change VLAN_ENABLE_FLAG with (2 ^ 15).
          rewrite Z.pow2_bits_false by congruence. apply andb_false_r. }
      refine (conj _ (conj _ (conj _ Hclear))).
      * now rewrite Hr2.
      * now rewrite Hr2.
      * subst read. rewrite Hr2. cbn [snd].
        apply (getLan_VLANId_disabled ctx_channel channelBits parameter 0 0
                 (with_logicalPath (new_logicalPath params 0) params) vlanData w2
                 Hvalid Hparam Hname); [| reflexivity | exact Hlast].
        rewrite Hbus. apply Hafter.
    + intros -> Hnz Hnm Hfree. cbn [negb] in Hr.
      assert (Hguard : (vlanData =? 0) || (vlanData =? VLAN_VALUE_MASK) = false).
      { apply orb_false_iff. split; now apply Z.eqb_neq. }
      rewrite Hguard in Hr.
      destruct (channelCall_reconfigureVLAN_sim channel params vlanData s w
                  Hname Hres Hd Hsnap ltac:(lia) ltac:(intros _; exact Hfree))
        as (w2 & Hrun & Hbus & _).
      assert (Hr2 : r = (Ok ccSuccess, w2)).
      { rewrite Hr. unfold mbind, M_bind. now rewrite Hrun. }
      split; [now rewrite Hr2 |].
      subst read. rewrite Hr2. cbn [snd].
      assert (Hpath : new_logicalPath params vlanData
                      = Sim.vlan_path (ifname params) vlanData).
      { unfold new_logicalPath. apply Z.eqb_neq in Hnz. now rewrite Hnz. }
      apply (getLan_VLANId_enabled ctx_channel channelBits parameter 0 0
               (with_logicalPath (new_logicalPath params vlanData) params)
               (snap_dhcp s) {| ether_addr_octet := [0; 0; 0; 0; 0; 0] |} vlanData w2
               Hvalid Hparam Hname).
      * rewrite Hbus. apply Hafter.
      * cbn [with_logicalPath ifPath logicalPath]. rewrite Hpath, Hifname.
        apply (resolved_not_vlan_path channel _ params vlanData (bus w) Hres).
        now rewrite <- Hifname.
      * cbn [with_logicalPath logicalPath]. rewrite Hpath, Hbus.
        now apply find_eth_reconfigured.
      * lia.
Qed.

End SimMainTheorems.

(** C6.  Prefix and netmask.  For every prefix from 0 to 32 the netmask
    of the prefix has that prefix; the netmask of 0 is the all-zero
    address, and no prefix runs into the undefined shift by 32; a prefix
    above 32 is refused with the internal failure; and a netmask whose
    1-bits are not a left-aligned contiguous run is refused with the
    same internal failure (not with an invalid-parameter error). *)
Theorem C6_prefix_netmask_round_trip :
  (forall p, 0 <= p <= 32 ->
             exists m, prefixToNetmask p = Ok m /\ netmaskToPrefix m = Ok p)
  /\ prefixToNetmask 0 = Ok {| s_addr := 0 |}
  /\ (forall p, 0 <= p -> prefixToNetmask p <> Undefined)
  /\ (forall p, 32 < p -> prefixToNetmask p = Throw InternalFailure)
  /\ (forall m, ~ left_aligned_ones (Word.be32toh (s_addr m)) ->
                netmaskToPrefix m = Throw InternalFailure).
Proof.
  refine (conj prefix_roundtrip (conj eq_refl (conj prefixToNetmask_defined (conj _ _)))).
  - intros p Hp. unfold prefixToNetmask. apply Z.ltb_lt in Hp. now rewrite Hp.
  - exact netmaskToPrefix_rejects.
Qed.

(** C6, as stated, fails: the netmask 255.0.255.0 is not a left-aligned
    run of 1-bits, and [netmaskToPrefix] refuses it with the internal
    failure, not with an invalid-argument error. *)
Lemma C6_netmask_rejected_with_InternalFailure :
  ~ left_aligned_ones (Word.be32toh (s_addr {| s_addr := 0x00FF00FF |}))
  /\ netmaskToPrefix {| s_addr := 0x00FF00FF |} = Throw InternalFailure
  /\ netmaskToPrefix {| s_addr := 0x00FF00FF |} <> Throw InvalidArgument.
Proof.
  refine (conj _ (conj eq_refl _)); [| discriminate].
  intros Hrun. specialize (Hrun 8 16 ltac:(lia) ltac:(lia) eq_refl). discriminate.
Qed.

(** * The theorems at work on the sample network *)

#[local] Existing Instance ipmi_header.
#[local] Existing Instance sample_platform.

Lemma sample_describes : describes sample_params sample_net.
Proof.
  refine (conj _ (conj _ (conj _ _))).
  - discriminate.
  - vm_compute. reflexivity.
  - exists DHCPConf.both, sample_mac. vm_compute. reflexivity.
  - left. reflexivity.
Qed.

Lemma sample_vlan_free (vlan : Z) : vlan_path_free "eth0" vlan sample_net.
Proof.
  intros o Hin Hpath.
  cbn [sample_net Sim.objs In] in Hin.
  destruct Hin as [<- | [<- | [<- | [<- | [<- | [<- | []]]]]]]; try reflexivity.
  exfalso. revert Hpath. unfold Sim.vlan_path, Sim.PATH_ROOT, sample_eth0.
  cbn [Sim.path]. intros Hpath.
  apply (f_equal (fun p => String.get 33 p)) in Hpath.
  vm_compute in Hpath. discriminate.
Qed.

Lemma C1_reconfigureVLAN_round_trip_witness :
  exists params' w',
    reconfigureVLAN sample_params 100 sample_world = (Ok params', w')
    /\ logicalPath params' = Sim.vlan_path "eth0" 100
    /\ ifPath params' = sample_eth0
    /\ fst (snapshot params' w') = Ok sample_snapshot.
Proof.
  apply (C1_reconfigureVLAN_round_trip sample_params 100 sample_snapshot sample_world).
  - exact sample_describes.
  - vm_compute. reflexivity.
  - lia.
  - intros _. exact (sample_vlan_free 100).
Defined.

Lemma C2_dhcp_toggle_clears_other_family_witness :
  last_DHCPEnabled_written
    (calls (snd (setDHCPv4Property sample_params DHCPConf.none
                   (new_world (eth_only DHCPConf.v6)))))
  = Some DHCPConf.none
  /\ spec_setV4 DHCPConf.v6 DHCPConf.none = DHCPConf.v6.
Proof.
  apply (proj1 (C2_dhcp_toggle_clears_other_family sample_params
                  (new_world (eth_only DHCPConf.v6)))).
  vm_compute. reflexivity.
Defined.

Lemma C3_SetStatus_latch_witness :
  fst (setLan 1 1 0 0 (request [1]) sample_world) = Ok ccSuccess
  /\ storedStatus (snd (setLan 1 1 0 0 (request [1]) sample_world)) 1
     = SetStatus.InProgress.
Proof.
  destruct (C3_SetStatus_latch 1 1 0 (request [1]) 1 sample_world)
    as (_ & Hprogress & _).
  - vm_compute. reflexivity.
  - vm_compute. reflexivity.
  - vm_compute. reflexivity.
  - apply Hprogress; [vm_compute; reflexivity | vm_compute; discriminate].
Defined.

Lemma C4_reconfigureIfAddr4_reads_absent_address_witness :
  reconfigureIfAddr4 sample_params (Some {| s_addr := 0x0a000002 |}) None bare_world
  = (Undefined,
     log_call (GetAllObjects (service sample_params) (logicalPath sample_params) INTF_IP)
              bare_world).
Proof.
  apply (C4_reconfigureIfAddr4_reads_absent_address sample_params []).
  - vm_compute. reflexivity.
  - vm_compute. reflexivity.
Defined.

Lemma C5_VLANId_write_then_read_witness :
  fst (getLan 1 1 0 false 20 0 0 (snd (setLan 1 1 0 20 (request [100; 128]) sample_world)))
  = Ok (ccSuccess, [0x11; 100; 128])
  /\ fst (getLan 1 1 0 false 20 0 0 (snd (setLan 1 1 0 20 (request [100; 0]) sample_world)))
     = Ok (ccSuccess, [0x11; 100; 0]).
Proof.
  split.
  - destruct (C5_VLANId_write_then_read 1 1 20 (request [100; 128]) 100 0 true
                sample_world)
      as (_ & _ & Hset); [vm_compute; reflexivity .. |].
    destruct (Hset sample_params sample_snapshot) as [_ Henabled];
      [reflexivity | vm_compute; reflexivity | exact sample_describes
       | vm_compute; reflexivity |].
    destruct Henabled as [_ Hread];
      [reflexivity | lia | lia | exact (sample_vlan_free 100) |].
    exact Hread.
  - destruct (C5_VLANId_write_then_read 1 1 20 (request [100; 0]) 100 0 false
                sample_world)
      as (_ & _ & Hset); [vm_compute; reflexivity .. |].
    destruct (Hset sample_params sample_snapshot) as [Hdisabled _];
      [reflexivity | vm_compute; reflexivity | exact sample_describes
       | vm_compute; reflexivity |].
    destruct Hdisabled as (_ & _ & Hread & _); [reflexivity |].
    exact Hread.
Defined.

Lemma C7_ipv4_writes_rejected_under_dhcp_witness :
  fst (setLan 1 1 0 3 (request [10; 0; 0; 2]) sample_world) = Ok ccCommandNotAvailable
  /\ only_logged sample_world (snd (setLan 1 1 0 3 (request [10; 0; 0; 2]) sample_world)).
Proof.
  apply (C7_ipv4_writes_rejected_under_dhcp 1 1 3 (request [10; 0; 0; 2]) LanParam.IP
           DHCPConf.both sample_world).
  - vm_compute. reflexivity.
  - vm_compute. reflexivity.
  - left. reflexivity.
  - vm_compute. reflexivity.
  - right. reflexivity.
Defined.

Lemma C9_getLan_static_slot_out_of_range_witness :
  fst (getLan 1 1 0 false 56 15 0 sample_world) = Ok (ccParmOutOfRange, [])
  /\ untouched sample_world (snd (getLan 1 1 0 false 56 15 0 sample_world)).
Proof.
  apply (C9_getLan_static_slot_out_of_range 1 1 56 15 0 sample_world).
  - vm_compute. reflexivity.
  - vm_compute. reflexivity.
  - vm_compute. discriminate.
Defined.

Lemma C10_setLan_static_slot_unchecked_witness :
  fst (setLan 1 1 0 56
         (request [20; 128; 0; 0; 0; 0; 0; 0; 0; 0; 0; 0; 0; 0; 0; 0; 0; 7; 64; 0])
         (new_world (eth_only DHCPConf.none)))
  <> Ok ccParmOutOfRange.
Proof.
  apply (C10_setLan_static_slot_unchecked 1 1 0 56
           (request [20; 128; 0; 0; 0; 0; 0; 0; 0; 0; 0; 0; 0; 0; 0; 0; 0; 7; 64; 0])
           20 true [0; 0; 0; 0; 0; 0; 0; 0; 0; 0; 0; 0; 0; 0; 0; 7] 64 0
           (new_world (eth_only DHCPConf.none))).
  - vm_compute. reflexivity.
  - vm_compute. reflexivity.
Defined.

(** * The further properties at work on the sample network *)

Lemma setLan_invalid_request_untouched_witness :
  setLan 1 1 1 3 (request [10; 0; 0; 2]) sample_world
  = (Ok ccInvalidFieldRequest, sample_world).
Proof.
  apply (setLan_invalid_request_untouched 1 1 1 3 (request [10; 0; 0; 2]) sample_world).
  left. lia.
Defined.

Lemma setLan_read_only_parameters_witness :
  setLan 1 1 0 1 (request [0]) sample_world = (Ok ccParamReadOnly, sample_world).
Proof.
  apply (setLan_read_only_parameters 1 1 1 (request [0]) LanParam.AuthSupport
           sample_world).
  - vm_compute. reflexivity.
  - vm_compute. reflexivity.
  - left. reflexivity.
Defined.

Lemma unknown_parameter_not_supported_witness :
  setLan 1 1 0 100 (request [0]) sample_world = (Ok ccParamNotSupported, sample_world)
  /\ fst (getLan 1 1 0 false 100 0 0 sample_world) = Ok (ccParamNotSupported, []).
Proof.
  apply (unknown_parameter_not_supported 1 1 100 0 0 (request [0]) sample_world).
  - vm_compute. reflexivity.
  - vm_compute. reflexivity.
Defined.

Lemma setLan_MAC_invalid_untouched_witness :
  setLan 1 1 0 5 (request [1; 0; 0; 0; 0; 9]) sample_world
  = (Ok ccInvalidFieldRequest, sample_world).
Proof.
  apply (setLan_MAC_invalid_untouched 1 1 5 (request [1; 0; 0; 0; 0; 9])
           [1; 0; 0; 0; 0; 9] sample_world).
  - vm_compute. reflexivity.
  - vm_compute. reflexivity.
  - vm_compute. reflexivity.
  - vm_compute. reflexivity.
Defined.

Lemma reconfigureIfAddr4_nothing_to_configure_witness :
  reconfigureIfAddr4 sample_params None (Some 24) bare_world
  = (Throw InternalFailure,
     log_call (GetAllObjects (service sample_params) (logicalPath sample_params) INTF_IP)
              bare_world).
Proof.
  apply (reconfigureIfAddr4_nothing_to_configure sample_params []).
  - vm_compute. reflexivity.
  - vm_compute. reflexivity.
Defined.

Lemma reconfigureIfAddr4_replaces_witness :
  exists w',
    reconfigureIfAddr4 sample_params None (Some 16) sample_world = (Ok tt, w')
    /\ bus w'
       = snd (Sim.create_IP Sim.SERVICE sample_eth0 IP.IPv4
                (Addr4 {| s_addr := 0x0a000001 |}) 16
                (snd (Sim.Delete Sim.SERVICE (sample_eth0 +:+ "/ipv4/a") sample_net)))
    /\ calls w'
       = calls sample_world
         ++ [GetAllObjects Sim.SERVICE sample_eth0 INTF_IP;
             CallDelete Sim.SERVICE (sample_eth0 +:+ "/ipv4/a");
             CallIP Sim.SERVICE sample_eth0 IP.IPv4 (Addr4 {| s_addr := 0x0a000001 |}) 16].
Proof.
  apply (reconfigureIfAddr4_replaces sample_params
           (ip_list sample_eth0 sample_net)
           (@Build_IfAddr AF_INET AddrFamily_INET (sample_eth0 +:+ "/ipv4/a") {| s_addr := 0x0a000001 |}
                          IP.DHCP 24)
           None (Some 16)
           (snd (Sim.Delete Sim.SERVICE (sample_eth0 +:+ "/ipv4/a") sample_net))).
  - vm_compute. reflexivity.
  - vm_compute. reflexivity.
  - vm_compute. discriminate.
  - vm_compute. reflexivity.
  - vm_compute. reflexivity.
Defined.

Lemma reconfigureGatewayMAC_without_gateway_witness :
  reconfigureGatewayMAC AF_INET sample_params sample_mac bare_world
  = (Throw InternalFailure,
     log_call (GetGateway (service sample_params) (ifname sample_params)
                          (protocol AF_INET))
              bare_world).
Proof.
  apply (reconfigureGatewayMAC_without_gateway AF_INET sample_params sample_mac
           bare_world).
  vm_compute. reflexivity.
Defined.

Lemma deconfigureIfAddr6_empty_slot_witness :
  deconfigureIfAddr6 sample_params 3 bare_world
  = (Ok tt,
     log_call (GetAllObjects (service sample_params) (logicalPath sample_params) INTF_IP)
              bare_world).
Proof.
  apply (deconfigureIfAddr6_empty_slot sample_params 3 []).
  - vm_compute. reflexivity.
  - vm_compute. reflexivity.
Defined.

Lemma unnamed_channel_has_no_params_witness :
  maybeGetChannelParams 2 sample_world = (Ok None, sample_world)
  /\ getChannelParams 2 sample_world = (Throw InternalFailure, sample_world).
Proof.
  apply (unnamed_channel_has_no_params 2 sample_world).
  vm_compute. reflexivity.
Defined.

Lemma netmask_prefix_round_trip_witness :
  0 <= 24 <= 32 /\ prefixToNetmask 24 = Ok {| s_addr := 0x00FFFFFF |}.
Proof.
  apply (netmask_prefix_round_trip {| s_addr := 0x00FFFFFF |} 24).
  - vm_compute. split; [discriminate | reflexivity].
  - vm_compute. reflexivity.
Defined.

Lemma SetStatus_write_then_read_witness :
  fst (getLan 1 1 0 false 0 0 0 (snd (setLan 1 1 0 0 (request [1]) sample_world)))
  = Ok (ccSuccess, [0x11; 1]).
Proof.
  apply (SetStatus_write_then_read 1 1 0 (request [1]) 1 SetStatus.InProgress 0 0
           sample_world).
  - vm_compute. reflexivity.
  - vm_compute. reflexivity.
  - vm_compute. reflexivity.
  - vm_compute. reflexivity.
  - discriminate.
  - vm_compute. reflexivity.
Defined.

Lemma setLan_SubnetMask_invalid_netmask_witness :
  fst (setLan 1 1 0 6 (request [255; 0; 255; 0]) bare_world) = Throw InternalFailure
  /\ only_logged bare_world (snd (setLan 1 1 0 6 (request [255; 0; 255; 0]) bare_world)).
Proof.
  apply (setLan_SubnetMask_invalid_netmask 1 1 6 (request [255; 0; 255; 0])
           [255; 0; 255; 0] DHCPConf.none bare_world).
  - vm_compute. reflexivity.
  - vm_compute. reflexivity.
  - vm_compute. reflexivity.
  - right. reflexivity.
  - vm_compute. reflexivity.
  - intros Hrun. specialize (Hrun 8 16 ltac:(lia) ltac:(lia) eq_refl). discriminate.
Defined.

Lemma setDHCPv6Property_sets_any_value_witness :
  last_DHCPEnabled_written
    (calls (snd (setDHCPv6Property sample_params DHCPConf.none false
                   (new_world (eth_only DHCPConf.v4)))))
  = Some DHCPConf.none.
Proof.
  apply (setDHCPv6Property_sets_any_value sample_params DHCPConf.v4 DHCPConf.none
           (new_world (eth_only DHCPConf.v4))).
  vm_compute. reflexivity.
Defined.


Lemma deconfigureChannel_clears_witness :
  exists w',
    deconfigureChannel sample_params sample_world
    = (Ok (with_logicalPath (ifPath sample_params) sample_params), w')
    /\ (forall o, In o (Sim.objs (bus w')) ->
                  string_contains (Sim.path o) (ifname sample_params) = true ->
                  Sim.deletable (Sim.body o) = false)
    /\ (exists mac, Sim.find_eth (ifPath sample_params) (bus w')
                    = Some (DHCPConf.none, None, mac))
    /\ (forall o, In o (Sim.objs (bus sample_world)) ->
                  string_contains (Sim.path o) (ifname sample_params) = false ->
                  In o (Sim.objs (bus w'))).
Proof.
  apply (deconfigureChannel_clears sample_params sample_world).
  exact sample_describes.
Defined.

Lemma IPSrc_write_then_read_witness :
  fst (setLan 1 1 0 4 (request [1]) sample_world) = Ok ccSuccess
  /\ fst (getLan 1 1 0 false 4 0 0 (snd (setLan 1 1 0 4 (request [1]) sample_world)))
     = Ok (ccSuccess,
           current_revision :: pack_bits [(4, IPSrc_value IPSrc.Static); (4, 0)]).
Proof.
  apply (IPSrc_write_then_read 1 1 4 (request [1]) 1 IPSrc.Static sample_params
           DHCPConf.both None sample_mac 0 0 sample_world).
  - vm_compute. reflexivity.
  - vm_compute. reflexivity.
  - vm_compute. reflexivity.
  - vm_compute. reflexivity.
  - right. left. reflexivity.
  - vm_compute. reflexivity.
  - vm_compute. reflexivity.
Defined.

Lemma Gateway1_write_then_read_witness :
  fst (setLan 1 1 0 12 (request [10; 0; 0; 254]) bare_world) = Ok ccSuccess
  /\ fst (getLan 1 1 0 false 12 0 0
            (snd (setLan 1 1 0 12 (request [10; 0; 0; 254]) bare_world)))
     = Ok (ccSuccess, [0x11; 10; 0; 0; 254]).
Proof.
  apply (Gateway1_write_then_read 1 1 12 (request [10; 0; 0; 254]) [10; 0; 0; 254]
           sample_params DHCPConf.none None sample_mac 0 0 bare_world).
  - vm_compute. reflexivity.
  - vm_compute. reflexivity.
  - vm_compute. reflexivity.
  - vm_compute. reflexivity.
  - vm_compute. reflexivity.
  - right. reflexivity.
Defined.


Lemma getLan_without_IPv4_address_witness :
  fst (getLan 1 1 0 false 6 0 0 bare_world) = Ok (ccSuccess, [0x11; 255; 255; 255; 255]).
Proof.
  apply (getLan_without_IPv4_address 1 1 6 0 0 sample_params bare_world).
  - vm_compute. reflexivity.
  - vm_compute. reflexivity.
  - vm_compute. reflexivity.
  - vm_compute. reflexivity.
Defined.

